(** * A risk-gated trading bot worker: shallow embedding of [src/index.ts]

    The worker has four parts, embedded below in the order of the source:
    - [TradingBotState], the Durable Object with the per-day risk counters;
    - [getOrBuildMasterWatchlist], the per-day watchlist in two module globals;
    - [scanAndTrade_H3], the per-symbol entry scan and position sizing;
    - [runBotOnce], the run procedure with its time-of-day and daily-loss gates.

    JavaScript numbers are IEEE 754 binary64 values and are modelled by Rocq's
    primitive floats, whose operations are the same ones (round to nearest,
    ties to even; every comparison with NaN is false). *)

From Stdlib Require Import ZArith QArith Floats Ascii String Bool Lia.
From stdpp Require Import base option list strings gmap.

Set Warnings "-inexact-float".

Local Open Scope Z_scope.

(** ** JavaScript primitives used by the worker *)
Module JS.

(** [Number(n)] for an array length or another small non-negative integer. *)
Definition ofZ (n : Z) : float :=
  SF2Prim (binary_normalize prec emax n 0 false).

(** [isFinite(x)] on a number. *)
Definition isFinite (x : float) : bool := PrimFloat.is_finite x.

(** [Math.floor]: the greatest integer not above [x]; NaN, the infinities and
    both zeros are returned as they are. A double [m * 2^e] with [e < 0] has
    an integer part below [2^53], which converts exactly. *)
Definition Math_floor (x : float) : float :=
  match Prim2SF x with
  | S754_finite s m e =>
      if 0 <=? e then x
      else
        let q := Z.shiftr (Z.pos m) (- e) in
        if Z.shiftl q (- e) =? Z.pos m then x
        else if s then (- ofZ (q + 1))%float else ofZ q
  | _ => x
  end.

(** The rational number a finite double stands for: [m * 2^e], negated
    when the sign bit is set; [None] for NaN and the infinities. It is the
    yardstick against which [Math_floor] is checked below. *)
Definition valueOf (x : float) : option Q :=
  match Prim2SF x with
  | S754_zero _ => Some 0%Q
  | S754_finite s m e =>
      let n := if s then Z.neg m else Z.pos m in
      Some (match e with
            | Z.neg k => Qmake n (2 ^ k)
            | _ => inject_Z (n * 2 ^ e)
            end)
  | _ => None
  end.

(** *** [parseFloat] and [parseInt]

    Both skip leading white space, read the longest prefix that is a
    literal of their grammar and ignore the rest; with no such prefix the
    result is NaN. A string of this development holds the UTF-8 bytes of
    the source's string, so a white space or line terminator character of
    the language is one, two or three bytes long. *)

(** TAB, LF, VT, FF, CR and SPACE. *)
Definition isWhiteSpace (c : ascii) : bool :=
  let n := Z.of_nat (nat_of_ascii c) in
  (n =? 9) || (n =? 10) || (n =? 11) || (n =? 12) || (n =? 13) || (n =? 32).

(** U+00A0 (no-break space), in two bytes. *)
Definition isWhiteSpace2 (c1 c2 : ascii) : bool :=
  let n1 := Z.of_nat (nat_of_ascii c1) in
  let n2 := Z.of_nat (nat_of_ascii c2) in
  (n1 =? 194) && (n2 =? 160).

(** U+1680, U+2000 to U+200A, U+2028, U+2029, U+202F, U+205F, U+3000 and
    U+FEFF, in three bytes. *)
Definition isWhiteSpace3 (c1 c2 c3 : ascii) : bool :=
  let n1 := Z.of_nat (nat_of_ascii c1) in
  let n2 := Z.of_nat (nat_of_ascii c2) in
  let n3 := Z.of_nat (nat_of_ascii c3) in
  ((n1 =? 225) && (n2 =? 154) && (n3 =? 128))
  || ((n1 =? 226) && (n2 =? 128)
      && (((128 <=? n3) && (n3 <=? 138)) || (n3 =? 168) || (n3 =? 169)
          || (n3 =? 175)))
  || ((n1 =? 226) && (n2 =? 129) && (n3 =? 159))
  || ((n1 =? 227) && (n2 =? 128) && (n3 =? 128))
  || ((n1 =? 239) && (n2 =? 187) && (n3 =? 191)).

Fixpoint trimStart (s : string) : string :=
  match s with
  | String c1 r1 =>
      if isWhiteSpace c1 then trimStart r1
      else
        match r1 with
        | String c2 r2 =>
            if isWhiteSpace2 c1 c2 then trimStart r2
            else
              match r2 with
              | String c3 r3 =>
                  if isWhiteSpace3 c1 c2 c3 then trimStart r3 else s
              | EmptyString => s
              end
        | EmptyString => s
        end
  | EmptyString => s
  end.

Definition digitOf (c : ascii) : option Z :=
  let n := Z.of_nat (nat_of_ascii c) in
  if (48 <=? n) && (n <=? 57) then Some (n - 48) else None.

(** Reads [DecimalDigits] at the head of [s]: the value accumulated on
    [acc], the number of digits read added to [n], and the rest. *)
Fixpoint readDigits (s : string) (acc n : Z) : Z * Z * string :=
  match s with
  | String c r =>
      match digitOf c with
      | Some d => readDigits r (10 * acc + d) (n + 1)
      | None => (acc, n, s)
      end
  | EmptyString => (acc, n, s)
  end.

Definition readSign (s : string) : bool * string :=
  match s with
  | String "-" r => (true, r)
  | String "+" r => (false, r)
  | _ => (false, s)
  end.

(** The value of the [ExponentPart] at the head of [s]; 0 when the head is
    not a complete exponent part (it then stays outside the prefix). *)
Definition readExponent (s : string) : Z :=
  match s with
  | String c r =>
      if Ascii.eqb c "e" || Ascii.eqb c "E" then
        let '(neg, r') := readSign r in
        let '(e, n, _) := readDigits r' 0 0 in
        if n =? 0 then 0 else if neg then - e else e
      else 0
  | EmptyString => 0
  end.

(** The double nearest to [n / d] ([0 <= n], [0 < d]), ties to even. The
    quotient is taken with more than a thousand extra bits and the rest of
    the division is kept as a sticky bit, so the one rounding done by
    [binary_normalize] is the rounding of the exact ratio. *)
Definition roundRatio (n d : Z) : spec_float :=
  let k := 1100 + Z.log2 d in
  let q := Z.shiftl n k / d in
  let sticky := if Z.shiftl n k mod d =? 0 then 0 else 1 in
  binary_normalize prec emax (2 * q + sticky) (- (k + 1)) false.

(** The number value of the decimal [m * 10^e10], negated when [neg]. *)
Definition decimalToNumber (neg : bool) (m e10 : Z) : float :=
  let mag :=
    SF2Prim (if 0 <=? e10 then roundRatio (m * 10 ^ e10) 1
             else roundRatio m (10 ^ (- e10))) in
  if neg then (- mag)%float else mag.

Definition parseFloat (input : string) : float :=
  let '(neg, s) := readSign (trimStart input) in
  if String.prefix "Infinity" s then
    (if neg then neg_infinity else infinity)
  else
    let '(ip, ni, s1) := readDigits s 0 0 in
    let '(m, nf, s2) :=
      match s1 with
      | String "." r => readDigits r ip 0
      | _ => (ip, 0, s1)
      end in
    if (ni =? 0) && (nf =? 0) then nan
    else decimalToNumber neg m (readExponent s2 - nf).

(** [parseInt(input, 10)]. *)
Definition parseInt10 (input : string) : float :=
  let '(neg, s) := readSign (trimStart input) in
  let '(m, n, _) := readDigits s 0 0 in
  if n =? 0 then nan else decimalToNumber neg m 0.

(** [s.toLowerCase()] where the worker uses it, to compare the result with
    ["true"]: the ASCII capitals are lowered and the other bytes kept (no
    other character has a letter of ["true"] as its lower case). *)
Definition lowerChar (c : ascii) : ascii :=
  let n := nat_of_ascii c in
  if ((65 <=? n) && (n <=? 90))%nat then ascii_of_nat (n + 32) else c.

Fixpoint toLowerCase (s : string) : string :=
  match s with
  | String c r => String (lowerChar c) (toLowerCase r)
  | EmptyString => EmptyString
  end.

(** [a ?? b] on a value that is a string when present. *)
Definition nullish (a : option string) (b : string) : string :=
  match a with Some s => s | None => b end.

(** [v == null]. *)
Definition isNull {A : Type} (v : option A) : bool :=
  match v with Some _ => false | None => true end.

(** [a || b] on strings: the empty string is the only falsy one. *)
Definition orElse (a b : string) : string :=
  if String.eqb a "" then b else a.

End JS.

(** ** The Durable Object [TradingBotState] *)
Module TradingBotState.

(** An argument typed [number | string] in the source. *)
Inductive raw : Type :=
| Num (x : float)
| Str (s : string).

(** [typeof v === "number" ? v : parseFloat(String(v) || dflt)]. *)
Definition toNumber (v : raw) (dflt : string) : float :=
  match v with
  | Num x => x
  | Str s => JS.parseFloat (JS.orElse s dflt)
  end.

(** The object's [data] field; [null] is [None]. *)
Record Data : Type := mkData {
  date : option string;
  startEquity : option float;
  hitDailyMaxLoss : bool;
  consecutiveLosses : float;
  dailyMaxLossPct : option float
}.

(** The object: its two fields and the one storage key it uses,
    ["botState"], which only [saveState] writes. *)
Record t : Type := mk {
  data : Data;
  loaded : bool;
  storage : option Data
}.

Definition initialData : Data :=
  {| date := None; startEquity := None; hitDailyMaxLoss := false;
     consecutiveLosses := 0%float; dailyMaxLossPct := None |}.

(** The constructor, run whenever the platform (re)creates the object over
    its durable storage. *)
Definition create (stored : option Data) : t :=
  {| data := initialData; loaded := false; storage := stored |}.

(** [loadState]: on the first request after the constructor, reads
    ["botState"] and, when there is one, copies its fields into [data]. *)
Definition loadState (o : t) : t :=
  if loaded o then o
  else
    {| data :=
         match storage o with
         | Some stored =>
             {| date := date stored;
                startEquity := startEquity stored;
                hitDailyMaxLoss := hitDailyMaxLoss stored;
                consecutiveLosses := consecutiveLosses stored;
                dailyMaxLossPct := dailyMaxLossPct stored |}
         | None => data o
         end;
       loaded := true;
       storage := storage o |}.

(** [saveState]: writes [data] under ["botState"]. *)
Definition saveState (o : t) : t :=
  {| data := data o; loaded := loaded o; storage := Some (data o) |}.

(** The assignments to [this.data]. *)
Definition withData (o : t) (d : Data) : t :=
  {| data := d; loaded := loaded o; storage := storage o |}.

(** [this.data.date !== date] is the negation of this. *)
Definition sameDate (stored : option string) (d : string) : bool :=
  match stored with
  | Some s => String.eqb s d
  | None => false
  end.

(** What [handleGetOrUpdate] returns: the fields of [data] after the call,
    and [currentDayPL]. *)
Record RiskState : Type := mkRiskState {
  state : Data;
  currentDayPL : option float
}.

(** [handleGetOrUpdate(date, equityRaw, dailyMaxLossPctRaw)]. [d1] is
    [data] after the reset-or-keep branch, [d2] after the loss test. *)
Definition handleGetOrUpdate (d : string) (equityRaw dailyMaxLossPctRaw : raw)
    (o : t) : RiskState * t :=
  let o := loadState o in
  let eq := toNumber equityRaw "0" in
  let maxLossPct := toNumber dailyMaxLossPctRaw "0.03" in
  let d1 :=
    if negb (sameDate (date (data o)) d) || JS.isNull (startEquity (data o))
    then {| date := Some d; startEquity := Some eq; hitDailyMaxLoss := false;
            consecutiveLosses := 0%float; dailyMaxLossPct := Some maxLossPct |}
    else {| date := date (data o); startEquity := startEquity (data o);
            hitDailyMaxLoss := hitDailyMaxLoss (data o);
            consecutiveLosses := consecutiveLosses (data o);
            dailyMaxLossPct := Some maxLossPct |} in
  let '(pl, d2) :=
    match startEquity d1 with
    | Some se =>
        let pl := (eq - se)%float in
        let maxLoss :=
          (- PrimFloat.abs (se * default maxLossPct (dailyMaxLossPct d1)))%float in
        (Some pl,
         if (pl <=? maxLoss)%float
         then {| date := date d1; startEquity := startEquity d1;
                 hitDailyMaxLoss := true;
                 consecutiveLosses := consecutiveLosses d1;
                 dailyMaxLossPct := dailyMaxLossPct d1 |}
         else d1)
    | None => (None, d1)
    end in
  ({| state := d2; currentDayPL := pl |}, saveState (withData o d2)).

(** What [handleRegisterTradeResult] returns. *)
Record TradeResult : Type := mkTradeResult {
  resultDate : option string;
  resultLosses : float
}.

(** [handleRegisterTradeResult(date, pnlRaw)]. *)
Definition handleRegisterTradeResult (d : string) (pnlRaw : raw) (o : t)
    : TradeResult * t :=
  let o := loadState o in
  let d1 :=
    if negb (sameDate (date (data o)) d)
    then {| date := Some d; startEquity := startEquity (data o);
            hitDailyMaxLoss := hitDailyMaxLoss (data o);
            consecutiveLosses := 0%float;
            dailyMaxLossPct := dailyMaxLossPct (data o) |}
    else data o in
  let pnl := toNumber pnlRaw "0" in
  let losses :=
    if (pnl <? 0)%float then (consecutiveLosses d1 + 1)%float
    else if (0 <? pnl)%float then 0%float
    else consecutiveLosses d1 in
  let d2 :=
    {| date := date d1; startEquity := startEquity d1;
       hitDailyMaxLoss := hitDailyMaxLoss d1;
       consecutiveLosses := losses;
       dailyMaxLossPct := dailyMaxLossPct d1 |} in
  ({| resultDate := date d2; resultLosses := consecutiveLosses d2 |},
   saveState (withData o d2)).

(** A request to the object's [fetch], after [request.json()]: the method
    and body cases the handler tells apart. [date] is [String(body.date)]. *)
Inductive Request : Type :=
| NotPost
| BadBody
| GetOrUpdate (d : string) (equity dailyMaxLossPct : raw)
| RegisterTradeResult (d : string) (pnl : raw)
| OtherAction.

Inductive Response : Type :=
| MethodNotAllowed
| BadRequest
| UnknownAction
| RiskStateJson (r : RiskState)
| TradeResultJson (r : TradeResult).

Definition fetch (req : Request) (o : t) : Response * t :=
  match req with
  | NotPost => (MethodNotAllowed, o)
  | BadBody => (BadRequest, o)
  | GetOrUpdate d e p =>
      let '(r, o') := handleGetOrUpdate d e p o in (RiskStateJson r, o')
  | RegisterTradeResult d p =>
      let '(r, o') := handleRegisterTradeResult d p o in (TradeResultJson r, o')
  | OtherAction => (UnknownAction, o)
  end.

(** What happens to an object over time: requests, and evictions after
    which the constructor runs again over the same storage. *)
Inductive Event : Type :=
| Rpc (req : Request)
| Restart.

Definition step (o : t) (e : Event) : t :=
  match e with
  | Rpc req => snd (fetch req o)
  | Restart => create (storage o)
  end.

(** The object after the events [es]; every state an object can be in is
    [run (create None) es] for some [es]. *)
Definition run (o : t) (es : list Event) : t := fold_left step es o.

(** The counters as the next request will see them. *)
Definition current (o : t) : Data := data (loadState o).

(** The date a request carries, if it is one of the two operations. *)
Definition requestDate (req : Request) : option string :=
  match req with
  | GetOrUpdate d _ _ | RegisterTradeResult d _ => Some d
  | _ => None
  end.

(** An event of the day [d]: not an operation carrying another date. *)
Definition onDate (d : string) (e : Event) : Prop :=
  match e with
  | Rpc req => forall d', requestDate req = Some d' -> d' = d
  | Restart => True
  end.

(** The [hitDailyMaxLoss] field of a response, when it has one. *)
Definition responseHit (r : Response) : option bool :=
  match r with
  | RiskStateJson rs => Some (hitDailyMaxLoss (state rs))
  | _ => None
  end.

(** The two fields and the storage agree: a loaded object has saved its
    data, an object not yet loaded still has the constructor's. *)
Definition consistent (o : t) : Prop :=
  (loaded o = true -> storage o = Some (data o))
  /\ (loaded o = false -> data o = initialData).

(** The state of a day [d] on which the daily maximum loss has been hit. *)
Definition tripped (d : string) (o : t) : Prop :=
  consistent o
  /\ date (current o) = Some d
  /\ hitDailyMaxLoss (current o) = true
  /\ startEquity (current o) <> None.

End TradingBotState.

(** ** The worker: watchlist, scan and run *)
Module Worker.

(** *** Configuration and collaborators *)

(** The variables of [env] the code reads; each is a string when set.
    [MASSIVE_BASE_URL] only shapes the snapshot URL and is left out. *)
Record Env : Type := mkEnv {
  MASSIVE_API_KEY : option string;
  PRICE_MIN : option string;
  PRICE_MAX : option string;
  PCT_CHANGE_MIN : option string;
  REL_VOL_MIN : option string;
  VOL_MIN : option string;
  MAX_SCREEN : option string;
  DRY_RUN : option string;
  RISK_PCT_PER_TRADE : option string
}.

(** A ticker of the snapshot. A numeric field is [None] when it is absent
    or not of type number ([t.day] and [t.min] default to empty objects). *)
Record Ticker : Type := mkTicker {
  ticker : string;
  day_c : option float;
  day_v : option float;
  min_av : option float;
  todaysChangePerc : option float
}.

(** How the snapshot request can end. *)
Inductive SnapshotResponse : Type :=
| FetchRejects
| HttpNotOk
| JsonRejects
| Json (tickers : option (list Ticker)).

(** A one-minute bar as [fetch1MinBars] returns it, its fields numbers. *)
Module Bar.
Record t : Type := mk { o : float; h : float; l : float; c : float; v : float }.
End Bar.

(** The broker's account object. The broker sends amounts as decimal
    strings; a field that is absent is [None]. *)
Record Account : Type := mkAccount {
  equity : option string;
  buying_power : option string
}.

(** An open position, an object parsed from the broker's JSON. The run
    reads its [symbol], a string; [others] holds the names of the object's
    other own properties, each with whether its value is truthy. *)
Record Position : Type := mkPosition {
  symbol : string;
  others : gmap string bool
}.

(** *** The object [positionsBySymbol]

    [runBotOnce] starts it as [{}] and assigns
    [positionsBySymbol[p.symbol] = p] for each open position;
    [scanAndTrade_H3] reads [positionsBySymbol[symbol]] as a condition. A
    plain object inherits from [Object.prototype]: twelve names read as
    truthy on [{}] with nothing assigned, and an assignment under
    ["__proto__"] reaches the setter of [Object.prototype], which makes the
    assigned object the prototype instead of adding a property. *)

(** The object: the properties assigned to it, and the position that has
    taken the place of [Object.prototype] as its prototype, if any (that
    position inherits from [Object.prototype] in its turn). *)
Record PositionsBySymbol : Type := mkPositionsBySymbol {
  own : gmap string Position;
  prototype : option Position
}.

(** [{}]. *)
Definition emptyObject : PositionsBySymbol :=
  {| own := ∅; prototype := None |}.

(** The property names of [Object.prototype]. Each holds a function, but
    ["__proto__"], an accessor whose getter returns the prototype of the
    object read, itself an object; so every one reads as truthy. *)
Definition objectPrototypeKeys : list string :=
  ["constructor"; "__defineGetter__"; "__defineSetter__"; "hasOwnProperty";
   "__lookupGetter__"; "__lookupSetter__"; "isPrototypeOf";
   "propertyIsEnumerable"; "toString"; "valueOf"; "__proto__";
   "toLocaleString"]%string.

(** Whether the own property [key] of a position is truthy; [None] when
    the position has no own property of that name. A string is truthy
    unless empty. *)
Definition ownProperty (p : Position) (key : string) : option bool :=
  if String.eqb key "symbol" then Some (negb (String.eqb (symbol p) ""))
  else others p !! key.

(** Whether [positionsBySymbol[key]] is truthy. An assigned position is an
    object, hence truthy; a name not assigned is looked up along the
    prototype chain. *)
Definition truthyAt (positionsBySymbol : PositionsBySymbol) (key : string) : bool :=
  match own positionsBySymbol !! key with
  | Some _ => true
  | None =>
      let inherited := bool_decide (key ∈ objectPrototypeKeys) in
      match prototype positionsBySymbol with
      | Some q =>
          match ownProperty q key with
          | Some truthy => truthy
          | None => inherited
          end
      | None => inherited
      end
  end.

(** [positionsBySymbol[p.symbol] = p]. The assignment adds or replaces an
    own property, unless the name is ["__proto__"] and neither the object
    nor a position that is its prototype has an own property of that name:
    the assignment then reaches the setter, and [p] becomes the prototype. *)
Definition assign (positionsBySymbol : PositionsBySymbol) (p : Position)
    : PositionsBySymbol :=
  let key := symbol p in
  let reachesSetter :=
    String.eqb key "__proto__"
    && match own positionsBySymbol !! key with
       | Some _ => false
       | None =>
           match prototype positionsBySymbol with
           | Some q =>
               match ownProperty q key with Some _ => false | None => true end
           | None => true
           end
       end in
  if reachesSetter
  then {| own := own positionsBySymbol; prototype := Some p |}
  else {| own := <[key := p]> (own positionsBySymbol);
          prototype := prototype positionsBySymbol |}.

(** The requests a run sends out, in the order it sends them. *)
Inductive Event : Type :=
| SnapshotFetch
| AccountFetch
| RiskStateFetch (day : string) (equity : float)
| PositionsFetch
| BarsFetch (symbol : string) (limit : Z)
| OrderPlaced (symbol : string) (qty : float).

(** The helpers of the source file that this development does not have
    ([getNewYorkTimeInfo], [fetchAlpacaAccount], [getRiskState],
    [fetchAlpacaPositions], [fetch1MinBars]) and the snapshot request, as
    answers of the outside world. An answer may depend on everything
    requested so far. *)
Record Collaborators : Type := mkCollaborators {
  getNewYorkTimeInfo : list Event -> Z * string;
  massiveSnapshot : list Event -> SnapshotResponse;
  alpacaAccount : list Event -> option Account;
  riskStateStore : list Event -> string -> float -> TradingBotState.RiskState;
  alpacaPositions : list Event -> list Position;
  minuteBars : list Event -> string -> Z -> option (list Bar.t)
}.

(** The two module globals, and the requests sent so far. *)
Record World : Type := mkWorld {
  MASTER_WATCHLIST : list string;
  MASTER_WATCHLIST_DAY : option string;
  trace : list Event
}.

(** A freshly loaded module. *)
Definition initialWorld : World :=
  {| MASTER_WATCHLIST := []; MASTER_WATCHLIST_DAY := None; trace := [] |}.

(** *** Effects: a state monad over [World] *)
Definition M (A : Type) : Type := World -> A * World.

Definition ret {A : Type} (a : A) : M A := fun w => (a, w).

Definition bind {A B : Type} (m : M A) (k : A -> M B) : M B :=
  fun w => let '(a, w') := m w in k a w'.

Declare Scope worker_scope.
Delimit Scope worker_scope with worker.
Notation "x <- m ;; k" := (bind m (fun x => k))
  (at level 100, m at next level, right associativity) : worker_scope.
Notation "m ;;; k" := (bind m (fun _ => k))
  (at level 100, right associativity) : worker_scope.
Local Open Scope worker_scope.

(** Sends a request: its answer is read off the trace so far, and the
    request is appended to the trace. *)
Definition request {A : Type} (answer : list Event -> A) (e : Event) : M A :=
  fun w =>
    (answer (trace w),
     {| MASTER_WATCHLIST := MASTER_WATCHLIST w;
        MASTER_WATCHLIST_DAY := MASTER_WATCHLIST_DAY w;
        trace := trace w ++ [e] |}).

(** [MASTER_WATCHLIST = symbols; MASTER_WATCHLIST_DAY = day; return MASTER_WATCHLIST]. *)
Definition storeWatchlist (symbols : list string) (day : string)
    : M (list string) :=
  fun w =>
    (symbols,
     {| MASTER_WATCHLIST := symbols; MASTER_WATCHLIST_DAY := Some day;
        trace := trace w |}).

(** *** H2: the watchlist builder *)

Record Filters : Type := mkFilters {
  priceMin : float;
  priceMax : float;
  pctChangeMin : float;
  relVolMin : float;
  volMin : float;
  maxScreen : float
}.

Definition filtersOf (env : Env) : Filters :=
  {| priceMin := JS.parseFloat (JS.nullish (PRICE_MIN env) "5");
     priceMax := JS.parseFloat (JS.nullish (PRICE_MAX env) "200");
     pctChangeMin := JS.parseFloat (JS.nullish (PCT_CHANGE_MIN env) "2");
     relVolMin := JS.parseFloat (JS.nullish (REL_VOL_MIN env) "1.5");
     volMin := JS.parseFloat (JS.nullish (VOL_MIN env) "500000");
     maxScreen := JS.parseInt10 (JS.nullish (MAX_SCREEN env) "100") |}.

(** [relVol] of the loop body. *)
Definition relVolOf (t : Ticker) : option float :=
  match min_av t, day_v t with
  | Some av, Some v => if (0 <? av)%float then Some (v / av)%float else None
  | _, _ => None
  end.

(** A sub-check of the loop body: [x == null || bad x] sets [ok = false]. *)
Definition check (x : option float) (bad : float -> bool) : bool :=
  match x with
  | Some y => negb (bad y)
  | None => false
  end.

(** The value of [ok] at the end of the loop body. *)
Definition tickerOk (f : Filters) (t : Ticker) : bool :=
  check (day_c t) (fun price => (price <? priceMin f)%float || (priceMax f <? price)%float)
  && check (todaysChangePerc t) (fun pct => (PrimFloat.abs pct <? pctChangeMin f)%float)
  && check (relVolOf t) (fun relVol => (relVol <? relVolMin f)%float)
  && check (day_v t) (fun vol => (vol <? volMin f)%float).

(** The [for (const t of tickers)] loop with its [break]; [passed] is
    the array built so far. The per-check counters only feed a log line. *)
Fixpoint screen (f : Filters) (tickers : list Ticker) (passed : list string)
    : list string :=
  match tickers with
  | [] => passed
  | t :: rest =>
      if tickerOk f t then
        let passed := passed ++ [ticker t] in
        if (maxScreen f <=? JS.ofZ (Z.of_nat (length passed)))%float then passed
        else screen f rest passed
      else screen f rest passed
  end.

(** [!massiveApiKey]. *)
Definition missingKey (key : option string) : bool :=
  match key with
  | Some k => String.eqb k ""
  | None => true
  end.

Definition getOrBuildMasterWatchlist (ext : Collaborators) (env : Env)
    (nyDayKey : string) : M (list string) :=
  fun w =>
    if TradingBotState.sameDate (MASTER_WATCHLIST_DAY w) nyDayKey
       && (0 <? length (MASTER_WATCHLIST w))%nat
    then (MASTER_WATCHLIST w, w)
    else if missingKey (MASSIVE_API_KEY env) then storeWatchlist [] nyDayKey w
    else
      (res <- request (massiveSnapshot ext) SnapshotFetch ;;
       match res with
       | FetchRejects | HttpNotOk | JsonRejects => storeWatchlist [] nyDayKey
       | Json data =>
           let tickers := default [] data in
           storeWatchlist (screen (filtersOf env) tickers []) nyDayKey
       end) w.

(** *** H3: the entry scan *)

Record MACD : Type := mkMACD { line : float; signal : float; histogram : float }.

(** The pure helpers of the source file that this development does not
    have. The scan takes them as an argument and is stated over any
    implementation of them. *)
Record Indicators : Type := mkIndicators {
  calculateMACD : list float -> nat -> nat -> nat -> option MACD;
  isGreen : Bar.t -> bool;
  isRed : Bar.t -> bool;
  getSessionOpenPrice : list Bar.t -> float
}.

Inductive Pattern : Type := PULLBACK | ABCD.

Module Action.
Record t : Type := mk {
  symbol : string;
  pattern : Pattern;
  priceNow : float;
  triggerPrice : float;
  shares : float;
  riskDollars : float;
  riskPerShare : float
}.
End Action.

(** The first loop of the ABCD block: [bs] are the bars from index [i] on,
    [bIdx] and [bHigh] the running maximum of [h]. *)
Fixpoint highest (bs : list Bar.t) (i bIdx : nat) (bHigh : float) : nat * float :=
  match bs with
  | [] => (bIdx, bHigh)
  | b :: rest =>
      if (bHigh <? Bar.h b)%float then highest rest (S i) i (Bar.h b)
      else highest rest (S i) bIdx bHigh
  end.

(** The second loop: the running minimum of [l]. *)
Fixpoint lowestLow (bs : list Bar.t) (lowest : float) : float :=
  match bs with
  | [] => lowest
  | b :: rest =>
      lowestLow rest (if (Bar.l b <? lowest)%float then Bar.l b else lowest)
  end.

(** The three variables the ABCD block leaves behind. *)
Record ABCDCheck : Type := mkABCDCheck {
  isABCDSetup : bool;
  entryTriggerABCD : option float;
  pointCPrice : option float
}.

Definition noABCD : ABCDCheck :=
  {| isABCDSetup := false; entryTriggerABCD := None; pointCPrice := None |}.

(** The ABCD block. [Math.max(0, bars.length - lookback)] is the truncated
    subtraction of [nat]. The two [match]es read [bars[startIdx]] and
    [bars[bIdx + 1]]; their empty cases are the cases the enclosing tests
    exclude. *)
Definition abcdCheck (ind : Indicators) (bars : list Bar.t) (current : Bar.t) : ABCDCheck :=
  if (30 <=? length bars)%nat then
    let lookback := 30%nat in
    let startIdx := (length bars - lookback)%nat in
    match drop startIdx bars with
    | first :: rest =>
        let '(bIdx, bHigh) := highest rest (S startIdx) startIdx (Bar.h first) in
        let pointBPrice := bHigh in
        if (bIdx <? length bars - 1)%nat then
          match drop (bIdx + 1) bars with
          | next :: after =>
              let pointC := lowestLow after (Bar.l next) in
              let sessionOpen := getSessionOpenPrice ind bars in
              let isHigherLow := (sessionOpen <? pointC)%float in
              let isCurlingUp :=
                (pointC <? Bar.c current)%float && (Bar.c current <? pointBPrice)%float in
              {| isABCDSetup := isHigherLow && isCurlingUp;
                 entryTriggerABCD := Some pointBPrice;
                 pointCPrice := Some pointC |}
          | [] => noABCD
          end
        else noABCD
    | [] => noABCD
    end
  else noABCD.

(** "Choose pattern & trigger": the values of [pattern] and [triggerPrice]. *)
Definition choosePattern (isPullback : bool) (entryTriggerPullback : float)
    (abcd : ABCDCheck) : option Pattern * float :=
  if isPullback then (Some PULLBACK, entryTriggerPullback)
  else
    match entryTriggerABCD abcd with
    | Some trigger =>
        if isABCDSetup abcd then (Some ABCD, trigger) else (None, 0%float)
    | None => (None, 0%float)
    end.

(** [priceNow >= triggerPrice && isHighVolume]. *)
Definition confirmed (current last : Bar.t) (triggerPrice : float) : bool :=
  (triggerPrice <=? Bar.c current)%float && (Bar.v last <? Bar.v current)%float.

(** The value of [riskPerShare] when [shares] is computed. *)
Definition riskPerShareOf (pattern : Pattern) (triggerPrice : float) (last : Bar.t)
    (pointCPrice : option float) (priceNow : float) : float :=
  let riskPerShare :=
    match pattern, pointCPrice with
    | PULLBACK, _ => (triggerPrice - Bar.l last)%float
    | ABCD, Some pointC => (triggerPrice - pointC)%float
    | ABCD, None => (priceNow * 0.01)%float
    end in
  if negb (JS.isFinite riskPerShare) || (riskPerShare <=? 0)%float
  then (priceNow * 0.01)%float
  else riskPerShare.

(** How the loop body ends for a symbol once its bars are fetched. *)
Inductive Outcome : Type :=
| NotEnoughBars
| NoMACD
| MACDNotPositive
| NoSetup
| NotConfirmed (pattern : Pattern)
| SizingNonPositive (pattern : Pattern)
| Entry (action : Action.t).

(** The loop body from the bar count test to [actions.push]. The three
    bars are read from the end of the array; an array shorter than three
    is shorter than thirty. *)
Definition evaluate (ind : Indicators) (riskPct : float) (account : Account)
    (symbol : string) (fetched : option (list Bar.t)) : Outcome :=
  match fetched with
  | None => NotEnoughBars
  | Some bars =>
      if (length bars <? 30)%nat then NotEnoughBars
      else
        match rev bars with
        | current :: last :: prev :: _ =>
            let closes := map Bar.c bars in
            match calculateMACD ind closes 12 26 9 with
            | None => NoMACD
            | Some macd =>
                let isMacdPositive := (signal macd <? line macd)%float in
                if negb isMacdPositive then MACDNotPositive
                else
                  let isPullback := isGreen ind prev && isRed ind last in
                  let entryTriggerPullback := Bar.h last in
                  let abcd := abcdCheck ind bars current in
                  match choosePattern isPullback entryTriggerPullback abcd with
                  | (Some pattern, triggerPrice) =>
                      if negb (0 <? triggerPrice)%float then NoSetup
                      else
                        let priceNow := Bar.c current in
                        if negb (confirmed current last triggerPrice)
                        then NotConfirmed pattern
                        else
                          let equity := JS.parseFloat (JS.nullish (equity account) "0") in
                          let riskDollars := (equity * riskPct)%float in
                          let riskPerShare :=
                            riskPerShareOf pattern triggerPrice last
                              (pointCPrice abcd) priceNow in
                          let shares := JS.Math_floor (riskDollars / riskPerShare) in
                          if negb (JS.isFinite shares) || (shares <=? 0)%float
                          then SizingNonPositive pattern
                          else
                            Entry {| Action.symbol := symbol;
                                     Action.pattern := pattern;
                                     Action.priceNow := priceNow;
                                     Action.triggerPrice := triggerPrice;
                                     Action.shares := shares;
                                     Action.riskDollars := riskDollars;
                                     Action.riskPerShare := riskPerShare |}
                  | (None, _) => NoSetup
                  end
            end
        | _ => NotEnoughBars
        end
  end.

(** The three accumulators of the loop, which it returns. *)
Record ScanResult : Type := mkScanResult {
  scanned : nat;
  signals : nat;
  actions : list Action.t
}.

(** [signals++], reached exactly by the outcomes past the confirmation. *)
Definition signalFired (out : Outcome) : bool :=
  match out with
  | SizingNonPositive _ | Entry _ => true
  | _ => false
  end.

(** Modelled from the spec: the end of the loop body after [actions.push],
    where the source at hand stops. In dry-run mode the action is recorded
    without submitting an order; otherwise the order is submitted to the
    broker ([placeMarketOrder] with [qty: shares], [side: "buy"]). *)
Definition submitOrder (dryRun : bool) (symbol : string) (shares : float) : M unit :=
  if dryRun then ret tt
  else request (fun _ => tt) (OrderPlaced symbol shares).

(** One turn of [for (const symbol of symbols)]. *)
Definition scanSymbol (ind : Indicators) (ext : Collaborators) (dryRun : bool)
    (riskPct : float) (positionsBySymbol : PositionsBySymbol)
    (account : Account) (acc : ScanResult) (symbol : string) : M ScanResult :=
  let acc :=
    {| scanned := S (scanned acc); signals := signals acc; actions := actions acc |} in
  if truthyAt positionsBySymbol symbol then ret acc
  else
    bars <- request (fun tr => minuteBars ext tr symbol 60) (BarsFetch symbol 60) ;;
    let out := evaluate ind riskPct account symbol bars in
    let acc :=
      {| scanned := scanned acc;
         signals := if signalFired out then S (signals acc) else signals acc;
         actions := actions acc |} in
    match out with
    | Entry a =>
        let acc :=
          {| scanned := scanned acc; signals := signals acc;
             actions := actions acc ++ [a] |} in
        submitOrder dryRun symbol (Action.shares a) ;;;
        ret acc
    | _ => ret acc
    end.

Fixpoint forEach {A B : Type} (body : B -> A -> M B) (xs : list A) (acc : B) : M B :=
  match xs with
  | [] => ret acc
  | x :: rest => acc <- body acc x ;; forEach body rest acc
  end.

(** [scanAndTrade_H3]. Its [return] is past the end of the source at hand;
    the run result of the specification carries [scanned], [signals] and
    [actions], the three accumulators of the loop. *)
Definition scanAndTrade_H3 (ind : Indicators) (ext : Collaborators) (env : Env)
    (watchlist : list string) (positionsBySymbol : PositionsBySymbol)
    (account : Account) : M ScanResult :=
  let dryRun := String.eqb (JS.toLowerCase (JS.nullish (DRY_RUN env) "true")) "true" in
  let riskPct := JS.parseFloat (JS.nullish (RISK_PCT_PER_TRADE env) "0.01") in
  forEach (scanSymbol ind ext dryRun riskPct positionsBySymbol account) watchlist
    {| scanned := 0; signals := 0; actions := [] |}.

(** *** The run *)

Inductive RunResult : Type :=
| TooEarly
| TooLate
| EmptyWatchlist
| AccountFetchFailed
| DailyMaxLossHit (riskState : TradingBotState.RiskState)
| Completed (riskState : TradingBotState.RiskState) (scan : ScanResult).

(** The [ok] and [reason] fields of the object a run returns. *)
Definition ok (r : RunResult) : bool :=
  match r with
  | EmptyWatchlist | AccountFetchFailed => false
  | _ => true
  end.

Definition reason (r : RunResult) : option string :=
  match r with
  | TooEarly => Some "too-early"%string
  | TooLate => Some "too-late"%string
  | EmptyWatchlist => Some "empty-watchlist"%string
  | AccountFetchFailed => Some "account-fetch-failed"%string
  | DailyMaxLossHit _ => Some "daily-max-loss-hit"%string
  | Completed _ _ => None
  end.

(** The [riskState] field, when the object has one. *)
Definition riskStateOf (r : RunResult) : option TradingBotState.RiskState :=
  match r with
  | DailyMaxLossHit rs | Completed rs _ => Some rs
  | _ => None
  end.

(** The requests of the scan loop. *)
Definition isScanEvent (e : Event) : bool :=
  match e with
  | BarsFetch _ _ | OrderPlaced _ _ => true
  | _ => false
  end.

(** [w'] is [w] after requests of the scan loop only. *)
Definition scanOnly (w w' : World) : Prop :=
  MASTER_WATCHLIST w' = MASTER_WATCHLIST w
  /\ MASTER_WATCHLIST_DAY w' = MASTER_WATCHLIST_DAY w
  /\ exists evs, trace w' = trace w ++ evs /\ Forall (fun e => isScanEvent e = true) evs.

(** [w] after the request [e]. *)
Definition after (w : World) (e : Event) : World :=
  {| MASTER_WATCHLIST := MASTER_WATCHLIST w;
     MASTER_WATCHLIST_DAY := MASTER_WATCHLIST_DAY w;
     trace := trace w ++ [e] |}.

Definition ENTRY_WINDOW_START : Z := 9 * 60 + 24.
Definition ENTRY_WINDOW_END : Z := 11 * 60.

(** The rest of [runBotOnce] from the watchlist on. *)
Definition runInsideWindow (ind : Indicators) (ext : Collaborators) (env : Env)
    (force : bool) (nyDayKey : string) : M RunResult :=
  watchlist <- getOrBuildMasterWatchlist ext env nyDayKey ;;
  if (length watchlist =? 0)%nat then ret EmptyWatchlist
  else
    account <- request (alpacaAccount ext) AccountFetch ;;
    match account with
    | None => ret AccountFetchFailed
    | Some account =>
        let equity := JS.parseFloat (JS.nullish (equity account) "0") in
        riskState <- request (fun tr => riskStateStore ext tr nyDayKey equity)
                       (RiskStateFetch nyDayKey equity) ;;
        if TradingBotState.hitDailyMaxLoss (TradingBotState.state riskState)
           && negb force
        then ret (DailyMaxLossHit riskState)
        else
          positions <- request (alpacaPositions ext) PositionsFetch ;;
          let positionsBySymbol := fold_left assign positions emptyObject in
          scanResult <- scanAndTrade_H3 ind ext env watchlist positionsBySymbol account ;;
          ret (Completed riskState scanResult)
    end.

Definition runBotOnce (ind : Indicators) (ext : Collaborators) (env : Env)
    (force : bool) : M RunResult :=
  fun w =>
    let '(nyMinutes, nyDayKey) := getNewYorkTimeInfo ext (trace w) in
    if negb force then
      if nyMinutes <? ENTRY_WINDOW_START then (TooEarly, w)
      else if ENTRY_WINDOW_END <? nyMinutes then (TooLate, w)
      else runInsideWindow ind ext env force nyDayKey w
    else runInsideWindow ind ext env force nyDayKey w.

End Worker.

(** ** The missing helpers, from the specification

    Used where a statement needs the scan on concrete bars. *)
Module SpecModel.
Import Worker.

(** Modelled from the spec: [isGreen], absent from the source at hand;
    a bar is green iff [close > open]. *)
Definition isGreen (b : Bar.t) : bool := (Bar.o b <? Bar.c b)%float.

(** Modelled from the spec: [isRed], absent from the source at hand;
    a bar is red iff [close < open]. *)
Definition isRed (b : Bar.t) : bool := (Bar.c b <? Bar.o b)%float.

(** Modelled from the spec: [getSessionOpenPrice], absent from the source at
    hand; the [open] of the first bar of the window of the most recent 30
    bars. *)
Definition getSessionOpenPrice (bars : list Bar.t) : float :=
  match drop (length bars - 30)%nat bars with
  | b :: _ => Bar.o b
  | [] => nan
  end.

(** Modelled from the spec: the sum behind "the simple average of the
    first [period] values". *)
Definition sum (xs : list float) : float :=
  fold_left (fun acc x => (acc + x)%float) xs 0%float.

(** Modelled from the spec: the recursion
    [ema[i] = close[i]*k + ema[i-1]*(1-k)] along [xs], from [prev]. *)
Fixpoint emaFrom (k prev : float) (xs : list float) : list float :=
  match xs with
  | [] => []
  | x :: rest =>
      let e := (x * k + prev * (1 - k))%float in
      e :: emaFrom k e rest
  end.

(** Modelled from the spec: the exponential moving average with smoothing
    [k = 2/(period+1)], seeded by the simple average of the first [period]
    values, then applied to the remainder. *)
Definition ema (xs : list float) (period : nat) : list float :=
  let n := JS.ofZ (Z.of_nat period) in
  let k := (2 / (n + 1))%float in
  let seed := (sum (take period xs) / n)%float in
  seed :: emaFrom k seed (drop period xs).

(** Modelled from the spec: [calculateMACD], absent from the source at hand;
    undefined below [slow + signal] observations, else the last elements of
    the line (fast EMA minus slow EMA where both are defined) and of its
    signal EMA. *)
Definition calculateMACD (closes : list float) (fast slow sig : nat) : option MACD :=
  if (length closes <? slow + sig)%nat then None
  else
    let lineSeq :=
      zip_with (fun f s => (f - s)%float)
        (drop (slow - fast)%nat (ema closes fast)) (ema closes slow) in
    match last lineSeq, last (ema lineSeq sig) with
    | Some l, Some s =>
        Some {| line := l; signal := s; histogram := (l - s)%float |}
    | _, _ => None
    end.

Definition indicators : Indicators :=
  {| Worker.calculateMACD := calculateMACD;
     Worker.isGreen := isGreen;
     Worker.isRed := isRed;
     Worker.getSessionOpenPrice := getSessionOpenPrice |}.

End SpecModel.

(** ** Concrete inputs used by the statements below *)
Module Examples.
Import TradingBotState.

Definition day1 : string := "2024-01-02".

(** The losses counter returned by each of a series of
    [registerTradeResult] calls on one date. *)
Fixpoint registerAll (d : string) (pnls : list float) (o : t) : list float :=
  match pnls with
  | [] => []
  | pnl :: rest =>
      let '(r, o') := handleRegisterTradeResult d (Num pnl) o in
      resultLosses r :: registerAll d rest o'
  end.

(** A day on which the loss limit is hit, then equity recovers. *)
Definition tripHistory : list Event :=
  [Rpc (GetOrUpdate day1 (Num 10000) (Num 0.03));
   Rpc (GetOrUpdate day1 (Num 9600) (Num 0.03))].

Definition recovery : list Event :=
  [Rpc (GetOrUpdate day1 (Num 9999) (Num 0.03));
   Rpc (RegisterTradeResult day1 (Num 5));
   Restart;
   Rpc (GetOrUpdate day1 (Str "20000") (Str ""))].

End Examples.

Module WorkerExamples.
Import Worker.

Definition day1 : string := "2024-01-02".

Definition env1 : Env :=
  {| MASSIVE_API_KEY := Some "key"; PRICE_MIN := None; PRICE_MAX := None;
     PCT_CHANGE_MIN := None; REL_VOL_MIN := None; VOL_MIN := None;
     MAX_SCREEN := None; DRY_RUN := None; RISK_PCT_PER_TRADE := None |}.

(** A ticker that passes the default filters. *)
Definition abc : Ticker :=
  {| ticker := "ABC"; day_c := Some 20%float; day_v := Some 1000000%float;
     min_av := Some 1000%float; todaysChangePerc := Some 5%float |}.

(** Forty one-minute bars: closes rising ever faster from 10, then a green
    bar, a red bar with high 20 and low 19.5, and a forming bar that closes
    above 20 on twice the volume. *)
Definition risingBar (i : nat) : Bar.t :=
  let n := JS.ofZ (Z.of_nat i) in
  let c := (10 + n * n * 0.003)%float in
  {| Bar.o := (c - 0.02)%float; Bar.h := (c + 0.01)%float;
     Bar.l := (c - 0.03)%float; Bar.c := c; Bar.v := 1000%float |}.

Definition prevBar : Bar.t :=
  {| Bar.o := 19%float; Bar.h := 20%float; Bar.l := 18.5%float;
     Bar.c := 19.9%float; Bar.v := 1000%float |}.

Definition lastBar : Bar.t :=
  {| Bar.o := 19.9%float; Bar.h := 20%float; Bar.l := 19.5%float;
     Bar.c := 19.8%float; Bar.v := 1000%float |}.

Definition currentBar : Bar.t :=
  {| Bar.o := 19.8%float; Bar.h := 20.2%float; Bar.l := 19.7%float;
     Bar.c := 20.1%float; Bar.v := 2000%float |}.

Definition bars1 : list Bar.t :=
  map risingBar (seq 0 37) ++ [prevBar; lastBar; currentBar].

(** The same bars with a shallower red bar, its low at 19.7: the risk per
    share is then near 0.3, which does not divide the risk in dollars. *)
Definition shallowBar : Bar.t :=
  {| Bar.o := 19.9%float; Bar.h := 20%float; Bar.l := 19.7%float;
     Bar.c := 19.8%float; Bar.v := 1000%float |}.

Definition bars2 : list Bar.t :=
  map risingBar (seq 0 37) ++ [prevBar; shallowBar; currentBar].

Definition account (equity : string) : Account :=
  {| equity := Some equity; buying_power := None |}.

Definition riskState1 (hit : bool) : TradingBotState.RiskState :=
  {| TradingBotState.state :=
       {| TradingBotState.date := Some day1;
          TradingBotState.startEquity := Some 10000%float;
          TradingBotState.hitDailyMaxLoss := hit;
          TradingBotState.consecutiveLosses := 0%float;
          TradingBotState.dailyMaxLossPct := Some 0.03%float |};
     TradingBotState.currentDayPL := Some (-400)%float |}.

(** The outside world at [minutes] past midnight on [day1]: the first
    snapshot request fails with an HTTP error, later ones return [abc];
    the account holds [equity]; the risk store answers [riskState1 hit]. *)
Definition world1 (minutes : Z) (equity : string) (hit : bool) : Collaborators :=
  {| getNewYorkTimeInfo := fun _ => (minutes, day1);
     massiveSnapshot :=
       fun tr => match tr with [] => HttpNotOk | _ => Json (Some [abc]) end;
     alpacaAccount := fun _ => Some (account equity);
     riskStateStore := fun _ _ _ => riskState1 hit;
     alpacaPositions := fun _ => [];
     minuteBars := fun _ _ _ => Some bars1 |}.

(** A world in which the watchlist for [day1] is ["ABC"]. *)
Definition cached1 : World :=
  {| MASTER_WATCHLIST := ["ABC"%string]; MASTER_WATCHLIST_DAY := Some day1;
     trace := [] |}.

End WorkerExamples.

(** ** The worker's entry points *)
Module Routes.
Import Worker.

(** What [worker.fetch] answers: [json({ok: true, message})], the run
    result as JSON, or [json({ok: false, error: "Not found"}, 404)]. *)
Inductive HttpResponse : Type :=
| StatusJson
| RunJson (result : RunResult)
| NotFoundJson.

Definition httpStatus (r : HttpResponse) : Z :=
  match r with
  | NotFoundJson => 404
  | _ => 200
  end.

(** [worker.fetch], on the path of the request URL. *)
Definition fetch (ind : Indicators) (ext : Collaborators) (env : Env)
    (path : string) : M HttpResponse :=
  if String.eqb path "/status" then ret StatusJson
  else if String.eqb path "/debug/run-once" then
    (result <- runBotOnce ind ext env true ;; ret (RunJson result))%worker
  else ret NotFoundJson.

(** [worker.scheduled]: the run it hands to [ctx.waitUntil]. *)
Definition scheduled (ind : Indicators) (ext : Collaborators) (env : Env)
    : M RunResult :=
  runBotOnce ind ext env false.

End Routes.

(** ** Reading the trace of a scan *)
Module ScanLog.
Import Worker.

Definition isBarsFetch (e : Event) : bool :=
  match e with BarsFetch _ _ => true | _ => false end.

Definition isOrder (e : Event) : bool :=
  match e with OrderPlaced _ _ => true | _ => false end.

(** The order the loop body submits for an action. *)
Definition orderOf (a : Action.t) : Event :=
  OrderPlaced (Action.symbol a) (Action.shares a).

(** [positionsBySymbol[symbol]] is truthy. *)
Definition held (positionsBySymbol : PositionsBySymbol) (symbol : string) : bool :=
  truthyAt positionsBySymbol symbol.

(** The value of [DRY_RUN] in [scanAndTrade_H3]. *)
Definition dryRunOf (env : Env) : bool :=
  String.eqb (JS.toLowerCase (JS.nullish (DRY_RUN env) "true")) "true".

(** The [positionsBySymbol] object [runBotOnce] builds. *)
Definition bySymbol (positions : list Position) : PositionsBySymbol :=
  fold_left assign positions emptyObject.

End ScanLog.

(** * Properties *)

Import TradingBotState.

(** ** Comparisons of a double with zero *)

Lemma Prim2SF_zero : Prim2SF 0%float = S754_zero false.
Proof. reflexivity. Qed.

(** A positive number is not negative. *)
Lemma positive_not_negative (x : float) :
  (0 <? x)%float = true -> (x <? 0)%float = false.
Proof.
  rewrite !FloatAxioms.ltb_spec, Prim2SF_zero.
  destruct (Prim2SF x) as [[]|[]| |[] m e]; cbn; congruence.
Qed.

(** A number equal to zero (either zero) is neither negative nor positive. *)
Lemma zero_not_signed (x : float) :
  (x =? 0)%float = true -> (x <? 0)%float = false /\ (0 <? x)%float = false.
Proof.
  rewrite FloatAxioms.eqb_spec, !FloatAxioms.ltb_spec, Prim2SF_zero.
  destruct (Prim2SF x) as [[]|[]| |[] m e]; cbn; try congruence; auto.
Qed.

(** ** The risk state object *)

Lemma loadState_loaded (o : t) : loaded (loadState o) = true.
Proof. unfold loadState. destruct (loaded o) eqn:E; [exact E | reflexivity]. Qed.

Lemma Data_eta (d : Data) :
  {| date := date d; startEquity := startEquity d;
     hitDailyMaxLoss := hitDailyMaxLoss d;
     consecutiveLosses := consecutiveLosses d;
     dailyMaxLossPct := dailyMaxLossPct d |} = d.
Proof. destruct d; reflexivity. Qed.

(** After [saveState] on a loaded object the next request sees [d]. *)
Lemma current_saved (o : t) (d : Data) :
  current (saveState (withData (loadState o) d)) = d.
Proof.
  unfold current, saveState, withData. cbn.
  unfold loadState at 1. cbn. rewrite loadState_loaded. reflexivity.
Qed.

(** The counters after [handleGetOrUpdate] are the ones it returns. *)
Lemma getOrUpdate_current d e p o :
  current (snd (handleGetOrUpdate d e p o)) = state (fst (handleGetOrUpdate d e p o)).
Proof.
  unfold handleGetOrUpdate.
  match goal with
  | |- context [let '(pl, d2) := ?X in _] => destruct X as [pl d2]
  end.
  cbn. apply current_saved.
Qed.

Lemma sameDate_spec (stored : option string) (d : string) :
  sameDate stored d = true <-> stored = Some d.
Proof.
  destruct stored as [s|]; cbn; [|split; discriminate].
  rewrite String.eqb_eq. split; congruence.
Qed.

Lemma sameDate_false (stored : option string) (d : string) :
  sameDate stored d = false <-> stored <> Some d.
Proof.
  rewrite <- sameDate_spec. destruct (sameDate stored d); split; congruence.
Qed.

(** [handleGetOrUpdate] on the day it already has a baseline for. *)
Lemma getOrUpdate_same_day d e p o se :
  date (current o) = Some d ->
  startEquity (current o) = Some se ->
  let x := toNumber e "0" in
  let pct := toNumber p "0.03" in
  fst (handleGetOrUpdate d e p o) =
    {| state :=
         {| date := Some d; startEquity := Some se;
            hitDailyMaxLoss :=
              (x - se <=? - PrimFloat.abs (se * pct))%float
              || hitDailyMaxLoss (current o);
            consecutiveLosses := consecutiveLosses (current o);
            dailyMaxLossPct := Some pct |};
       currentDayPL := Some (x - se)%float |}.
Proof.
  intros Hd Hs x pct. unfold current in *. unfold handleGetOrUpdate.
  apply sameDate_spec in Hd as Hsame. rewrite Hsame, Hs, Hd. cbn.
  fold x pct.
  destruct (x - se <=? - PrimFloat.abs (se * pct))%float; cbn; [reflexivity|].
  reflexivity.
Qed.

(** [handleGetOrUpdate] on another day, or with no baseline yet: nothing
    of the previous counters is left. *)
Lemma getOrUpdate_reset d e p o :
  date (current o) <> Some d \/ startEquity (current o) = None ->
  let x := toNumber e "0" in
  let pct := toNumber p "0.03" in
  fst (handleGetOrUpdate d e p o) =
    {| state :=
         {| date := Some d; startEquity := Some x;
            hitDailyMaxLoss := (x - x <=? - PrimFloat.abs (x * pct))%float;
            consecutiveLosses := 0%float;
            dailyMaxLossPct := Some pct |};
       currentDayPL := Some (x - x)%float |}.
Proof.
  intros H x pct. unfold current in *. unfold handleGetOrUpdate.
  assert (negb (sameDate (date (data (loadState o))) d)
          || JS.isNull (startEquity (data (loadState o))) = true) as ->.
  { destruct H as [H|H].
    - apply sameDate_false in H. rewrite H. reflexivity.
    - rewrite H. apply orb_true_r. }
  cbn. fold x pct.
  destruct (x - x <=? - PrimFloat.abs (x * pct))%float; reflexivity.
Qed.

(** [handleRegisterTradeResult] in terms of the counters it finds. *)
Lemma registerTradeResult_current d p o :
  let cur := current o in
  let pnl := toNumber p "0" in
  let base := if sameDate (date cur) d then consecutiveLosses cur else 0%float in
  let losses :=
    if (pnl <? 0)%float then (base + 1)%float
    else if (0 <? pnl)%float then 0%float else base in
  fst (handleRegisterTradeResult d p o) =
    {| resultDate := Some d; resultLosses := losses |}
  /\ current (snd (handleRegisterTradeResult d p o)) =
    {| date := Some d; startEquity := startEquity cur;
       hitDailyMaxLoss := hitDailyMaxLoss cur;
       consecutiveLosses := losses;
       dailyMaxLossPct := dailyMaxLossPct cur |}.
Proof.
  cbn zeta. unfold handleRegisterTradeResult. cbn zeta.
  cbn [fst snd]. rewrite current_saved. unfold current.
  destruct (sameDate (date (data (loadState o))) d) eqn:E; cbn.
  - apply sameDate_spec in E. rewrite E. split; reflexivity.
  - split; reflexivity.
Qed.

(** C3: on a state already initialised for the day, [getOrUpdate] returns
    [currentDayPL = equity - startEquity], keeps [startEquity], and sets
    [hitDailyMaxLoss] (returned and stored) whenever
    [currentDayPL <= -|startEquity * dailyMaxLossPct|]. On the example,
    [getOrUpdate(D, 10000, 0.03)] then [getOrUpdate(D, 9600, 0.03)] returns
    [currentDayPL = -400] and [hitDailyMaxLoss = true]. *)
Theorem getOrUpdate_day_PL_and_trip :
  (forall (o : t) (d : string) (se : float) (equity pct : raw),
     date (current o) = Some d ->
     startEquity (current o) = Some se ->
     let x := toNumber equity "0" in
     let r := fst (handleGetOrUpdate d equity pct o) in
     let o' := snd (handleGetOrUpdate d equity pct o) in
     currentDayPL r = Some (x - se)%float
     /\ startEquity (state r) = Some se
     /\ ((x - se <=? - PrimFloat.abs (se * toNumber pct "0.03"))%float = true ->
         hitDailyMaxLoss (state r) = true /\ hitDailyMaxLoss (current o') = true))
  /\ (let o1 := snd (handleGetOrUpdate Examples.day1 (Num 10000) (Num 0.03) (create None)) in
      let r2 := fst (handleGetOrUpdate Examples.day1 (Num 9600) (Num 0.03) o1) in
      currentDayPL r2 = Some (-400)%float
      /\ hitDailyMaxLoss (state r2) = true).
Proof.
  split.
  - intros o d se equity pct Hd Hs x r o'.
    subst r o'. rewrite getOrUpdate_current.
    rewrite (getOrUpdate_same_day d equity pct o se Hd Hs). cbn.
    fold x. split; [reflexivity|]. split; [reflexivity|].
    intros ->. split; reflexivity.
  - vm_compute. split; reflexivity.
Qed.

Lemma getOrUpdate_day_PL_and_trip_witness :
  let o := snd (handleGetOrUpdate Examples.day1 (Num 10000) (Num 0.03) (create None)) in
  let r := fst (handleGetOrUpdate Examples.day1 (Str "9600") (Str "") o) in
  currentDayPL r = Some (9600 - 10000)%float
  /\ startEquity (state r) = Some 10000%float.
Proof.
  cbv zeta.
  pose proof (proj1 getOrUpdate_day_PL_and_trip
    (snd (handleGetOrUpdate Examples.day1 (Num 10000) (Num 0.03) (create None)))
    Examples.day1 10000%float (Str "9600") (Str "")
    ltac:(vm_compute; reflexivity) ltac:(vm_compute; reflexivity)) as H.
  cbv zeta in H. destruct H as (H1 & H2 & _).
  split; [|exact H2].
  rewrite H1. vm_compute. reflexivity.
Defined.

(** *** Reachable objects *)

Lemma run_snoc (o : t) (es : list Event) (e : Event) :
  run o (es ++ [e]) = step (run o es) e.
Proof. unfold run. rewrite fold_left_app. reflexivity. Qed.

Lemma consistent_saved (o : t) (d : Data) :
  consistent (saveState (withData (loadState o) d)).
Proof.
  split; cbn; [reflexivity|].
  rewrite loadState_loaded. discriminate.
Qed.

Lemma getOrUpdate_saved d e p o :
  snd (handleGetOrUpdate d e p o) =
  saveState (withData (loadState o) (state (fst (handleGetOrUpdate d e p o)))).
Proof.
  unfold handleGetOrUpdate.
  match goal with
  | |- context [let '(pl, d2) := ?X in _] => destruct X as [pl d2]
  end.
  reflexivity.
Qed.

Lemma step_getOrUpdate o d e p :
  step o (Rpc (GetOrUpdate d e p)) = snd (handleGetOrUpdate d e p o).
Proof. cbn. destruct (handleGetOrUpdate d e p o); reflexivity. Qed.

Lemma step_registerTradeResult o d p :
  step o (Rpc (RegisterTradeResult d p)) = snd (handleRegisterTradeResult d p o).
Proof. cbn. destruct (handleRegisterTradeResult d p o); reflexivity. Qed.

Lemma consistent_step (o : t) (e : Event) :
  consistent o -> consistent (step o e).
Proof.
  intros Ho. destruct e as [[]|];
    rewrite ?step_getOrUpdate, ?step_registerTradeResult; trivial.
  - rewrite getOrUpdate_saved. apply consistent_saved.
  - apply consistent_saved.
  - split; cbn; [discriminate|reflexivity].
Qed.

(** An eviction changes nothing of what the next request sees. *)
Lemma current_restart (o : t) :
  consistent o -> current (create (storage o)) = current o.
Proof.
  intros [Hl Hn]. unfold current, loadState. cbn.
  destruct (loaded o) eqn:E.
  - rewrite (Hl eq_refl). apply Data_eta.
  - cbn. rewrite (Hn eq_refl).
    destruct (storage o); reflexivity.
Qed.

Lemma getOrUpdate_has_baseline d e p o :
  startEquity (state (fst (handleGetOrUpdate d e p o))) <> None.
Proof.
  destruct (startEquity (current o)) as [se|] eqn:Hs.
  - destruct (decide (date (current o) = Some d)) as [Hd|Hd].
    + rewrite (getOrUpdate_same_day d e p o se Hd Hs). discriminate.
    + rewrite (getOrUpdate_reset d e p o (or_introl Hd)). discriminate.
  - rewrite (getOrUpdate_reset d e p o (or_intror Hs)). discriminate.
Qed.

(** The flag is only ever set over a baseline. *)
Lemma baseline_step (o : t) (e : Event) :
  consistent o ->
  (hitDailyMaxLoss (current o) = true -> startEquity (current o) <> None) ->
  hitDailyMaxLoss (current (step o e)) = true ->
  startEquity (current (step o e)) <> None.
Proof.
  intros Hc Hb. destruct e as [[| |d equity pct|d pnl|]|];
    rewrite ?step_getOrUpdate, ?step_registerTradeResult; trivial.
  - intros _. rewrite getOrUpdate_current. apply getOrUpdate_has_baseline.
  - rewrite (proj2 (registerTradeResult_current d pnl o)). cbn. exact Hb.
  - cbn [step]. rewrite (current_restart o Hc). exact Hb.
Qed.

Lemma reachable_invariant (es : list Event) :
  let o := run (create None) es in
  consistent o
  /\ (hitDailyMaxLoss (current o) = true -> startEquity (current o) <> None).
Proof.
  induction es as [|e es IH] using rev_ind; cbn zeta.
  - split; [split; cbn; [discriminate|reflexivity]|]. cbn. discriminate.
  - rewrite run_snoc. destruct IH as [Hc Hb]. split.
    + apply consistent_step, Hc.
    + apply baseline_step; assumption.
Qed.

(** *** The flag within a day *)

(** Every event of the day keeps a tripped state tripped. *)
Lemma tripped_step (d : string) (o : t) (e : Event) :
  tripped d o -> onDate d e -> tripped d (step o e).
Proof.
  intros (Hc & Hd & Hh & Hs) He.
  split; [apply consistent_step, Hc|].
  destruct e as [[| |d0 equity pct|d0 pnl|]|];
    rewrite ?step_getOrUpdate, ?step_registerTradeResult; auto.
  - cbn in He. rewrite (He d0 eq_refl) in *.
    destruct (startEquity (current o)) as [se|] eqn:Hse; [|congruence].
    rewrite getOrUpdate_current.
    rewrite (getOrUpdate_same_day d equity pct o se Hd Hse). cbn.
    rewrite Hh, orb_true_r. repeat split; congruence.
  - cbn in He. rewrite (He d0 eq_refl) in *.
    rewrite (proj2 (registerTradeResult_current d pnl o)). cbn.
    repeat split; assumption.
  - cbn [step]. rewrite (current_restart o Hc). repeat split; assumption.
Qed.

Lemma tripped_run (d : string) (es : list Event) (o : t) :
  tripped d o -> Forall (onDate d) es -> tripped d (run o es).
Proof.
  revert o. induction es as [|e es IH]; intros o Ho Hes; [exact Ho|].
  inversion Hes; subst. cbn. apply IH; [apply tripped_step|]; assumption.
Qed.

(** C4: once [hitDailyMaxLoss] is true on the stored date, it is true in
    every state reached by events of that date (the two operations with the
    stored date, other requests, evictions) and in every result returned
    along the way, whatever the equity reported. The starting state is any
    state the object can be in. *)
Theorem hitDailyMaxLoss_sticky_within_day :
  forall (history es before after : list Event) (d : string),
    let o := run (create None) history in
    date (current o) = Some d ->
    hitDailyMaxLoss (current o) = true ->
    Forall (onDate d) es ->
    es = before ++ after ->
    hitDailyMaxLoss (current (run o before)) = true
    /\ (forall req rest b,
          after = Rpc req :: rest ->
          responseHit (fst (fetch req (run o before))) = Some b ->
          b = true).
Proof.
  intros history es before after d o Hd Hh Hes ->.
  apply Forall_app in Hes as [Hbefore Hafter].
  destruct (reachable_invariant history) as [Hc Hb]. fold o in Hc, Hb.
  assert (tripped d (run o before)) as Ht.
  { apply tripped_run; [|exact Hbefore]. repeat split; auto; apply Hc. }
  split; [apply Ht|].
  intros req rest b -> Hr. inversion Hafter as [|? ? Hreq _]; subst.
  pose proof (tripped_step d _ _ Ht Hreq) as (_ & _ & Hh' & _).
  destruct req as [| |d0 equity pct|d0 pnl|]; cbn in Hr; try discriminate.
  rewrite step_getOrUpdate, getOrUpdate_current in Hh'.
  destruct (handleGetOrUpdate d0 equity pct (run o before)).
  cbn in Hr, Hh'. congruence.
Qed.

Lemma hitDailyMaxLoss_sticky_within_day_witness :
  hitDailyMaxLoss
    (current (run (run (create None) Examples.tripHistory) Examples.recovery)) = true.
Proof.
  refine (proj1 (hitDailyMaxLoss_sticky_within_day
                   Examples.tripHistory Examples.recovery Examples.recovery []
                   Examples.day1 _ _ _ _)).
  - vm_compute. reflexivity.
  - vm_compute. reflexivity.
  - repeat constructor; cbn; intros d' H; congruence.
  - reflexivity.
Defined.

(** *** Trade results *)

(** C5: a [registerTradeResult] call with the stored date adds one to
    [consecutiveLosses] when [pnl < 0], sets it to 0 when [pnl > 0] and
    leaves it as it is when [pnl == 0]; the returned counter is the stored
    one. The pnl series [-5, -3, +2, -1] on one date returns 1, 2, 0, 1. *)
Theorem registerTradeResult_counts_losses :
  (forall (o : t) (d : string) (pnlRaw : raw),
     date (current o) = Some d ->
     let pnl := toNumber pnlRaw "0" in
     let before := consecutiveLosses (current o) in
     let r := fst (handleRegisterTradeResult d pnlRaw o) in
     let o' := snd (handleRegisterTradeResult d pnlRaw o) in
     consecutiveLosses (current o') = resultLosses r
     /\ ((pnl <? 0)%float = true -> resultLosses r = (before + 1)%float)
     /\ ((0 <? pnl)%float = true -> resultLosses r = 0%float)
     /\ ((pnl =? 0)%float = true -> resultLosses r = before))
  /\ Examples.registerAll Examples.day1 [-5; -3; 2; -1]%float (create None)
     = [1; 2; 0; 1]%float.
Proof.
  split; [|vm_compute; reflexivity].
  intros o d pnlRaw Hd pnl before r o'. subst r o'.
  destruct (registerTradeResult_current d pnlRaw o) as [-> ->]. cbn.
  apply sameDate_spec in Hd. rewrite Hd. fold pnl before.
  split; [reflexivity|]. repeat split.
  - intros ->. reflexivity.
  - intros H. rewrite (positive_not_negative pnl H), H. reflexivity.
  - intros H. destruct (zero_not_signed pnl H) as [-> ->]. reflexivity.
Qed.

Lemma registerTradeResult_counts_losses_witness :
  let o := snd (handleRegisterTradeResult Examples.day1 (Num (-5)) (create None)) in
  resultLosses (fst (handleRegisterTradeResult Examples.day1 (Str "-3.5") o))
  = (consecutiveLosses (current o) + 1)%float.
Proof.
  cbv zeta.
  refine (proj1 (proj2 (proj1 registerTradeResult_counts_losses
    (snd (handleRegisterTradeResult Examples.day1 (Num (-5)) (create None)))
    Examples.day1 (Str "-3.5") _)) _).
  - vm_compute. reflexivity.
  - vm_compute. reflexivity.
Defined.

(** C6: a [registerTradeResult] call with a date other than the stored one
    stores the new date and applies the pnl rule to a counter reset to 0,
    and leaves [startEquity], [hitDailyMaxLoss] and [dailyMaxLossPct] as
    they were; [getOrUpdate] on such a date leaves nothing of the previous
    counters, its result being the one a new object gives. *)
Theorem registerTradeResult_new_date :
  forall (o : t) (d : string) (pnlRaw : raw),
    date (current o) <> Some d ->
    let pnl := toNumber pnlRaw "0" in
    let r := fst (handleRegisterTradeResult d pnlRaw o) in
    let o' := snd (handleRegisterTradeResult d pnlRaw o) in
    date (current o') = Some d
    /\ resultDate r = Some d
    /\ consecutiveLosses (current o') =
         (if (pnl <? 0)%float then (0 + 1)%float else 0%float)
    /\ resultLosses r = consecutiveLosses (current o')
    /\ startEquity (current o') = startEquity (current o)
    /\ hitDailyMaxLoss (current o') = hitDailyMaxLoss (current o)
    /\ dailyMaxLossPct (current o') = dailyMaxLossPct (current o)
    /\ (forall equity pct,
          fst (handleGetOrUpdate d equity pct o)
          = fst (handleGetOrUpdate d equity pct (create None))).
Proof.
  intros o d pnlRaw Hd pnl r o'. subst r o'.
  assert (forall equity pct,
            fst (handleGetOrUpdate d equity pct o)
            = fst (handleGetOrUpdate d equity pct (create None))) as Hreset.
  { intros equity pct.
    rewrite (getOrUpdate_reset d equity pct o (or_introl Hd)).
    rewrite (getOrUpdate_reset d equity pct (create None)); [reflexivity|].
    right. reflexivity. }
  destruct (registerTradeResult_current d pnlRaw o) as [-> ->]. cbn.
  pose proof Hd as Hd'. apply sameDate_false in Hd'. rewrite Hd'. fold pnl.
  repeat split; try exact Hreset.
  destruct (pnl <? 0)%float; [reflexivity|].
  destruct (0 <? pnl)%float; reflexivity.
Qed.

Lemma registerTradeResult_new_date_witness :
  let o := run (create None) Examples.tripHistory in
  let o' := snd (handleRegisterTradeResult "2024-01-03" (Num (-1)) o) in
  date (current o') = Some "2024-01-03"%string
  /\ hitDailyMaxLoss (current o') = hitDailyMaxLoss (current o).
Proof.
  cbv zeta.
  pose proof (registerTradeResult_new_date
    (run (create None) Examples.tripHistory) "2024-01-03" (Num (-1))
    ltac:(vm_compute; discriminate)) as H.
  cbv zeta in H. destruct H as (H1 & _ & _ & _ & _ & H2 & _).
  exact (conj H1 H2).
Defined.

(** C2: what the code does with an equity that does not parse. The empty
    string falls back to ["0"]; any other unparsable string is read as NaN,
    which becomes the day's [startEquity] and [currentDayPL], and with it
    the loss limit cannot be hit for the rest of the day. *)
Theorem getOrUpdate_unparsable_equity :
  toNumber (Str "") "0" = 0%float
  /\ toNumber (Str "abc") "0" = nan
  /\ (let r := fst (handleGetOrUpdate Examples.day1 (Str "abc") (Num 0.03) (create None)) in
      startEquity (state r) = Some nan
      /\ currentDayPL r = Some nan
      /\ hitDailyMaxLoss (state r) = false)
  /\ (let o := snd (handleGetOrUpdate Examples.day1 (Str "abc") (Num 0.03) (create None)) in
      let r := fst (handleGetOrUpdate Examples.day1 (Num 1) (Num 0.03) o) in
      startEquity (state r) = Some nan
      /\ hitDailyMaxLoss (state r) = false).
Proof. vm_compute. repeat split; reflexivity. Qed.

(** ** The worker *)

Import Worker.

(** *** The watchlist cache *)

(** A call for the day of a non-empty cached watchlist changes nothing. *)
Lemma watchlist_hit ext env d w :
  MASTER_WATCHLIST_DAY w = Some d ->
  MASTER_WATCHLIST w <> [] ->
  getOrBuildMasterWatchlist ext env d w = (MASTER_WATCHLIST w, w).
Proof.
  intros Hd Hl. unfold getOrBuildMasterWatchlist.
  apply sameDate_spec in Hd. rewrite Hd.
  destruct (MASTER_WATCHLIST w); [congruence|reflexivity].
Qed.

(** A call with an empty cached watchlist and an API key sends the
    snapshot request. *)
Lemma watchlist_miss_fetches ext env d w :
  MASTER_WATCHLIST w = [] ->
  missingKey (MASSIVE_API_KEY env) = false ->
  trace (snd (getOrBuildMasterWatchlist ext env d w)) = trace w ++ [SnapshotFetch].
Proof.
  intros Hl Hk. unfold getOrBuildMasterWatchlist. rewrite Hl, Hk, andb_false_r.
  unfold bind, request. destruct (massiveSnapshot ext (trace w)); reflexivity.
Qed.

(** Every call leaves what it returns in the two globals, and sends at most
    the snapshot request. *)
Lemma watchlist_stored ext env d w :
  let r := fst (getOrBuildMasterWatchlist ext env d w) in
  let w' := snd (getOrBuildMasterWatchlist ext env d w) in
  MASTER_WATCHLIST w' = r
  /\ MASTER_WATCHLIST_DAY w' = Some d
  /\ (trace w' = trace w \/ trace w' = trace w ++ [SnapshotFetch]).
Proof.
  cbv zeta. unfold getOrBuildMasterWatchlist.
  destruct (sameDate (MASTER_WATCHLIST_DAY w) d) eqn:Hd; cbn [andb].
  - destruct (0 <? length (MASTER_WATCHLIST w))%nat.
    + apply sameDate_spec in Hd. cbn. auto.
    + destruct (missingKey (MASSIVE_API_KEY env)); [cbn; auto|].
      unfold bind, request.
      destruct (massiveSnapshot ext (trace w)); cbn; auto.
  - destruct (missingKey (MASSIVE_API_KEY env)); [cbn; auto|].
    unfold bind, request.
    destruct (massiveSnapshot ext (trace w)); cbn; auto.
Qed.

(** C1, as the code has it: once [getOrBuildMasterWatchlist] has returned a
    non-empty list for the day [d], a later call for [d] made while the two
    globals are as that call left them returns the same list and leaves the
    world as it is: no snapshot request, and so the same again at the next
    call. An empty list is stored for [d] but is not served from the cache:
    with an API key configured the next call for [d] requests the snapshot
    again. *)
Theorem watchlist_cached_when_nonempty :
  forall ext env (d : string) (w0 w1 : World) (r : list string),
    getOrBuildMasterWatchlist ext env d w0 = (r, w1) ->
    forall ext' env' (w : World),
      MASTER_WATCHLIST w = MASTER_WATCHLIST w1 ->
      MASTER_WATCHLIST_DAY w = MASTER_WATCHLIST_DAY w1 ->
      (r <> [] -> getOrBuildMasterWatchlist ext' env' d w = (r, w))
      /\ (r = [] ->
          missingKey (MASSIVE_API_KEY env') = false ->
          trace (snd (getOrBuildMasterWatchlist ext' env' d w))
          = trace w ++ [SnapshotFetch]).
Proof.
  intros ext env d w0 w1 r H ext' env' w Hl Hd.
  destruct (watchlist_stored ext env d w0) as (Hr & Hday & _).
  rewrite H in Hr, Hday. cbn in Hr, Hday.
  rewrite Hr in Hl. rewrite Hday in Hd. split.
  - intros Hne. rewrite <- Hl. apply watchlist_hit; congruence.
  - intros -> Hk. apply watchlist_miss_fetches; assumption.
Qed.

Lemma watchlist_cached_when_nonempty_witness :
  let ext := WorkerExamples.world1 600 "10000" false in
  let w0 := after initialWorld SnapshotFetch in
  let w1 := snd (getOrBuildMasterWatchlist ext WorkerExamples.env1 WorkerExamples.day1 w0) in
  getOrBuildMasterWatchlist ext WorkerExamples.env1 WorkerExamples.day1 w1
  = (["ABC"%string], w1).
Proof.
  cbv zeta.
  refine (proj1 (watchlist_cached_when_nonempty
    (WorkerExamples.world1 600 "10000" false) WorkerExamples.env1
    WorkerExamples.day1 (after initialWorld SnapshotFetch) _ ["ABC"%string] _
    (WorkerExamples.world1 600 "10000" false) WorkerExamples.env1 _ _ _) _).
  - vm_compute. reflexivity.
  - reflexivity.
  - reflexivity.
  - discriminate.
Defined.

(** C1 as stated fails on the empty watchlist cached after a failed
    request: the second call of the day sends the request again and
    returns another list. *)
Lemma watchlist_empty_is_rebuilt :
  let ext := WorkerExamples.world1 600 "10000" false in
  let first := getOrBuildMasterWatchlist ext WorkerExamples.env1 WorkerExamples.day1 initialWorld in
  let second := getOrBuildMasterWatchlist ext WorkerExamples.env1 WorkerExamples.day1 (snd first) in
  fst first = []
  /\ MASTER_WATCHLIST_DAY (snd first) = Some WorkerExamples.day1
  /\ trace (snd first) = [SnapshotFetch]
  /\ fst second = ["ABC"%string]
  /\ trace (snd second) = [SnapshotFetch; SnapshotFetch].
Proof. vm_compute. repeat split; reflexivity. Qed.

(** *** The entry window *)

(** The scan sends bar requests and orders only, and leaves the two
    globals alone. *)
Lemma scanOnly_refl (w : World) : scanOnly w w.
Proof.
  repeat split. exists []. split; [symmetry; apply app_nil_r|constructor].
Qed.

Lemma scanOnly_trans (w1 w2 w3 : World) :
  scanOnly w1 w2 -> scanOnly w2 w3 -> scanOnly w1 w3.
Proof.
  intros (Hl1 & Hd1 & evs1 & Ht1 & Hf1) (Hl2 & Hd2 & evs2 & Ht2 & Hf2).
  split; [congruence|]. split; [congruence|].
  exists (evs1 ++ evs2). split.
  - rewrite Ht2, Ht1, app_assoc. reflexivity.
  - apply Forall_app. split; assumption.
Qed.

Lemma scanOnly_after (w : World) (e : Event) :
  isScanEvent e = true -> scanOnly w (after w e).
Proof.
  intros He. repeat split. exists [e]. split; [reflexivity|].
  constructor; [exact He|constructor].
Qed.

Lemma scanSymbol_scanOnly ind ext dryRun riskPct positions account acc symbol w :
  scanOnly w (snd (scanSymbol ind ext dryRun riskPct positions account acc symbol w)).
Proof.
  unfold scanSymbol.
  destruct (truthyAt positions symbol); [apply scanOnly_refl|].
  unfold bind, request. cbn.
  fold (after w (BarsFetch symbol 60)).
  destruct (evaluate ind riskPct account symbol
              (minuteBars ext (trace w) symbol 60)) as [| | | | | |a];
    try (apply scanOnly_after; reflexivity).
  unfold submitOrder. destruct dryRun; cbn.
  - apply scanOnly_after; reflexivity.
  - eapply scanOnly_trans;
      [apply (scanOnly_after w (BarsFetch symbol 60)); reflexivity|].
    apply (scanOnly_after (after w (BarsFetch symbol 60))
             (OrderPlaced symbol (Action.shares a))). reflexivity.
Qed.

Lemma forEach_scanOnly ind ext dryRun riskPct positions account symbols :
  forall acc w,
    scanOnly w
      (snd (forEach (scanSymbol ind ext dryRun riskPct positions account)
              symbols acc w)).
Proof.
  induction symbols as [|symbol rest IH]; intros acc w; cbn.
  - apply scanOnly_refl.
  - unfold bind.
    pose proof (scanSymbol_scanOnly ind ext dryRun riskPct positions account
                  acc symbol w) as H1.
    destruct (scanSymbol ind ext dryRun riskPct positions account acc symbol w)
      as [acc1 w1].
    eapply scanOnly_trans; [exact H1|apply IH].
Qed.

Lemma scanAndTrade_H3_scanOnly ind ext env watchlist positions account w :
  scanOnly w (snd (scanAndTrade_H3 ind ext env watchlist positions account w)).
Proof. unfold scanAndTrade_H3. apply forEach_scanOnly. Qed.

(** *** The stages of a run *)

(** How a run that is past the time gate can end, with the requests it
    has sent by then. *)
Lemma runInsideWindow_shape ind ext env force day w :
  let res := runInsideWindow ind ext env force day w in
  exists snap,
    (snap = [] \/ snap = [SnapshotFetch])
    /\ ((fst res = EmptyWatchlist /\ trace (snd res) = trace w ++ snap)
        \/ (fst res = AccountFetchFailed
            /\ trace (snd res) = trace w ++ snap ++ [AccountFetch])
        \/ (exists equity,
              let rs := riskStateStore ext (trace w ++ snap ++ [AccountFetch]) day equity in
              TradingBotState.hitDailyMaxLoss (TradingBotState.state rs) && negb force = true
              /\ fst res = DailyMaxLossHit rs
              /\ trace (snd res)
                 = trace w ++ snap ++ [AccountFetch; RiskStateFetch day equity])
        \/ (exists equity scan evs,
              let rs := riskStateStore ext (trace w ++ snap ++ [AccountFetch]) day equity in
              TradingBotState.hitDailyMaxLoss (TradingBotState.state rs) && negb force = false
              /\ fst res = Completed rs scan
              /\ trace (snd res)
                 = trace w ++ snap
                   ++ [AccountFetch; RiskStateFetch day equity; PositionsFetch] ++ evs
              /\ Forall (fun e => isScanEvent e = true) evs)).
Proof.
  cbv zeta.
  destruct (runInsideWindow ind ext env force day w) as [r w'] eqn:E.
  cbn [fst snd]. unfold runInsideWindow, bind in E.
  destruct (watchlist_stored ext env day w) as (_ & _ & Ht).
  destruct (getOrBuildMasterWatchlist ext env day w) as [watchlist w1].
  cbn [fst snd] in Ht.
  assert (exists snap, (snap = [] \/ snap = [SnapshotFetch])
                       /\ trace w1 = trace w ++ snap) as (snap & Hsnap & Hw1).
  { destruct Ht as [Ht|Ht]; [exists []|exists [SnapshotFetch]];
      rewrite Ht, ?app_nil_r; auto. }
  exists snap. split; [exact Hsnap|].
  destruct (length watchlist =? 0)%nat.
  { injection E as <- <-. left. split; [reflexivity|exact Hw1]. }
  unfold request at 1 in E. cbn [fst snd] in E.
  destruct (alpacaAccount ext (trace w1)) as [account|].
  2:{ injection E as <- <-. right; left. cbn.
      rewrite Hw1, <- app_assoc. split; reflexivity. }
  unfold request at 1 in E. cbn [trace] in E.
  set (equity := JS.parseFloat (JS.nullish (Worker.equity account) "0")) in E.
  assert (trace w1 ++ [AccountFetch] = trace w ++ snap ++ [AccountFetch]) as Hacc.
  { rewrite Hw1, <- app_assoc. reflexivity. }
  rewrite Hacc in E.
  set (rs := riskStateStore ext (trace w ++ snap ++ [AccountFetch]) day equity) in E.
  destruct (TradingBotState.hitDailyMaxLoss (TradingBotState.state rs) && negb force)
    eqn:Hgate.
  - injection E as <- <-. right; right; left. exists equity. fold rs. cbn.
    repeat split; [exact Hgate|]. rewrite <- !app_assoc. reflexivity.
  - right; right; right. unfold request in E. cbn [trace fst snd] in E.
    match type of E with
    | context [scanAndTrade_H3 ind ext env watchlist ?ps account ?w2] =>
        pose proof (scanAndTrade_H3_scanOnly ind ext env watchlist ps account w2)
          as (_ & _ & evs & Hevs & Hall);
        destruct (scanAndTrade_H3 ind ext env watchlist ps account w2) as [scan w3]
    end.
    injection E as <- <-.
    cbn in Hevs. exists equity, scan, evs. fold rs. cbn.
    repeat split; [exact Hgate| |exact Hall].
    rewrite Hevs, <- !app_assoc. reflexivity.
Qed.

(** A run past the time gate never ends with one of the gate's reasons. *)
Lemma runInsideWindow_reason ind ext env force day w :
  reason (fst (runInsideWindow ind ext env force day w)) <> Some "too-early"%string
  /\ reason (fst (runInsideWindow ind ext env force day w)) <> Some "too-late"%string.
Proof.
  destruct (runInsideWindow_shape ind ext env force day w)
    as (snap & _ & [[H _]|[[H _]|[(eq & _ & H & _)|(eq & scan & evs & _ & H & _)]]]);
    cbv zeta in H; rewrite H; cbn; split; discriminate.
Qed.

(** C10: the entry window is closed at both ends. A run that is not forced
    ends with reason ["too-early"] exactly when the minute of the day is
    below 09:24 (564) and with ["too-late"] exactly when it is above 11:00
    (660); from 564 to 660, both included, it goes on to the watchlist and
    the stages after it: the watchlist of the day is taken or built, an
    empty one ends the run, the account is fetched, the risk state is asked
    for with the day and the account's equity, a tripped daily loss ends
    the run with that risk state, and otherwise the positions are fetched
    and the watchlist is scanned. *)
Theorem entry_window_is_closed_interval :
  forall ind ext env (w : World) (minutes : Z) (day : string),
    getNewYorkTimeInfo ext (trace w) = (minutes, day) ->
    let r := fst (runBotOnce ind ext env false w) in
    (reason r = Some "too-early"%string <-> minutes < 564)
    /\ (reason r = Some "too-late"%string <-> 660 < minutes)
    /\ (564 <= minutes <= 660 ->
        runBotOnce ind ext env false w = runInsideWindow ind ext env false day w)
    /\ (minutes = 564 \/ minutes = 660 ->
        runBotOnce ind ext env false w = runInsideWindow ind ext env false day w
        /\ reason r <> Some "too-early"%string
        /\ reason r <> Some "too-late"%string)
    /\ (564 <= minutes <= 660 ->
        let built := getOrBuildMasterWatchlist ext env day w in
        let watchlist := fst built in
        let w1 := snd built in
        if (length watchlist =? 0)%nat
        then runBotOnce ind ext env false w = (EmptyWatchlist, w1)
        else
          match alpacaAccount ext (trace w1) with
          | None =>
              runBotOnce ind ext env false w
              = (AccountFetchFailed, after w1 AccountFetch)
          | Some account =>
              let equity := JS.parseFloat (JS.nullish (equity account) "0") in
              let w2 := after w1 AccountFetch in
              let riskState := riskStateStore ext (trace w2) day equity in
              let w3 := after w2 (RiskStateFetch day equity) in
              if TradingBotState.hitDailyMaxLoss (TradingBotState.state riskState)
              then runBotOnce ind ext env false w = (DailyMaxLossHit riskState, w3)
              else
                let positions := alpacaPositions ext (trace w3) in
                let w4 := after w3 PositionsFetch in
                let scan :=
                  scanAndTrade_H3 ind ext env watchlist
                    (fold_left assign positions emptyObject) account w4 in
                runBotOnce ind ext env false w
                = (Completed riskState (fst scan), snd scan)
          end).
Proof.
  intros ind ext env w minutes day Hnow r.
  assert (runBotOnce ind ext env false w
          = if minutes <? 564 then (TooEarly, w)
            else if 660 <? minutes then (TooLate, w)
            else runInsideWindow ind ext env false day w) as Hrun.
  { unfold runBotOnce. rewrite Hnow. reflexivity. }
  assert (minutes < 564 -> runBotOnce ind ext env false w = (TooEarly, w)) as Hearly.
  { intros H. rewrite Hrun. apply Z.ltb_lt in H. rewrite H. reflexivity. }
  assert (660 < minutes -> runBotOnce ind ext env false w = (TooLate, w)) as Hlate.
  { intros H. rewrite Hrun.
    destruct (minutes <? 564) eqn:E; [apply Z.ltb_lt in E; lia|].
    apply Z.ltb_lt in H. rewrite H. reflexivity. }
  assert (564 <= minutes <= 660 ->
          runBotOnce ind ext env false w = runInsideWindow ind ext env false day w)
    as Hin.
  { intros H. rewrite Hrun.
    destruct (minutes <? 564) eqn:E1; [apply Z.ltb_lt in E1; lia|].
    destruct (660 <? minutes) eqn:E2; [apply Z.ltb_lt in E2; lia|].
    reflexivity. }
  destruct (runInsideWindow_reason ind ext env false day w) as [Hne Hnl].
  assert (minutes < 564 \/ 564 <= minutes <= 660 \/ 660 < minutes) as Hcases by lia.
  assert ((reason r = Some "too-early"%string <-> minutes < 564)
          /\ (reason r = Some "too-late"%string <-> 660 < minutes)
          /\ (minutes = 564 \/ minutes = 660 ->
              runBotOnce ind ext env false w
              = runInsideWindow ind ext env false day w
              /\ reason r <> Some "too-early"%string
              /\ reason r <> Some "too-late"%string)) as (Hiff1 & Hiff2 & Hends).
  { subst r.
    destruct Hcases as [H|[H|H]];
      [rewrite (Hearly H)|rewrite (Hin H)|rewrite (Hlate H)]; cbn [fst reason].
    - repeat split; try (intros; lia); try discriminate; auto.
    - repeat split; try (intros; lia); try contradiction; auto.
    - repeat split; try (intros; lia); try discriminate; auto. }
  split; [exact Hiff1|]. split; [exact Hiff2|]. split; [exact Hin|].
  split; [exact Hends|].
  intros H. cbv zeta. rewrite (Hin H). unfold runInsideWindow, bind.
  destruct (getOrBuildMasterWatchlist ext env day w) as [watchlist w1].
  cbn [fst snd].
  destruct (length watchlist =? 0)%nat; [reflexivity|].
  unfold request, ret, after. cbn [fst snd trace MASTER_WATCHLIST MASTER_WATCHLIST_DAY].
  destruct (alpacaAccount ext (trace w1)) as [account|]; [|reflexivity].
  cbn [fst snd trace MASTER_WATCHLIST MASTER_WATCHLIST_DAY].
  rewrite andb_true_r.
  destruct (TradingBotState.hitDailyMaxLoss
              (TradingBotState.state
                 (riskStateStore ext (trace w1 ++ [AccountFetch]) day
                    (JS.parseFloat (JS.nullish (equity account) "0")))));
    [reflexivity|].
  cbn [fst snd trace MASTER_WATCHLIST MASTER_WATCHLIST_DAY].
  match goal with
  | |- (let '(a, w') := ?scan in _) = _ => destruct scan; reflexivity
  end.
Qed.

Lemma entry_window_is_closed_interval_witness :
  reason (fst (runBotOnce SpecModel.indicators
                 (WorkerExamples.world1 564 "10000" false) WorkerExamples.env1
                 false WorkerExamples.cached1))
  <> Some "too-early"%string.
Proof.
  refine (proj1 (proj2 (proj1 (proj2 (proj2 (proj2 (entry_window_is_closed_interval
    SpecModel.indicators (WorkerExamples.world1 564 "10000" false)
    WorkerExamples.env1 WorkerExamples.cached1 564 WorkerExamples.day1 _)))) _))).
  - reflexivity.
  - left. reflexivity.
Defined.

(** *** The daily-loss gate *)

(** Two ways of cutting one list at an element [y] that is not in [pre]. *)
Lemma app_cons_split {A : Type} (pre post before rest : list A) (x y : A) :
  pre ++ x :: post = before ++ y :: rest ->
  ~ In y pre ->
  (before = pre /\ y = x /\ rest = post)
  \/ (exists mid, before = pre ++ x :: mid /\ post = mid ++ y :: rest).
Proof.
  revert before. induction pre as [|a pre IH]; intros [|b before] H Hy; cbn in *.
  - injection H as -> ->. left. auto.
  - injection H as -> ->. right. exists before. auto.
  - injection H as -> _. exfalso. apply Hy. left. reflexivity.
  - injection H as -> H.
    destruct (IH before H) as [(-> & -> & ->)|(mid & -> & ->)].
    + intros Hin. apply Hy. right. exact Hin.
    + left. auto.
    + right. exists mid. auto.
Qed.

(** C9: in a run that is not forced and whose risk state comes back with
    [hitDailyMaxLoss] set, the risk state request is the last request of
    the run (no positions or bars are fetched, no order is placed, and all
    that precedes it is the snapshot and the account), and the run returns
    [{ok: true, reason: "daily-max-loss-hit", riskState}] with that risk
    state. *)
Theorem daily_max_loss_gate_aborts_before_scan :
  forall ind ext env (w w' : World) (r : RunResult)
         (before rest : list Event) (day : string) (equity : float),
    runBotOnce ind ext env false w = (r, w') ->
    trace w' = trace w ++ before ++ RiskStateFetch day equity :: rest ->
    let riskState := riskStateStore ext (trace w ++ before) day equity in
    TradingBotState.hitDailyMaxLoss (TradingBotState.state riskState) = true ->
    r = DailyMaxLossHit riskState
    /\ ok r = true
    /\ reason r = Some "daily-max-loss-hit"%string
    /\ riskStateOf r = Some riskState
    /\ rest = []
    /\ Forall (fun e => e = SnapshotFetch \/ e = AccountFetch) before.
Proof.
  intros ind ext env w w' r before rest day equity Hrun Htrace riskState Hhit.
  assert (forall l, trace w = trace w ++ before ++ RiskStateFetch day equity :: l
                    -> False) as Hnone.
  { intros l H. rewrite <- (app_nil_r (trace w)) in H at 1.
    apply app_inv_head in H. destruct before; discriminate. }
  unfold runBotOnce in Hrun.
  destruct (getNewYorkTimeInfo ext (trace w)) as [minutes day'].
  cbn [negb] in Hrun.
  destruct (minutes <? ENTRY_WINDOW_START);
    [injection Hrun as <- <-; destruct (Hnone _ Htrace)|].
  destruct (ENTRY_WINDOW_END <? minutes);
    [injection Hrun as <- <-; destruct (Hnone _ Htrace)|].
  pose proof (runInsideWindow_shape ind ext env false day' w) as Hshape.
  cbv zeta in Hshape. rewrite Hrun in Hshape. cbn [fst snd] in Hshape.
  destruct Hshape as (snap & Hsnap & Hshape).
  assert (~ In (RiskStateFetch day equity) (snap ++ [AccountFetch])) as Hnotin.
  { intros Hin. apply in_app_or in Hin.
    destruct Hsnap as [-> | ->]; cbn in Hin;
      repeat (destruct Hin as [Hin|Hin]); try discriminate; exact Hin. }
  assert (Forall (fun e => e = SnapshotFetch \/ e = AccountFetch)
            (snap ++ [AccountFetch])) as Hbefore.
  { apply Forall_app. split; [|constructor; [right; reflexivity|constructor]].
    destruct Hsnap as [-> | ->]; [constructor|].
    constructor; [left; reflexivity|constructor]. }
  destruct Hshape as [[_ Ht]|[[_ Ht]|[(eq & Hgate & Hr & Ht)|(eq & scan & evs & Hgate & Hr & Ht & Hevs)]]];
    rewrite Ht in Htrace; apply app_inv_head in Htrace.
  - exfalso. destruct Hsnap as [-> | ->];
      destruct before as [|? [|? ?]]; discriminate.
  - exfalso. destruct Hsnap as [-> | ->];
      destruct before as [|? [|? [|? ?]]]; discriminate.
  - change (snap ++ [AccountFetch; RiskStateFetch day' eq])
      with (snap ++ [AccountFetch] ++ RiskStateFetch day' eq :: []) in Htrace.
    rewrite app_assoc in Htrace.
    destruct (app_cons_split _ _ _ _ _ _ Htrace Hnotin)
      as [(-> & Heq & ->)|(mid & _ & Hmid)];
      [|destruct mid; discriminate].
    injection Heq as -> ->.
    subst riskState. rewrite Hr. cbn. repeat split; auto.
  - exfalso.
    change (snap ++ [AccountFetch; RiskStateFetch day' eq; PositionsFetch] ++ evs)
      with (snap ++ [AccountFetch] ++ RiskStateFetch day' eq :: PositionsFetch :: evs)
      in Htrace.
    rewrite app_assoc in Htrace.
    destruct (app_cons_split _ _ _ _ _ _ Htrace Hnotin)
      as [(-> & Heq & _)|(mid & _ & Hmid)].
    + injection Heq as -> ->. subst riskState.
      rewrite Hhit in Hgate. discriminate.
    + destruct mid as [|m mid]; [discriminate|].
      injection Hmid as _ ->.
      apply Forall_app in Hevs as [_ Hevs]. inversion Hevs; discriminate.
Qed.

Lemma daily_max_loss_gate_aborts_before_scan_witness :
  fst (runBotOnce SpecModel.indicators (WorkerExamples.world1 600 "10000" true)
         WorkerExamples.env1 false WorkerExamples.cached1)
  = DailyMaxLossHit (WorkerExamples.riskState1 true).
Proof.
  refine (proj1 (daily_max_loss_gate_aborts_before_scan
    SpecModel.indicators (WorkerExamples.world1 600 "10000" true)
    WorkerExamples.env1 WorkerExamples.cached1
    (snd (runBotOnce SpecModel.indicators (WorkerExamples.world1 600 "10000" true)
            WorkerExamples.env1 false WorkerExamples.cached1))
    (fst (runBotOnce SpecModel.indicators (WorkerExamples.world1 600 "10000" true)
            WorkerExamples.env1 false WorkerExamples.cached1))
    [AccountFetch] [] WorkerExamples.day1 10000%float _ _ _)).
  - apply surjective_pairing.
  - vm_compute. reflexivity.
  - reflexivity.
Defined.

(** *** [Math.floor]

    [JS.ofZ] is exact on the integers below [2^53], and [JS.Math_floor]
    returns the integer [n] with [n <= x < n + 1]. *)

Lemma digits2_pos_size (p : positive) : digits2_pos p = Pos.size p.
Proof. induction p; cbn; congruence. Qed.

Lemma digits2_pos_iter_xO (k p : positive) :
  Z.pos (digits2_pos (Pos.iter xO p k)) = Z.pos (digits2_pos p) + Z.pos k.
Proof.
  induction k using Pos.peano_ind.
  - cbn. lia.
  - rewrite Pos.iter_succ. cbn [digits2_pos]. lia.
Qed.

Lemma iter_xO_value (k p : positive) :
  Z.pos (Pos.iter xO p k) = Z.pos p * 2 ^ Z.pos k.
Proof.
  induction k using Pos.peano_ind.
  - cbn. lia.
  - rewrite Pos.iter_succ, Pos2Z.inj_succ, Z.pow_succ_r by lia.
    rewrite Pos2Z.inj_xO, IHk. lia.
Qed.

Lemma digits2_pos_bound (p : positive) (n : Z) :
  0 <= n -> Z.pos p < 2 ^ n -> Z.pos (digits2_pos p) <= n.
Proof.
  intros Hn Hp. rewrite digits2_pos_size.
  pose proof (Pos.size_le p) as H.
  assert (2 ^ Z.pos (Pos.size p) <= 2 * Z.pos p) as H'.
  { rewrite <- Pos2Z.inj_pow. change (2 * Z.pos p) with (Z.pos p~0). lia. }
  destruct (Z.le_gt_cases (Z.pos (Pos.size p)) n) as [|Hgt]; [assumption|].
  exfalso.
  assert (2 ^ (n + 1) <= 2 ^ Z.pos (Pos.size p)) by (apply Z.pow_le_mono_r; lia).
  rewrite Z.pow_add_r in * by lia. lia.
Qed.

Lemma digits2_pos_lt (p : positive) : Z.pos p < 2 ^ Z.pos (digits2_pos p).
Proof.
  rewrite digits2_pos_size. pose proof (Pos.size_gt p).
  rewrite <- Pos2Z.inj_pow. lia.
Qed.

Lemma fexp_small (d : Z) : 1 <= d <= 53 -> fexp prec emax d = d - 53.
Proof. unfold fexp, emin, prec, emax. lia. Qed.

(** A mantissa of 53 bits with a small exponent goes through the rounding
    as it is. *)
Lemma round_aux_53 (s : bool) (m : positive) (e : Z) :
  Z.pos (digits2_pos m) = 53 -> -52 <= e <= 0 ->
  binary_round_aux prec emax s (Z.pos m) e loc_Exact = S754_finite s m e
  /\ valid_binary (S754_finite s m e) = true.
Proof.
  intros Hd He.
  assert (fexp prec emax (53 + e) - e = 0) as Hf.
  { unfold fexp, emin, prec, emax. lia. }
  unfold binary_round_aux, shr_fexp, Zdigits2.
  rewrite Hd, Hf.
  cbn [shr shr_record_of_loc round_nearest_even shr_m loc_of_shr_record Zdigits2].
  rewrite Hd, Hf. cbn [shr shr_m].
  assert ((e <=? emax - prec) = true) as Hle.
  { apply Z.leb_le. unfold emax, prec. lia. }
  rewrite Hle. split; [reflexivity|].
  unfold valid_binary, bounded, canonical_mantissa. rewrite Hd, Hle.
  apply andb_true_intro. split; [|reflexivity].
  apply Z.eqb_eq. lia.
Qed.

Lemma normalize_exact (s : bool) (p : positive) :
  Z.pos p < 2 ^ 53 ->
  exists m e,
    binary_normalize prec emax (if s then Z.neg p else Z.pos p) 0 false
    = S754_finite s m e
    /\ e <= 0 /\ Z.pos m = Z.pos p * 2 ^ (- e)
    /\ valid_binary (S754_finite s m e) = true.
Proof.
  intros Hp.
  pose proof (digits2_pos_bound p 53 ltac:(lia) Hp) as Hd.
  assert (binary_normalize prec emax (if s then Z.neg p else Z.pos p) 0 false
          = binary_round prec emax s p 0) as -> by (destruct s; reflexivity).
  unfold binary_round.
  rewrite Z.add_0_r, fexp_small by lia.
  unfold shl_align.
  destruct (Z.pos (digits2_pos p) - 53 - 0) as [|k|k] eqn:Hk; try lia.
  - exists p, 0.
    destruct (round_aux_53 s p 0) as [-> Hv]; try lia.
    repeat split; try lia. exact Hv.
  - exists (Pos.iter xO p k), (Z.pos (digits2_pos p) - 53).
    pose proof (digits2_pos_iter_xO k p) as Hdig.
    destruct (round_aux_53 s (Pos.iter xO p k) (Z.pos (digits2_pos p) - 53))
      as [-> Hv]; try lia.
    split; [reflexivity|]. split; [lia|]. split; [|exact Hv].
    rewrite iter_xO_value. f_equal. f_equal. lia.
Qed.

(** [JS.ofZ] and its negation are exact below [2^53]. *)
Lemma valueOf_ofZ (s : bool) (p : positive) :
  Z.pos p < 2 ^ 53 ->
  exists v,
    JS.valueOf (if s then - JS.ofZ (Z.pos p) else JS.ofZ (Z.pos p))%float = Some v
    /\ (v == inject_Z (if s then Z.neg p else Z.pos p))%Q.
Proof.
  intros Hp.
  destruct (normalize_exact false p Hp) as (m & e & Hn & He & Hm & Hv).
  assert (Prim2SF (JS.ofZ (Z.pos p)) = S754_finite false m e) as Hof.
  { unfold JS.ofZ. cbn [negb] in Hn. rewrite Hn. apply Prim2SF_SF2Prim. exact Hv. }
  assert (Prim2SF (if s then - JS.ofZ (Z.pos p) else JS.ofZ (Z.pos p))%float
          = S754_finite s m e) as Hs.
  { destruct s; [rewrite FloatAxioms.opp_spec, Hof; reflexivity|exact Hof]. }
  unfold JS.valueOf. rewrite Hs. eexists. split; [reflexivity|].
  destruct e as [|e|k]; try lia.
  - cbn in Hm. assert (m = p) by lia. subst.
    destruct s; cbn; rewrite Z.mul_1_r; reflexivity.
  - unfold Qeq. cbn [Qnum Qden inject_Z].
    change (- Z.neg k) with (Z.pos k) in Hm.
    rewrite Pos2Z.inj_pow. destruct s.
    + change (Z.neg m) with (- Z.pos m). change (Z.neg p) with (- Z.pos p). lia.
    + lia.
Qed.

(** The mantissa of a double has at most 53 bits. *)
Lemma finite_mantissa_bound (x : float) s m e :
  Prim2SF x = S754_finite s m e -> Z.pos m < 2 ^ 53.
Proof.
  intros Hx. pose proof (Prim2SF_valid x) as Hv. rewrite Hx in Hv.
  unfold valid_binary, bounded, canonical_mantissa in Hv.
  apply andb_prop in Hv. destruct Hv as [Hc _]. apply Z.eqb_eq in Hc.
  pose proof (digits2_pos_lt m) as Hlt.
  assert (Z.pos (digits2_pos m) <= 53) as Hd.
  { unfold fexp, emin, prec, emax in Hc. lia. }
  assert (2 ^ Z.pos (digits2_pos m) <= 2 ^ 53) by (apply Z.pow_le_mono_r; lia).
  lia.
Qed.

(** NaN and the infinities come back as they are. *)
Lemma Math_floor_not_finite (x : float) :
  JS.valueOf x = None -> JS.Math_floor x = x.
Proof.
  unfold JS.valueOf, JS.Math_floor.
  destruct (Prim2SF x); try discriminate; reflexivity.
Qed.

(** On a finite [x], [Math.floor(x)] is the integer [n] with
    [n <= x < n + 1]. *)
Lemma Math_floor_spec (x : float) (v : Q) :
  JS.valueOf x = Some v ->
  exists (n : Z) (v' : Q),
    JS.valueOf (JS.Math_floor x) = Some v'
    /\ (v' == inject_Z n)%Q
    /\ (inject_Z n <= v)%Q /\ (v < inject_Z (n + 1))%Q.
Proof.
  intros Hx. unfold JS.Math_floor. unfold JS.valueOf in Hx.
  destruct (Prim2SF x) as [sz| | |s m e] eqn:Hsf; try discriminate.
  - exists 0, v. unfold JS.valueOf. rewrite Hsf. injection Hx as <-.
    repeat split; try reflexivity; unfold Qle, Qlt; cbn; lia.
  - pose proof (finite_mantissa_bound x s m e Hsf) as Hm.
    injection Hx as <-.
    destruct e as [|e|k].
    + cbn [Z.leb Z.compare].
      exists ((if s then Z.neg m else Z.pos m) * 2 ^ 0),
        (inject_Z ((if s then Z.neg m else Z.pos m) * 2 ^ 0)).
      unfold JS.valueOf. rewrite Hsf.
      repeat split; try reflexivity; unfold Qle, Qlt; cbn; lia.
    + change (0 <=? Z.pos e) with true. cbn iota.
      exists ((if s then Z.neg m else Z.pos m) * 2 ^ Z.pos e),
        (inject_Z ((if s then Z.neg m else Z.pos m) * 2 ^ Z.pos e)).
      unfold JS.valueOf. rewrite Hsf.
      repeat split; try reflexivity; unfold Qle, Qlt; cbn [Qnum Qden inject_Z]; lia.
    + change (0 <=? Z.neg k) with false. cbn iota.
      change (- Z.neg k) with (Z.pos k).
      rewrite Z.shiftr_div_pow2, Z.shiftl_mul_pow2 by lia.
      pose proof (Z.pow_pos_nonneg 2 (Z.pos k) ltac:(lia) ltac:(lia)) as Hpow.
      pose proof (Z.div_mod (Z.pos m) (2 ^ Z.pos k) ltac:(lia)) as Hdm.
      pose proof (Z.mod_pos_bound (Z.pos m) (2 ^ Z.pos k) Hpow) as Hmod.
      assert (2 <= 2 ^ Z.pos k) as Hpow2.
      { change 2 with (2 ^ 1) at 1. apply Z.pow_le_mono_r; lia. }
      set (q := Z.pos m / 2 ^ Z.pos k) in *.
      assert (0 <= q) as Hq0 by (apply Z.div_pos; lia).
      assert (q + 1 < 2 ^ 53) as Hq by nia.
      destruct (q * 2 ^ Z.pos k =? Z.pos m) eqn:Hexact.
      * apply Z.eqb_eq in Hexact.
        exists (if s then - q else q). eexists.
        unfold JS.valueOf. rewrite Hsf. split; [reflexivity|].
        unfold Qeq, Qle, Qlt. cbn [Qnum Qden inject_Z]. rewrite Pos2Z.inj_pow.
        destruct s; [change (Z.neg m) with (- Z.pos m)|]; repeat split; nia.
      * apply Z.eqb_neq in Hexact.
        destruct s.
        -- destruct (q + 1) as [|p|p] eqn:Hp; try lia.
           destruct (valueOf_ofZ true p ltac:(lia)) as (v' & Hv' & Heq).
           exists (Z.neg p), v'. split; [exact Hv'|]. split; [exact Heq|].
           unfold Qle, Qlt. cbn [Qnum Qden inject_Z]. rewrite Pos2Z.inj_pow.
           change (Z.neg m) with (- Z.pos m). change (Z.neg p) with (- Z.pos p).
           split; nia.
        -- destruct q as [|p|p] eqn:Hp; try lia.
           ++ exists 0, 0%Q. split; [reflexivity|]. split; [reflexivity|].
              unfold Qle, Qlt. cbn [Qnum Qden inject_Z]. rewrite Pos2Z.inj_pow.
              split; nia.
           ++ destruct (valueOf_ofZ false p ltac:(lia)) as (v' & Hv' & Heq).
              exists (Z.pos p), v'. split; [exact Hv'|]. split; [exact Heq|].
              unfold Qle, Qlt. cbn [Qnum Qden inject_Z]. rewrite Pos2Z.inj_pow.
              split; nia.
Qed.

(** *** The scan of one symbol *)

(** The share count the loop body computes once a breakout is confirmed. *)
Lemma evaluate_selected ind riskPct account symbol bars current last prev older
    macd pattern triggerPrice :
  (30 <= length bars)%nat ->
  rev bars = current :: last :: prev :: older ->
  calculateMACD ind (map Bar.c bars) 12 26 9 = Some macd ->
  (signal macd <? line macd)%float = true ->
  choosePattern (isGreen ind prev && isRed ind last) (Bar.h last)
    (abcdCheck ind bars current) = (Some pattern, triggerPrice) ->
  (0 <? triggerPrice)%float = true ->
  evaluate ind riskPct account symbol (Some bars) =
    if negb (confirmed current last triggerPrice) then NotConfirmed pattern
    else
      let riskDollars :=
        (JS.parseFloat (JS.nullish (equity account) "0") * riskPct)%float in
      let riskPerShare :=
        riskPerShareOf pattern triggerPrice last
          (pointCPrice (abcdCheck ind bars current)) (Bar.c current) in
      let shares := JS.Math_floor (riskDollars / riskPerShare) in
      if negb (JS.isFinite shares) || (shares <=? 0)%float
      then SizingNonPositive pattern
      else Entry {| Action.symbol := symbol; Action.pattern := pattern;
                    Action.priceNow := Bar.c current;
                    Action.triggerPrice := triggerPrice;
                    Action.shares := shares;
                    Action.riskDollars := riskDollars;
                    Action.riskPerShare := riskPerShare |}.
Proof.
  intros Hlen Hrev Hmacd Hpos Hchoose Htrigger. unfold evaluate.
  assert ((length bars <? 30)%nat = false) as -> by (apply Nat.ltb_ge; exact Hlen).
  rewrite Hrev, Hmacd, Hpos. cbn [negb]. rewrite Hchoose, Htrigger.
  reflexivity.
Qed.

(** The stages a symbol has passed when its signal is counted. *)
Lemma evaluate_fired ind riskPct account symbol fetched :
  signalFired (evaluate ind riskPct account symbol fetched) = true ->
  exists bars current last prev older macd pattern triggerPrice,
    fetched = Some bars
    /\ (30 <= length bars)%nat
    /\ rev bars = current :: last :: prev :: older
    /\ calculateMACD ind (map Bar.c bars) 12 26 9 = Some macd
    /\ (signal macd <? line macd)%float = true
    /\ choosePattern (isGreen ind prev && isRed ind last) (Bar.h last)
         (abcdCheck ind bars current) = (Some pattern, triggerPrice)
    /\ (0 <? triggerPrice)%float = true
    /\ confirmed current last triggerPrice = true.
Proof.
  unfold evaluate. destruct fetched as [bars|]; [|discriminate].
  destruct (length bars <? 30)%nat eqn:Hlen; [discriminate|].
  destruct (rev bars) as [|current [|last [|prev older]]] eqn:Hrev;
    try discriminate.
  destruct (calculateMACD ind (map Bar.c bars) 12 26 9) as [macd|] eqn:Hmacd;
    [|discriminate].
  destruct (signal macd <? line macd)%float eqn:Hpos; [|discriminate].
  cbn [negb].
  destruct (choosePattern (isGreen ind prev && isRed ind last) (Bar.h last)
              (abcdCheck ind bars current)) as [[pattern|] triggerPrice] eqn:Hchoose;
    [|discriminate].
  destruct (0 <? triggerPrice)%float eqn:Htrigger; [|discriminate].
  cbn [negb].
  destruct (confirmed current last triggerPrice) eqn:Hconf; [|discriminate].
  intros _. apply Nat.ltb_ge in Hlen.
  exists bars, current, last, prev, older, macd, pattern, triggerPrice.
  repeat split; auto.
Qed.

(** The ABCD block sets its trigger and its point C together. *)
Lemma abcdCheck_pointC ind bars current trigger :
  entryTriggerABCD (abcdCheck ind bars current) = Some trigger ->
  exists pointC, pointCPrice (abcdCheck ind bars current) = Some pointC.
Proof.
  unfold abcdCheck.
  destruct (30 <=? length bars)%nat; [|discriminate].
  destruct (drop (length bars - 30) bars) as [|first rest]; [discriminate|].
  destruct (highest rest (S (length bars - 30)) (length bars - 30) (Bar.h first))
    as [bIdx bHigh].
  destruct (bIdx <? length bars - 1)%nat; [|discriminate].
  destruct (drop (bIdx + 1) bars) as [|next rest']; [discriminate|].
  cbn. eauto.
Qed.

Lemma choosePattern_ABCD isPullback entry abcd trigger :
  choosePattern isPullback entry abcd = (Some ABCD, trigger) ->
  entryTriggerABCD abcd = Some trigger.
Proof.
  unfold choosePattern. destruct isPullback; [discriminate|].
  destruct (entryTriggerABCD abcd); [|discriminate].
  destruct (isABCDSetup abcd); [|discriminate].
  congruence.
Qed.

(** C8: for every confirmed signal, with [stopReference] the low of the
    last completed bar for a Pullback and point C for ABCD,
    [riskPerShare] is [triggerPrice - stopReference], or 1% of the current
    price when that difference is not finite or not positive, and
    [shares = floor((equity * riskPct) / riskPerShare)]: when the quotient
    is finite, [shares] is the integer [n] with [n <= quotient < n + 1],
    and a quotient that is NaN or infinite is passed on as it is. The
    action carries these values, and is dropped when [shares] is not
    finite or not positive. With equity 10000, 1% risk, trigger 20 and
    stop reference 19.5 the action has [riskDollars = 100],
    [riskPerShare = 0.5] and [shares = 200]; with stop reference 19.7 the
    quotient lies between 333 and 334 and [shares = 333]. *)
Theorem position_size_of_confirmed_signal :
  (forall ind (riskPct : float) (account : Account) (symbol : string)
          (fetched : option (list Bar.t)),
     signalFired (evaluate ind riskPct account symbol fetched) = true ->
     exists bars current last prev older pattern triggerPrice stopReference,
       fetched = Some bars
       /\ rev bars = current :: last :: prev :: older
       /\ choosePattern (isGreen ind prev && isRed ind last) (Bar.h last)
            (abcdCheck ind bars current) = (Some pattern, triggerPrice)
       /\ match pattern with
          | PULLBACK => stopReference = Bar.l last
          | ABCD => pointCPrice (abcdCheck ind bars current) = Some stopReference
          end
       /\ let equity := JS.parseFloat (JS.nullish (equity account) "0") in
          let priceNow := Bar.c current in
          let riskDollars := (equity * riskPct)%float in
          let difference := (triggerPrice - stopReference)%float in
          let riskPerShare :=
            if negb (JS.isFinite difference) || (difference <=? 0)%float
            then (priceNow * 0.01)%float
            else difference in
          let shares := JS.Math_floor (riskDollars / riskPerShare) in
          evaluate ind riskPct account symbol fetched =
            (if negb (JS.isFinite shares) || (shares <=? 0)%float
             then SizingNonPositive pattern
             else Entry {| Action.symbol := symbol; Action.pattern := pattern;
                           Action.priceNow := priceNow;
                           Action.triggerPrice := triggerPrice;
                           Action.shares := shares;
                           Action.riskDollars := riskDollars;
                           Action.riskPerShare := riskPerShare |})
          /\ (forall quotient : Q,
                JS.valueOf (riskDollars / riskPerShare) = Some quotient ->
                exists (n : Z) (value : Q),
                  JS.valueOf shares = Some value
                  /\ (value == inject_Z n)%Q
                  /\ (inject_Z n <= quotient)%Q
                  /\ (quotient < inject_Z (n + 1))%Q)
          /\ (JS.valueOf (riskDollars / riskPerShare) = None ->
              shares = (riskDollars / riskPerShare)%float))
  /\ (Bar.l WorkerExamples.lastBar = 19.5%float
      /\ evaluate SpecModel.indicators (JS.parseFloat "0.01")
           (WorkerExamples.account "10000") "ABC" (Some WorkerExamples.bars1)
         = Entry {| Action.symbol := "ABC"; Action.pattern := PULLBACK;
                    Action.priceNow := 20.1%float;
                    Action.triggerPrice := 20%float;
                    Action.shares := 200%float;
                    Action.riskDollars := 100%float;
                    Action.riskPerShare := 0.5%float |})
  /\ (Bar.l WorkerExamples.shallowBar = 19.7%float
      /\ (333 <? 100 / (20 - 19.7))%float && (100 / (20 - 19.7) <? 334)%float = true
      /\ evaluate SpecModel.indicators (JS.parseFloat "0.01")
           (WorkerExamples.account "10000") "ABC" (Some WorkerExamples.bars2)
         = Entry {| Action.symbol := "ABC"; Action.pattern := PULLBACK;
                    Action.priceNow := 20.1%float;
                    Action.triggerPrice := 20%float;
                    Action.shares := 333%float;
                    Action.riskDollars := 100%float;
                    Action.riskPerShare := (20 - 19.7)%float |}).
Proof.
  split; [|split; repeat split; vm_compute; reflexivity].
  intros ind riskPct account symbol fetched Hfired.
  destruct (evaluate_fired ind riskPct account symbol fetched Hfired)
    as (bars & current & last & prev & older & macd & pattern & triggerPrice
        & -> & Hlen & Hrev & Hmacd & Hpos & Hchoose & Htrigger & Hconf).
  rewrite (evaluate_selected ind riskPct account symbol bars current last prev
             older macd pattern triggerPrice Hlen Hrev Hmacd Hpos Hchoose Htrigger).
  rewrite Hconf. cbn [negb].
  destruct pattern.
  - exists bars, current, last, prev, older, PULLBACK, triggerPrice, (Bar.l last).
    do 4 (split; [auto|]). cbv zeta.
    split; [reflexivity|]. split.
    + intros quotient Hq. exact (Math_floor_spec _ _ Hq).
    + apply Math_floor_not_finite.
  - destruct (abcdCheck_pointC ind bars current triggerPrice
                (choosePattern_ABCD _ _ _ _ Hchoose)) as [pointC HpointC].
    exists bars, current, last, prev, older, ABCD, triggerPrice, pointC.
    do 4 (split; [auto|]). cbv zeta.
    split; [rewrite HpointC; reflexivity|]. split.
    + intros quotient Hq. exact (Math_floor_spec _ _ Hq).
    + apply Math_floor_not_finite.
Qed.

Lemma position_size_of_confirmed_signal_witness :
  exists bars current last prev older pattern triggerPrice stopReference,
    Some WorkerExamples.bars1 = Some bars
    /\ rev bars = current :: last :: prev :: older
    /\ choosePattern
         (isGreen SpecModel.indicators prev && isRed SpecModel.indicators last)
         (Bar.h last) (abcdCheck SpecModel.indicators bars current)
       = (Some pattern, triggerPrice)
    /\ match pattern with
       | PULLBACK => stopReference = Bar.l last
       | ABCD =>
           pointCPrice (abcdCheck SpecModel.indicators bars current)
           = Some stopReference
       end.
Proof.
  destruct (proj1 position_size_of_confirmed_signal SpecModel.indicators
              (JS.parseFloat "0.01") (WorkerExamples.account "10000") "ABC"%string
              (Some WorkerExamples.bars1) ltac:(vm_compute; reflexivity))
    as (bars & current & last & prev & older & pattern & triggerPrice
        & stopReference & H1 & H2 & H3 & H4 & _).
  exists bars, current, last, prev, older, pattern, triggerPrice, stopReference.
  exact (conj H1 (conj H2 (conj H3 H4))).
Defined.

(** C7, as the code has it: for a symbol with a selected pattern and a
    positive trigger price, the signal is counted exactly when the forming
    bar closes at or above the trigger on more volume than the last
    completed bar, and an action is produced exactly when, besides, the
    share count is finite and positive. Without the confirmation the loop
    body ends there: the counters of signals and the actions are as before,
    and the world differs by the bar request only. *)
Theorem signal_iff_confirmed_action_iff_sized :
  forall ind ext (dryRun : bool) (riskPct : float)
         (positions : PositionsBySymbol) (account : Account)
         (acc : ScanResult) (symbol : string) (w : World)
         (bars : list Bar.t) (current last prev : Bar.t) (older : list Bar.t)
         (macd : MACD) (pattern : Pattern) (triggerPrice : float),
    truthyAt positions symbol = false ->
    minuteBars ext (trace w) symbol 60 = Some bars ->
    (30 <= length bars)%nat ->
    rev bars = current :: last :: prev :: older ->
    calculateMACD ind (map Bar.c bars) 12 26 9 = Some macd ->
    (signal macd <? line macd)%float = true ->
    choosePattern (isGreen ind prev && isRed ind last) (Bar.h last)
      (abcdCheck ind bars current) = (Some pattern, triggerPrice) ->
    (0 <? triggerPrice)%float = true ->
    let out := evaluate ind riskPct account symbol (Some bars) in
    let res := scanSymbol ind ext dryRun riskPct positions account acc symbol w in
    let isConfirmed := confirmed current last triggerPrice in
    let shares :=
      JS.Math_floor
        (JS.parseFloat (JS.nullish (equity account) "0") * riskPct
         / riskPerShareOf pattern triggerPrice last
             (pointCPrice (abcdCheck ind bars current)) (Bar.c current)) in
    isConfirmed
    = (triggerPrice <=? Bar.c current)%float && (Bar.v last <? Bar.v current)%float
    /\ signalFired out = isConfirmed
    /\ signals (fst res) = (if isConfirmed then S (signals acc) else signals acc)
    /\ ((exists a, out = Entry a) <->
        isConfirmed = true
        /\ JS.isFinite shares = true /\ (shares <=? 0)%float = false)
    /\ actions (fst res)
       = match out with
         | Entry a => actions acc ++ [a]
         | _ => actions acc
         end
    /\ (isConfirmed = false ->
        out = NotConfirmed pattern
        /\ res = ({| scanned := S (scanned acc); signals := signals acc;
                     actions := actions acc |},
                  after w (BarsFetch symbol 60))).
Proof.
  intros ind ext dryRun riskPct positions account acc symbol w bars current last
    prev older macd pattern triggerPrice Hfree Hbars Hlen Hrev Hmacd Hpos
    Hchoose Htrigger out res isConfirmed shares.
  assert (res = scanSymbol ind ext dryRun riskPct positions account acc symbol w)
    as Hres by reflexivity.
  unfold scanSymbol in Hres.
  rewrite Hfree in Hres.
  unfold bind, request in Hres. rewrite Hbars in Hres. fold out in Hres.
  fold (after w (BarsFetch symbol 60)) in Hres.
  assert (out = if negb isConfirmed then NotConfirmed pattern
                else if negb (JS.isFinite shares) || (shares <=? 0)%float
                     then SizingNonPositive pattern
                     else Entry {| Action.symbol := symbol; Action.pattern := pattern;
                                   Action.priceNow := Bar.c current;
                                   Action.triggerPrice := triggerPrice;
                                   Action.shares := shares;
                                   Action.riskDollars :=
                                     (JS.parseFloat (JS.nullish (equity account) "0")
                                      * riskPct)%float;
                                   Action.riskPerShare :=
                                     riskPerShareOf pattern triggerPrice last
                                       (pointCPrice (abcdCheck ind bars current))
                                       (Bar.c current) |}) as Hout.
  { subst out. apply evaluate_selected with (prev := prev) (older := older)
      (macd := macd); assumption. }
  clearbody out res. split; [reflexivity|].
  destruct isConfirmed; cbn [negb] in Hout;
    [destruct (JS.isFinite shares); cbn [negb orb] in Hout;
     [destruct (shares <=? 0)%float|]|];
    subst out; cbn in Hres; unfold submitOrder in Hres;
    try destruct dryRun; subst res; cbn;
    repeat split; try reflexivity; try discriminate; eauto;
    try (intros (? & ? & ?); discriminate);
    match goal with
    | H : exists _, _ |- _ => destruct H; discriminate
    | H : _ /\ _ /\ _ |- _ => destruct H as (? & ? & ?); discriminate
    end.
Qed.

Lemma signal_iff_confirmed_action_iff_sized_witness :
  signalFired
    (evaluate SpecModel.indicators (JS.parseFloat "0.01")
       (WorkerExamples.account "10000") "ABC" (Some WorkerExamples.bars1))
  = confirmed WorkerExamples.currentBar WorkerExamples.lastBar 20%float.
Proof.
  edestruct (signal_iff_confirmed_action_iff_sized SpecModel.indicators
               (WorkerExamples.world1 600 "10000" false) true
               (JS.parseFloat "0.01") emptyObject
               (WorkerExamples.account "10000")
               {| scanned := 0; signals := 0; actions := [] |}
               "ABC"%string WorkerExamples.cached1 WorkerExamples.bars1
               WorkerExamples.currentBar WorkerExamples.lastBar
               WorkerExamples.prevBar
               (rev (map WorkerExamples.risingBar (seq 0 37)))
               (default {| line := 0; signal := 0; histogram := 0 |}
                  (SpecModel.calculateMACD
                     (map Bar.c WorkerExamples.bars1) 12 26 9))
               PULLBACK 20%float)
    as (_ & H & _).
  - reflexivity.
  - reflexivity.
  - apply Nat.leb_le. vm_compute. reflexivity.
  - vm_compute. reflexivity.
  - vm_compute. reflexivity.
  - vm_compute. reflexivity.
  - vm_compute. reflexivity.
  - vm_compute. reflexivity.
  - exact H.
Defined.

(** C7 as stated fails on a confirmed breakout whose size comes out as
    zero shares (equity 10, 1% risk, 0.5 per share): the signal is counted
    and no action is produced. *)
Lemma confirmed_signal_without_action :
  choosePattern
    (isGreen SpecModel.indicators WorkerExamples.prevBar
     && isRed SpecModel.indicators WorkerExamples.lastBar)
    (Bar.h WorkerExamples.lastBar)
    (abcdCheck SpecModel.indicators WorkerExamples.bars1 WorkerExamples.currentBar)
  = (Some PULLBACK, 20%float)
  /\ confirmed WorkerExamples.currentBar WorkerExamples.lastBar 20%float = true
  /\ evaluate SpecModel.indicators (JS.parseFloat "0.01")
       (WorkerExamples.account "10") "ABC" (Some WorkerExamples.bars1)
     = SizingNonPositive PULLBACK
  /\ fst (runBotOnce SpecModel.indicators (WorkerExamples.world1 600 "10" false)
            WorkerExamples.env1 false WorkerExamples.cached1)
     = Completed (WorkerExamples.riskState1 false)
         {| scanned := 1; signals := 1; actions := [] |}.
Proof. vm_compute. repeat split; reflexivity. Qed.

(** * Further properties *)

(** ** More on doubles *)

Lemma Prim2SF_nan : Prim2SF nan = S754_nan.
Proof. reflexivity. Qed.

Lemma SFcompare_Lt_Gt (x y : spec_float) :
  SFcompare x y = Some Lt -> SFcompare y x = Some Gt.
Proof.
  destruct x as [[]|[]| |[] mx ex], y as [[]|[]| |[] my ey]; cbn;
    try congruence.
  - rewrite (Z.compare_antisym ex ey).
    destruct (ex ?= ey)%Z; cbn; try congruence.
    pose proof (Pos.compare_cont_antisym mx my Eq) as H. cbn in H.
    rewrite <- H. destruct (Pos.compare_cont Eq mx my); cbn; congruence.
  - rewrite (Z.compare_antisym ex ey).
    destruct (ex ?= ey)%Z; cbn; try congruence.
    pose proof (Pos.compare_cont_antisym mx my Eq) as H. cbn in H.
    rewrite <- H. destruct (Pos.compare_cont Eq mx my); cbn; congruence.
Qed.

(** [a < b] excludes [b <= a]. *)
Lemma lt_excludes_ge (a b : float) :
  (a <? b)%float = true -> (b <=? a)%float = false.
Proof.
  rewrite FloatAxioms.ltb_spec, FloatAxioms.leb_spec. unfold SFltb, SFleb.
  destruct (SFcompare (Prim2SF a) (Prim2SF b)) as [[]|] eqn:E; try discriminate.
  rewrite (SFcompare_Lt_Gt _ _ E). reflexivity.
Qed.

(** No number is at or above NaN, and NaN is at or below none. *)
Lemma nan_not_le (x : float) : (nan <=? x)%float = false.
Proof.
  rewrite FloatAxioms.leb_spec, Prim2SF_nan. reflexivity.
Qed.

(** Subtracting NaN gives NaN. *)
Lemma sub_nan (x : float) : (x - nan)%float = nan.
Proof.
  rewrite <- (SF2Prim_Prim2SF (x - nan)), FloatAxioms.sub_spec, Prim2SF_nan.
  unfold SF64sub, SFsub. destruct (Prim2SF x); reflexivity.
Qed.

(** A number equal to zero is one of the two zeros. *)
Lemma eq_zero_is_zero (x : float) :
  (x =? 0)%float = true -> exists s, Prim2SF x = S754_zero s.
Proof.
  rewrite FloatAxioms.eqb_spec, Prim2SF_zero.
  destruct (Prim2SF x) as [s|[]| |[] m e]; cbn; try discriminate; eauto.
Qed.

(** A finite number is a zero or has a mantissa. *)
Lemma isFinite_cases (x : float) :
  JS.isFinite x = true ->
  (exists s, Prim2SF x = S754_zero s) \/ (exists s m e, Prim2SF x = S754_finite s m e).
Proof.
  unfold JS.isFinite, is_finite, is_nan, is_infinity.
  rewrite !FloatAxioms.eqb_spec, FloatAxioms.abs_spec.
  change (Prim2SF infinity) with (S754_infinity false).
  destruct (Prim2SF x) as [s|s| |s m e]; cbn; try discriminate; eauto.
  - destruct s; discriminate.
Qed.

(** ** More on the risk state object *)

Import TradingBotState.

(** Both handlers read the object through [current] only. *)
Lemma getOrUpdate_reads_current d e p o1 o2 :
  current o1 = current o2 ->
  fst (handleGetOrUpdate d e p o1) = fst (handleGetOrUpdate d e p o2).
Proof.
  unfold current. intros H. unfold handleGetOrUpdate. rewrite H.
  match goal with
  | |- context [let '(pl, d2) := ?X in _] => destruct X as [pl d2]
  end.
  reflexivity.
Qed.

Lemma fetch_reads_current req o1 o2 :
  current o1 = current o2 ->
  fst (fetch req o1) = fst (fetch req o2)
  /\ (match req with
      | GetOrUpdate _ _ _ | RegisterTradeResult _ _ => True
      | _ => False
      end ->
      current (snd (fetch req o1)) = current (snd (fetch req o2))).
Proof.
  intros H. destruct req as [| |d e p|d p|]; cbn [fetch]; try (split; [reflexivity|tauto]).
  - pose proof (getOrUpdate_reads_current d e p o1 o2 H) as Hr.
    pose proof (getOrUpdate_current d e p o1) as H1.
    pose proof (getOrUpdate_current d e p o2) as H2.
    destruct (handleGetOrUpdate d e p o1) as [r1 o1'],
             (handleGetOrUpdate d e p o2) as [r2 o2'].
    cbn in *. subst r2. split; [reflexivity|]. intros _. congruence.
  - destruct (registerTradeResult_current d p o1) as [Hr1 Hc1].
    destruct (registerTradeResult_current d p o2) as [Hr2 Hc2].
    rewrite H in Hr1, Hc1.
    destruct (handleRegisterTradeResult d p o1) as [r1 o1'],
             (handleRegisterTradeResult d p o2) as [r2 o2'].
    cbn in *. split; [congruence|]. intros _. congruence.
Qed.

(** X2: an eviction between two requests cannot be observed. From any
    state the object can be in, the next request gets the same response,
    and leaves the same counters, whether or not the object was evicted and
    rebuilt from its storage first. *)
Theorem eviction_is_transparent :
  forall (history : list Event) (req : Request),
    fst (fetch req (step (run (create None) history) Restart))
    = fst (fetch req (run (create None) history))
    /\ current (snd (fetch req (step (run (create None) history) Restart)))
       = current (snd (fetch req (run (create None) history))).
Proof.
  intros history req.
  destruct (reachable_invariant history) as [Hc _]. cbv zeta in Hc.
  set (o := run (create None) history) in *.
  pose proof (current_restart o Hc) as Hcur.
  change (step o Restart) with (create (storage o)).
  destruct (fetch_reads_current req _ _ Hcur) as [Hr Hs].
  split; [exact Hr|].
  destruct req; try (apply Hs; exact I); cbn [fetch snd]; exact Hcur.
Qed.

(** One event of the day keeps the day's baseline. *)
Lemma baseline_kept_step (d : string) (se : float) (o : t) (e : Event) :
  consistent o ->
  date (current o) = Some d ->
  startEquity (current o) = Some se ->
  onDate d e ->
  date (current (step o e)) = Some d
  /\ startEquity (current (step o e)) = Some se.
Proof.
  intros Hc Hd Hs He.
  destruct e as [[| |d0 equity pct|d0 pnl|]|];
    rewrite ?step_getOrUpdate, ?step_registerTradeResult; auto.
  - cbn in He. rewrite (He d0 eq_refl) in *.
    rewrite getOrUpdate_current.
    rewrite (getOrUpdate_same_day d equity pct o se Hd Hs). cbn. auto.
  - cbn in He. rewrite (He d0 eq_refl) in *.
    rewrite (proj2 (registerTradeResult_current d pnl o)). cbn. auto.
  - cbn [step]. rewrite (current_restart o Hc). auto.
Qed.

Lemma baseline_kept_run (d : string) (se : float) (es : list Event) :
  forall o,
    consistent o ->
    date (current o) = Some d ->
    startEquity (current o) = Some se ->
    Forall (onDate d) es ->
    date (current (run o es)) = Some d
    /\ startEquity (current (run o es)) = Some se.
Proof.
  induction es as [|e es IH]; intros o Hc Hd Hs Hes; [auto|].
  inversion Hes; subst. cbn.
  destruct (baseline_kept_step d se o e Hc Hd Hs) as [Hd' Hs']; [assumption|].
  apply IH; auto. apply consistent_step, Hc.
Qed.

(** X1: [startEquity] is set once per day. From any state the object can
    be in that has a baseline [se] for the stored date [d], every state
    reached by events of that date (the two operations with date [d],
    rejected requests, evictions) still has date [d] and baseline [se],
    whatever equity is reported. *)
Theorem startEquity_fixed_within_day :
  forall (history es : list Event) (d : string) (se : float),
    date (current (run (create None) history)) = Some d ->
    startEquity (current (run (create None) history)) = Some se ->
    Forall (onDate d) es ->
    date (current (run (run (create None) history) es)) = Some d
    /\ startEquity (current (run (run (create None) history) es)) = Some se.
Proof.
  intros history es d se Hd Hs Hes.
  destruct (reachable_invariant history) as [Hc _].
  apply baseline_kept_run; assumption.
Qed.

Lemma startEquity_fixed_within_day_witness :
  startEquity
    (current (run (run (create None) Examples.tripHistory) Examples.recovery))
  = Some 10000%float.
Proof.
  refine (proj2 (startEquity_fixed_within_day Examples.tripHistory
                   Examples.recovery Examples.day1 10000%float _ _ _)).
  - vm_compute. reflexivity.
  - vm_compute. reflexivity.
  - repeat constructor; cbn; intros d' H; congruence.
Defined.

(** X3: what [getOrUpdate] returns is what it has stored, and it always
    leaves the request's date, a baseline and the latest loss percentage;
    [currentDayPL] is the reported equity minus the stored baseline, also
    on the call that sets the baseline. *)
Theorem getOrUpdate_persists_what_it_returns :
  forall (o : t) (d : string) (equity pct : raw),
    let r := fst (handleGetOrUpdate d equity pct o) in
    let o' := snd (handleGetOrUpdate d equity pct o) in
    storage o' = Some (state r)
    /\ current o' = state r
    /\ date (state r) = Some d
    /\ dailyMaxLossPct (state r) = Some (toNumber pct "0.03")
    /\ exists se,
         startEquity (state r) = Some se
         /\ currentDayPL r = Some (toNumber equity "0" - se)%float.
Proof.
  intros o d equity pct r o'. subst r o'.
  split; [rewrite getOrUpdate_saved; reflexivity|].
  split; [apply getOrUpdate_current|].
  destruct (startEquity (current o)) as [se|] eqn:Hs.
  - destruct (decide (date (current o) = Some d)) as [Hd|Hd].
    + rewrite (getOrUpdate_same_day d equity pct o se Hd Hs). cbn. eauto.
    + rewrite (getOrUpdate_reset d equity pct o (or_introl Hd)). cbn. eauto.
  - rewrite (getOrUpdate_reset d equity pct o (or_intror Hs)). cbn. eauto.
Qed.

(** X4: the two operations disagree on what a new day is. When the first
    call of a new date [d] is [registerTradeResult], the stored date moves
    to [d] while the baseline stays; the [getOrUpdate] for [d] that follows
    then finds its own date and keeps the previous day's [startEquity],
    measures [currentDayPL] against it, and keeps a [hitDailyMaxLoss] that
    was set the day before. *)
Theorem trade_result_first_keeps_previous_baseline :
  forall (o : t) (d : string) (se : float) (pnl equity pct : raw),
    date (current o) <> Some d ->
    startEquity (current o) = Some se ->
    let o1 := snd (handleRegisterTradeResult d pnl o) in
    let r := fst (handleGetOrUpdate d equity pct o1) in
    date (state r) = Some d
    /\ startEquity (state r) = Some se
    /\ currentDayPL r = Some (toNumber equity "0" - se)%float
    /\ (hitDailyMaxLoss (current o) = true -> hitDailyMaxLoss (state r) = true)
    /\ consecutiveLosses (state r) = consecutiveLosses (current o1).
Proof.
  intros o d se pnl equity pct Hd Hs o1 r.
  destruct (registerTradeResult_current d pnl o) as [_ Hcur]. fold o1 in Hcur.
  assert (date (current o1) = Some d) as Hd1 by (rewrite Hcur; reflexivity).
  assert (startEquity (current o1) = Some se) as Hs1 by (rewrite Hcur; exact Hs).
  assert (hitDailyMaxLoss (current o1) = hitDailyMaxLoss (current o)) as Hh1
    by (rewrite Hcur; reflexivity).
  clearbody o1. subst r.
  rewrite (getOrUpdate_same_day d equity pct o1 se Hd1 Hs1). cbn.
  repeat split.
  intros Hh. rewrite Hh1, Hh. apply orb_true_r.
Qed.

Lemma trade_result_first_keeps_previous_baseline_witness :
  let o := run (create None) Examples.tripHistory in
  let o1 := snd (handleRegisterTradeResult "2024-01-03" (Num 0) o) in
  let r := fst (handleGetOrUpdate "2024-01-03" (Num 20000) (Num 0.03) o1) in
  startEquity (state r) = Some 10000%float
  /\ hitDailyMaxLoss (state r) = true.
Proof.
  cbv zeta.
  pose proof (trade_result_first_keeps_previous_baseline
    (run (create None) Examples.tripHistory) "2024-01-03" 10000%float
    (Num 0) (Num 20000) (Num 0.03)
    ltac:(vm_compute; discriminate) ltac:(vm_compute; reflexivity)) as H.
  cbv zeta in H. destruct H as (_ & H1 & _ & H2 & _).
  split; [exact H1|]. apply H2. vm_compute. reflexivity.
Defined.

(** X5: a NaN baseline switches the loss limit off for the day. With
    [startEquity] NaN on the stored date, [getOrUpdate] for that date
    returns [currentDayPL] NaN and leaves [hitDailyMaxLoss] and the
    baseline as they are, whatever equity and percentage it is given. *)
Theorem nan_baseline_never_trips :
  forall (o : t) (d : string) (equity pct : raw),
    date (current o) = Some d ->
    startEquity (current o) = Some nan ->
    let r := fst (handleGetOrUpdate d equity pct o) in
    currentDayPL r = Some nan
    /\ startEquity (state r) = Some nan
    /\ hitDailyMaxLoss (state r) = hitDailyMaxLoss (current o).
Proof.
  intros o d equity pct Hd Hs r. subst r.
  rewrite (getOrUpdate_same_day d equity pct o nan Hd Hs). cbn.
  rewrite sub_nan, nan_not_le. repeat split.
Qed.

Lemma nan_baseline_never_trips_witness :
  let o := snd (handleGetOrUpdate Examples.day1 (Str "abc") (Num 0.03) (create None)) in
  hitDailyMaxLoss (state (fst (handleGetOrUpdate Examples.day1 (Num 0) (Num 0.03) o)))
  = hitDailyMaxLoss (current o).
Proof.
  cbv zeta.
  refine (proj2 (proj2 (nan_baseline_never_trips
    (snd (handleGetOrUpdate Examples.day1 (Str "abc") (Num 0.03) (create None)))
    Examples.day1 (Num 0) (Num 0.03) _ _))).
  - vm_compute. reflexivity.
  - vm_compute. reflexivity.
Defined.

(** X6: a day opened with zero equity is tripped at once. When
    [getOrUpdate] sets the baseline (new date, or none yet) from an equity
    that is zero, with a finite loss percentage, the threshold is [-0] and
    [0 <= -0], so the call returns [hitDailyMaxLoss = true]; the empty
    string is such an equity. *)
Theorem zero_equity_baseline_trips :
  forall (o : t) (d : string) (equity pct : raw),
    date (current o) <> Some d \/ startEquity (current o) = None ->
    (toNumber equity "0" =? 0)%float = true ->
    JS.isFinite (toNumber pct "0.03") = true ->
    hitDailyMaxLoss (state (fst (handleGetOrUpdate d equity pct o))) = true.
Proof.
  intros o d equity pct Hnew Hzero Hfin.
  rewrite (getOrUpdate_reset d equity pct o Hnew). cbn.
  destruct (eq_zero_is_zero _ Hzero) as [s Hx].
  rewrite FloatAxioms.leb_spec, FloatAxioms.sub_spec, FloatAxioms.opp_spec,
    FloatAxioms.abs_spec, FloatAxioms.mul_spec, Hx.
  destruct (isFinite_cases _ Hfin) as [[s' ->]|(s' & m & e & ->)];
    destruct s; reflexivity.
Qed.

Lemma zero_equity_baseline_trips_witness :
  hitDailyMaxLoss
    (state (fst (handleGetOrUpdate Examples.day1 (Str "") (Str "") (create None))))
  = true.
Proof.
  refine (zero_equity_baseline_trips (create None) Examples.day1 (Str "") (Str "")
            _ _ _).
  - right. reflexivity.
  - vm_compute. reflexivity.
  - vm_compute. reflexivity.
Defined.

(** Events that are not [getOrUpdate] leave the three risk fields alone. *)
Lemma risk_fields_kept_step (o : t) (e : Event) :
  consistent o ->
  match e with Rpc (GetOrUpdate _ _ _) => False | _ => True end ->
  startEquity (current (step o e)) = startEquity (current o)
  /\ hitDailyMaxLoss (current (step o e)) = hitDailyMaxLoss (current o)
  /\ dailyMaxLossPct (current (step o e)) = dailyMaxLossPct (current o).
Proof.
  intros Hc He.
  destruct e as [[| |d0 equity pct|d0 pnl|]|];
    rewrite ?step_registerTradeResult; auto; try contradiction.
  - rewrite (proj2 (registerTradeResult_current d0 pnl o)). cbn. auto.
  - cbn [step]. rewrite (current_restart o Hc). auto.
Qed.

(** X7: only [getOrUpdate] moves the risk baseline. From any state the
    object can be in, no series of [registerTradeResult] calls (of any
    date), rejected requests and evictions changes [startEquity],
    [hitDailyMaxLoss] or [dailyMaxLossPct]. *)
Theorem only_getOrUpdate_moves_risk_fields :
  forall (history es : list Event),
    Forall (fun e => match e with Rpc (GetOrUpdate _ _ _) => False | _ => True end) es ->
    startEquity (current (run (run (create None) history) es))
    = startEquity (current (run (create None) history))
    /\ hitDailyMaxLoss (current (run (run (create None) history) es))
       = hitDailyMaxLoss (current (run (create None) history))
    /\ dailyMaxLossPct (current (run (run (create None) history) es))
       = dailyMaxLossPct (current (run (create None) history)).
Proof.
  intros history es Hes.
  destruct (reachable_invariant history) as [Hc _]. cbv zeta in Hc.
  revert Hc. generalize (run (create None) history) as o.
  induction es as [|e es IH]; intros o Hc; [auto|].
  inversion Hes as [|? ? He Hes']; subst.
  change (run o (e :: es)) with (run (step o e) es).
  destruct (risk_fields_kept_step o e Hc He) as (Ha & Hb & Hd).
  destruct (IH Hes' (step o e) (consistent_step o e Hc)) as (Ha' & Hb' & Hd').
  repeat split; congruence.
Qed.

Lemma only_getOrUpdate_moves_risk_fields_witness :
  hitDailyMaxLoss
    (current (run (run (create None) Examples.tripHistory)
                [Rpc (RegisterTradeResult "2024-01-03" (Num 7)); Restart;
                 Rpc (RegisterTradeResult "2024-01-04" (Str "-2"))]))
  = hitDailyMaxLoss (current (run (create None) Examples.tripHistory)).
Proof.
  refine (proj1 (proj2 (only_getOrUpdate_moves_risk_fields Examples.tripHistory
    [Rpc (RegisterTradeResult "2024-01-03" (Num 7)); Restart;
     Rpc (RegisterTradeResult "2024-01-04" (Str "-2"))] _))).
  repeat constructor.
Defined.

(** ** More on the watchlist *)

Import Worker.

(** The loop adds to [passed] a prefix of the passing tickers. *)
Lemma screen_prefix (f : Filters) (tickers : list Ticker) :
  forall passed,
    exists rest,
      passed ++ map ticker (List.filter (tickerOk f) tickers)
      = screen f tickers passed ++ rest.
Proof.
  induction tickers as [|t tickers IH]; intros passed; cbn.
  - exists []. reflexivity.
  - destruct (tickerOk f t); [|apply IH].
    cbn [map].
    destruct (maxScreen f <=? JS.ofZ (Z.of_nat (length (passed ++ [ticker t]))))%float.
    + exists (map ticker (List.filter (tickerOk f) tickers)).
      rewrite <- app_assoc. reflexivity.
    + destruct (IH (passed ++ [ticker t])) as [rest Hrest].
      exists rest. rewrite <- Hrest, <- app_assoc. reflexivity.
Qed.

(** X8: the screen keeps the order of the snapshot and cuts, it does not
    select: its result is a prefix of the symbols of the tickers that pass
    the filters, in snapshot order. *)
Theorem screen_is_prefix_of_passing_tickers :
  forall (f : Filters) (tickers : list Ticker),
    exists rest,
      map ticker (List.filter (tickerOk f) tickers) = screen f tickers [] ++ rest.
Proof. intros f tickers. apply (screen_prefix f tickers []). Qed.

(** What passing the filters takes. *)
Lemma tickerOk_fields (f : Filters) (t : Ticker) :
  tickerOk f t = true ->
  exists price pct vol av,
    day_c t = Some price /\ todaysChangePerc t = Some pct
    /\ day_v t = Some vol /\ min_av t = Some av
    /\ (0 <? av)%float = true
    /\ (price <? priceMin f)%float = false
    /\ (priceMax f <? price)%float = false
    /\ (PrimFloat.abs pct <? pctChangeMin f)%float = false
    /\ (vol / av <? relVolMin f)%float = false
    /\ (vol <? volMin f)%float = false.
Proof.
  unfold tickerOk, check, relVolOf. intros H.
  destruct (day_c t) as [price|]; [|discriminate].
  destruct (todaysChangePerc t) as [pct|]; [|rewrite andb_false_r in H; discriminate].
  destruct (min_av t) as [av|]; [|rewrite andb_false_r in H; discriminate].
  destruct (day_v t) as [vol|]; [|rewrite !andb_false_r in H; discriminate].
  destruct (0 <? av)%float eqn:Hav; [|rewrite andb_false_r in H; discriminate].
  apply andb_prop in H as [H Hvol]. apply andb_prop in H as [H Hrel].
  apply andb_prop in H as [Hprice Hpct].
  apply negb_true_iff in Hvol, Hrel, Hpct, Hprice.
  apply orb_false_elim in Hprice as [Hmin Hmax].
  exists price, pct, vol, av. repeat split; assumption.
Qed.

(** X9: a symbol gets on the watchlist only through a ticker of the
    snapshot whose day close, day volume, average volume and percentage
    change are all numbers, with a positive average volume, and for which
    none of the five bound tests ([price < PRICE_MIN], [price > PRICE_MAX],
    [|pct| < PCT_CHANGE_MIN], [relVol < REL_VOL_MIN], [vol < VOL_MIN]) holds. *)
Theorem watchlist_symbol_has_all_fields :
  forall (f : Filters) (tickers : list Ticker) (s : string),
    In s (screen f tickers []) ->
    exists t price pct vol av,
      In t tickers /\ ticker t = s
      /\ day_c t = Some price /\ todaysChangePerc t = Some pct
      /\ day_v t = Some vol /\ min_av t = Some av
      /\ (0 <? av)%float = true
      /\ (price <? priceMin f)%float = false
      /\ (priceMax f <? price)%float = false
      /\ (PrimFloat.abs pct <? pctChangeMin f)%float = false
      /\ (vol / av <? relVolMin f)%float = false
      /\ (vol <? volMin f)%float = false.
Proof.
  intros f tickers s Hin.
  destruct (screen_prefix f tickers []) as [rest Hrest]. cbn in Hrest.
  assert (In s (map ticker (List.filter (tickerOk f) tickers))) as Hs.
  { rewrite Hrest. apply in_or_app. left. exact Hin. }
  apply in_map_iff in Hs as (t & Ht & Hf).
  apply filter_In in Hf as [Hin' Hok].
  destruct (tickerOk_fields f t Hok) as (price & pct & vol & av & H).
  exists t, price, pct, vol, av. split; [exact Hin'|]. split; [exact Ht|exact H].
Qed.

Lemma watchlist_symbol_has_all_fields_witness :
  exists t price pct vol av,
    In t [WorkerExamples.abc] /\ ticker t = "ABC"%string
    /\ day_c t = Some price /\ todaysChangePerc t = Some pct
    /\ day_v t = Some vol /\ min_av t = Some av
    /\ (0 <? av)%float = true.
Proof.
  destruct (watchlist_symbol_has_all_fields (filtersOf WorkerExamples.env1)
              [WorkerExamples.abc] "ABC"%string
              ltac:(vm_compute; left; reflexivity))
    as (t & price & pct & vol & av & H1 & H2 & H3 & H4 & H5 & H6 & H7 & _).
  exists t, price, pct, vol, av.
  exact (conj H1 (conj H2 (conj H3 (conj H4 (conj H5 (conj H6 H7)))))).
Defined.

(** X10: without an API key no snapshot is ever requested. The call then
    either serves the non-empty list cached for the day, leaving the world
    as it is, or stores and returns the empty list for the day. *)
Theorem missing_key_sends_no_request :
  forall ext env (d : string) (w : World),
    missingKey (MASSIVE_API_KEY env) = true ->
    let r := fst (getOrBuildMasterWatchlist ext env d w) in
    let w' := snd (getOrBuildMasterWatchlist ext env d w) in
    trace w' = trace w
    /\ MASTER_WATCHLIST_DAY w' = Some d
    /\ MASTER_WATCHLIST w' = r
    /\ (r = []
        \/ (r = MASTER_WATCHLIST w /\ MASTER_WATCHLIST_DAY w = Some d /\ w' = w)).
Proof.
  intros ext env d w Hkey. cbv zeta. unfold getOrBuildMasterWatchlist.
  rewrite Hkey.
  destruct (sameDate (MASTER_WATCHLIST_DAY w) d) eqn:Hd; cbn [andb].
  - apply sameDate_spec in Hd.
    destruct (0 <? length (MASTER_WATCHLIST w))%nat; cbn; auto 10.
  - cbn. auto.
Qed.

Lemma missing_key_sends_no_request_witness :
  trace (snd (getOrBuildMasterWatchlist (WorkerExamples.world1 600 "10000" false)
                (mkEnv (Some "") None None None None None None None None)
                WorkerExamples.day1 initialWorld))
  = trace initialWorld.
Proof.
  exact (proj1 (missing_key_sends_no_request
    (WorkerExamples.world1 600 "10000" false)
    (mkEnv (Some "") None None None None None None None None)
    WorkerExamples.day1 initialWorld eq_refl)).
Defined.

(** X11: a snapshot that cannot be had gives an empty watchlist, stamped
    with the day. When the cache does not answer, an API key is set, and
    the request is rejected, comes back not OK, does not parse, or carries
    no tickers, the call sends that one request, stores the empty list for
    the day and returns it. *)
Theorem failed_snapshot_stores_empty_watchlist :
  forall ext env (d : string) (w : World),
    missingKey (MASSIVE_API_KEY env) = false ->
    MASTER_WATCHLIST_DAY w <> Some d \/ MASTER_WATCHLIST w = [] ->
    match massiveSnapshot ext (trace w) with
    | Json (Some (_ :: _)) => False
    | _ => True
    end ->
    getOrBuildMasterWatchlist ext env d w
    = ([], {| MASTER_WATCHLIST := []; MASTER_WATCHLIST_DAY := Some d;
              trace := trace w ++ [SnapshotFetch] |}).
Proof.
  intros ext env d w Hkey Hmiss Hresp. unfold getOrBuildMasterWatchlist.
  assert (sameDate (MASTER_WATCHLIST_DAY w) d
          && (0 <? length (MASTER_WATCHLIST w))%nat = false) as ->.
  { destruct Hmiss as [H|H].
    - apply sameDate_false in H. rewrite H. reflexivity.
    - rewrite H. apply andb_false_r. }
  rewrite Hkey. unfold bind, request.
  destruct (massiveSnapshot ext (trace w)) as [| | |[[|t ts]|]];
    try reflexivity. contradiction.
Qed.

Lemma failed_snapshot_stores_empty_watchlist_witness :
  fst (getOrBuildMasterWatchlist (WorkerExamples.world1 600 "10000" false)
         WorkerExamples.env1 WorkerExamples.day1 initialWorld) = [].
Proof.
  rewrite (failed_snapshot_stores_empty_watchlist
             (WorkerExamples.world1 600 "10000" false) WorkerExamples.env1
             WorkerExamples.day1 initialWorld eq_refl
             (or_intror eq_refl) I).
  reflexivity.
Defined.

(** X12: the list of another day is never served and plays no part. When
    the stored day is not the requested one, the call does what it would
    do with an empty list stored: same result, same world after. *)
Theorem stale_watchlist_plays_no_part :
  forall ext env (d : string) (w : World),
    MASTER_WATCHLIST_DAY w <> Some d ->
    getOrBuildMasterWatchlist ext env d w
    = getOrBuildMasterWatchlist ext env d
        {| MASTER_WATCHLIST := []; MASTER_WATCHLIST_DAY := MASTER_WATCHLIST_DAY w;
           trace := trace w |}.
Proof.
  intros ext env d w Hd. unfold getOrBuildMasterWatchlist. cbn [MASTER_WATCHLIST_DAY MASTER_WATCHLIST trace].
  apply sameDate_false in Hd. rewrite Hd. cbn [andb].
  destruct (missingKey (MASSIVE_API_KEY env)); [reflexivity|].
  unfold bind, request. cbn [trace].
  destruct (massiveSnapshot ext (trace w)); reflexivity.
Qed.

Lemma stale_watchlist_plays_no_part_witness :
  fst (getOrBuildMasterWatchlist (WorkerExamples.world1 600 "10000" false)
         WorkerExamples.env1 "2024-01-03" WorkerExamples.cached1) = [].
Proof.
  rewrite (stale_watchlist_plays_no_part
             (WorkerExamples.world1 600 "10000" false) WorkerExamples.env1
             "2024-01-03" WorkerExamples.cached1 ltac:(vm_compute; discriminate)).
  vm_compute. reflexivity.
Defined.

(** With a cap that is not a number the loop never breaks. *)
Lemma screen_uncapped (f : Filters) (tickers : list Ticker) :
  maxScreen f = nan ->
  forall passed,
    screen f tickers passed
    = passed ++ map ticker (List.filter (tickerOk f) tickers).
Proof.
  intros Hnan. induction tickers as [|t tickers IH]; intros passed; cbn.
  - symmetry. apply app_nil_r.
  - destruct (tickerOk f t); [|apply IH].
    rewrite Hnan, nan_not_le, IH, <- app_assoc. reflexivity.
Qed.

(** X13: a [MAX_SCREEN] that does not parse takes the cap away. With the
    cap NaN, the test [passed.length >= MAX_SCREEN] is never true and the
    screen returns every passing ticker of the snapshot. *)
Theorem unparsable_max_screen_removes_cap :
  forall (f : Filters) (tickers : list Ticker),
    maxScreen f = nan ->
    screen f tickers [] = map ticker (List.filter (tickerOk f) tickers).
Proof. intros f tickers Hnan. apply (screen_uncapped f tickers Hnan []). Qed.

Lemma unparsable_max_screen_removes_cap_witness :
  let env := mkEnv (Some "key") None None None None None (Some "all") None None in
  screen (filtersOf env) [WorkerExamples.abc; WorkerExamples.abc] []
  = ["ABC"; "ABC"]%string.
Proof.
  cbv zeta.
  rewrite (unparsable_max_screen_removes_cap
             (filtersOf (mkEnv (Some "key") None None None None None (Some "all") None None))
             [WorkerExamples.abc; WorkerExamples.abc]
             ltac:(vm_compute; reflexivity)).
  vm_compute. reflexivity.
Defined.

(** A finite number is at or below itself. *)
Lemma finite_le_refl (x : float) : JS.isFinite x = true -> (x <=? x)%float = true.
Proof.
  intros H. rewrite FloatAxioms.leb_spec. unfold SFleb.
  destruct (isFinite_cases x H) as [[s ->]|(s & m & e & ->)]; [reflexivity|].
  cbn. rewrite Z.compare_refl, Pos.compare_cont_refl. destruct s; reflexivity.
Qed.

Lemma screen_capped (f : Filters) (n : nat) (tickers : list Ticker) :
  maxScreen f = JS.ofZ (Z.of_nat n) ->
  JS.isFinite (maxScreen f) = true ->
  forall passed,
    (length passed < n)%nat ->
    (length (screen f tickers passed) <= n)%nat.
Proof.
  intros Hcap Hfin. induction tickers as [|t tickers IH]; intros passed Hlen; cbn.
  - lia.
  - destruct (tickerOk f t); [|apply IH; exact Hlen].
    assert (length (passed ++ [ticker t]) = S (length passed)) as Hl
      by (rewrite length_app; cbn; lia).
    destruct (decide (S (length passed) = n)) as [Hn|Hn].
    + rewrite Hl, Hn, <- Hcap, (finite_le_refl _ Hfin). lia.
    + destruct (maxScreen f <=? JS.ofZ (Z.of_nat (length (passed ++ [ticker t]))))%float.
      * lia.
      * apply IH. lia.
Qed.

(** X14: the cap holds. When [MAX_SCREEN] parses to a whole number
    [n >= 1], the watchlist built from any snapshot has at most [n]
    symbols. *)
Theorem screen_respects_max_screen :
  forall (f : Filters) (n : nat) (tickers : list Ticker),
    (1 <= n)%nat ->
    maxScreen f = JS.ofZ (Z.of_nat n) ->
    JS.isFinite (maxScreen f) = true ->
    (length (screen f tickers []) <= n)%nat.
Proof.
  intros f n tickers Hn Hcap Hfin.
  apply (screen_capped f n tickers Hcap Hfin []). cbn. lia.
Qed.

Lemma screen_respects_max_screen_witness :
  (length (screen (filtersOf WorkerExamples.env1)
             (repeat WorkerExamples.abc 150) []) <= 100)%nat.
Proof.
  apply (screen_respects_max_screen (filtersOf WorkerExamples.env1) 100
           (repeat WorkerExamples.abc 150)).
  - lia.
  - vm_compute. reflexivity.
  - vm_compute. reflexivity.
Defined.

(** ** More on the scan *)

Import ScanLog.

(** An ABCD setup has the forming bar close strictly below point B, which
    is its trigger. *)
Lemma abcdCheck_setup_below_B ind bars current trigger :
  isABCDSetup (abcdCheck ind bars current) = true ->
  entryTriggerABCD (abcdCheck ind bars current) = Some trigger ->
  (Bar.c current <? trigger)%float = true.
Proof.
  unfold abcdCheck.
  destruct (30 <=? length bars)%nat; [|discriminate].
  destruct (drop (length bars - 30) bars) as [|first rest]; [discriminate|].
  destruct (highest rest (S (length bars - 30)) (length bars - 30) (Bar.h first))
    as [bIdx bHigh].
  destruct (bIdx <? length bars - 1)%nat; [|discriminate].
  destruct (drop (bIdx + 1) bars) as [|next rest']; [discriminate|].
  cbn. intros Hsetup Htrigger. injection Htrigger as <-.
  apply andb_prop in Hsetup as [_ Hcurl].
  apply andb_prop in Hcurl as [_ Hbelow]. exact Hbelow.
Qed.

Lemma choosePattern_ABCD_setup isPullback entry abcd trigger :
  choosePattern isPullback entry abcd = (Some ABCD, trigger) ->
  isPullback = false
  /\ isABCDSetup abcd = true
  /\ entryTriggerABCD abcd = Some trigger.
Proof.
  unfold choosePattern. destruct isPullback; [discriminate|].
  destruct (entryTriggerABCD abcd); [|discriminate].
  destruct (isABCDSetup abcd); [|discriminate].
  intros H. injection H as <-. auto.
Qed.

Lemma choosePattern_PULLBACK isPullback entry abcd trigger :
  choosePattern isPullback entry abcd = (Some PULLBACK, trigger) ->
  isPullback = true /\ trigger = entry.
Proof.
  unfold choosePattern. destruct isPullback.
  - intros H. injection H as <-. auto.
  - destruct (entryTriggerABCD abcd); [|discriminate].
    destruct (isABCDSetup abcd); discriminate.
Qed.

(** A counted signal is a Pullback. *)
Lemma fired_is_pullback ind riskPct account symbol fetched :
  signalFired (evaluate ind riskPct account symbol fetched) = true ->
  exists bars current last prev older,
    fetched = Some bars
    /\ (30 <= length bars)%nat
    /\ rev bars = current :: last :: prev :: older
    /\ isGreen ind prev && isRed ind last = true
    /\ (0 <? Bar.h last)%float = true
    /\ confirmed current last (Bar.h last) = true
    /\ choosePattern (isGreen ind prev && isRed ind last) (Bar.h last)
         (abcdCheck ind bars current) = (Some PULLBACK, Bar.h last)
    /\ exists macd,
         calculateMACD ind (map Bar.c bars) 12 26 9 = Some macd
         /\ (signal macd <? line macd)%float = true.
Proof.
  intros Hfired.
  destruct (evaluate_fired ind riskPct account symbol fetched Hfired)
    as (bars & current & last & prev & older & macd & pattern & triggerPrice
        & -> & Hlen & Hrev & Hmacd & Hpos & Hchoose & Htrigger & Hconf).
  destruct pattern.
  - destruct (choosePattern_PULLBACK _ _ _ _ Hchoose) as [Hpb ->].
    exists bars, current, last, prev, older. repeat split; eauto.
  - exfalso.
    destruct (choosePattern_ABCD_setup _ _ _ _ Hchoose) as (_ & Hsetup & Htrig).
    pose proof (abcdCheck_setup_below_B ind bars current triggerPrice Hsetup Htrig)
      as Hbelow.
    apply lt_excludes_ge in Hbelow.
    unfold confirmed in Hconf. rewrite Hbelow in Hconf. discriminate.
Qed.

(** X15: the ABCD pattern never gives a signal. Its setup needs the
    forming bar to close below point B, its confirmation needs that close
    at or above the trigger, and the trigger is point B: whatever the bars,
    the account and the helpers, no signal is counted and no action is
    produced with pattern ABCD. *)
Theorem abcd_never_fires :
  forall ind (riskPct : float) (account : Account) (symbol : string)
         (fetched : option (list Bar.t)),
    evaluate ind riskPct account symbol fetched <> SizingNonPositive ABCD
    /\ forall a,
         evaluate ind riskPct account symbol fetched = Entry a ->
         Action.pattern a = PULLBACK.
Proof.
  intros ind riskPct account symbol fetched.
  assert (signalFired (evaluate ind riskPct account symbol fetched) = true ->
          evaluate ind riskPct account symbol fetched = SizingNonPositive PULLBACK
          \/ exists a,
               evaluate ind riskPct account symbol fetched = Entry a
               /\ Action.pattern a = PULLBACK) as Hcases.
  { intros Hfired.
    destruct (fired_is_pullback ind riskPct account symbol fetched Hfired)
      as (bars & current & last & prev & older & -> & Hlen & Hrev & _
          & Htrigger & Hconf & Hchoose & macd & Hmacd & Hpos).
    rewrite (evaluate_selected ind riskPct account symbol bars current last prev
               older macd PULLBACK (Bar.h last) Hlen Hrev Hmacd Hpos Hchoose Htrigger).
    rewrite Hconf. cbn [negb]. cbv zeta.
    match goal with
    | |- context [if ?c then SizingNonPositive PULLBACK else Entry ?a] =>
        destruct c; [left; reflexivity|right; exists a; split; reflexivity]
    end. }
  split.
  - intros H. destruct Hcases as [H'|(a & H' & _)];
      [rewrite H; reflexivity| |]; rewrite H in H'; discriminate.
  - intros a H. destruct Hcases as [H'|(a' & H' & Hp)];
      [rewrite H; reflexivity| |]; rewrite H in H'; [discriminate|].
    injection H' as ->. exact Hp.
Qed.

(** An action carries the symbol it was computed for. *)
Lemma action_symbol_of_entry ind riskPct account symbol fetched a :
  evaluate ind riskPct account symbol fetched = Entry a ->
  Action.symbol a = symbol.
Proof.
  intros Hentry.
  assert (signalFired (evaluate ind riskPct account symbol fetched) = true) as Hfired
    by (rewrite Hentry; reflexivity).
  destruct (evaluate_fired ind riskPct account symbol fetched Hfired)
    as (bars & current & last & prev & older & macd & pattern & triggerPrice
        & -> & Hlen & Hrev & Hmacd & Hpos & Hchoose & Htrigger & Hconf).
  rewrite (evaluate_selected ind riskPct account symbol bars current last prev
             older macd pattern triggerPrice Hlen Hrev Hmacd Hpos Hchoose Htrigger)
    in Hentry.
  rewrite Hconf in Hentry. cbn [negb] in Hentry. cbv zeta in Hentry.
  match type of Hentry with
  | (if ?c then _ else _) = _ => destruct c; [discriminate|]
  end.
  injection Hentry as <-. reflexivity.
Qed.

(** X16: what every action has passed. An action comes only from at
    least thirty bars with the MACD line above its signal, a green bar
    followed by a red one, a positive trigger that is the red bar's high,
    a forming bar that closes at or above the trigger on more volume than
    the red bar, and a share count that is finite and positive; it carries
    the scanned symbol, that close and that trigger. *)
Theorem action_has_passed_every_gate :
  forall ind (riskPct : float) (account : Account) (symbol : string)
         (fetched : option (list Bar.t)) (a : Action.t),
    evaluate ind riskPct account symbol fetched = Entry a ->
    exists bars current last prev older macd,
      fetched = Some bars
      /\ (30 <= length bars)%nat
      /\ rev bars = current :: last :: prev :: older
      /\ calculateMACD ind (map Bar.c bars) 12 26 9 = Some macd
      /\ (signal macd <? line macd)%float = true
      /\ isGreen ind prev = true /\ isRed ind last = true
      /\ Action.symbol a = symbol
      /\ Action.triggerPrice a = Bar.h last
      /\ Action.priceNow a = Bar.c current
      /\ (0 <? Action.triggerPrice a)%float = true
      /\ (Action.triggerPrice a <=? Action.priceNow a)%float = true
      /\ (Bar.v last <? Bar.v current)%float = true
      /\ JS.isFinite (Action.shares a) = true
      /\ (Action.shares a <=? 0)%float = false.
Proof.
  intros ind riskPct account symbol fetched a Hentry.
  assert (signalFired (evaluate ind riskPct account symbol fetched) = true) as Hfired
    by (rewrite Hentry; reflexivity).
  destruct (fired_is_pullback ind riskPct account symbol fetched Hfired)
    as (bars & current & last & prev & older & -> & Hlen & Hrev & Hpb
        & Htrigger & Hconf & Hchoose & macd & Hmacd & Hpos).
  rewrite (evaluate_selected ind riskPct account symbol bars current last prev
             older macd PULLBACK (Bar.h last) Hlen Hrev Hmacd Hpos Hchoose Htrigger)
    in Hentry.
  rewrite Hconf in Hentry. cbn [negb] in Hentry. cbv zeta in Hentry.
  match type of Hentry with
  | (if negb ?fin || ?np then _ else _) = _ =>
      destruct fin eqn:Hfin; [|discriminate];
      destruct np eqn:Hnp; [discriminate|]
  end.
  cbn in Hentry. injection Hentry as <-. cbn.
  apply andb_prop in Hpb as [Hgreen Hred].
  apply andb_prop in Hconf as [Hprice Hvol].
  exists bars, current, last, prev, older, macd. repeat split; assumption.
Qed.

Lemma action_has_passed_every_gate_witness :
  exists bars current last prev older macd,
    Some WorkerExamples.bars1 = Some bars
    /\ (30 <= length bars)%nat
    /\ rev bars = current :: last :: prev :: older
    /\ calculateMACD SpecModel.indicators (map Bar.c bars) 12 26 9 = Some macd
    /\ (signal macd <? line macd)%float = true.
Proof.
  destruct (action_has_passed_every_gate SpecModel.indicators
              (JS.parseFloat "0.01") (WorkerExamples.account "10000") "ABC"%string
              (Some WorkerExamples.bars1)
              {| Action.symbol := "ABC"; Action.pattern := PULLBACK;
                 Action.priceNow := 20.1%float; Action.triggerPrice := 20%float;
                 Action.shares := 200%float; Action.riskDollars := 100%float;
                 Action.riskPerShare := 0.5%float |}
              ltac:(vm_compute; reflexivity))
    as (bars & current & last & prev & older & macd & H1 & H2 & H3 & H4 & H5 & _).
  exists bars, current, last, prev, older, macd.
  exact (conj H1 (conj H2 (conj H3 (conj H4 H5)))).
Defined.

(** *** The loop, one symbol at a time *)

(** What one turn of the loop adds to the trace and to the accumulators. *)
Lemma scanSymbol_log ind ext dryRun riskPct positions account acc symbol w :
  exists evs new,
    trace (snd (scanSymbol ind ext dryRun riskPct positions account acc symbol w))
    = trace w ++ evs
    /\ actions (fst (scanSymbol ind ext dryRun riskPct positions account acc symbol w))
       = actions acc ++ new
    /\ scanned (fst (scanSymbol ind ext dryRun riskPct positions account acc symbol w))
       = S (scanned acc)
    /\ (signals acc + length new
        <= signals (fst (scanSymbol ind ext dryRun riskPct positions account acc symbol w))
        <= S (signals acc))%nat
    /\ List.filter isBarsFetch evs
       = (if held positions symbol then [] else [BarsFetch symbol 60])
    /\ List.filter isOrder evs = (if dryRun then [] else map orderOf new)
    /\ Forall (fun a => Action.symbol a = symbol
                        /\ held positions symbol = false
                        /\ exists fetched,
                             evaluate ind riskPct account symbol fetched = Entry a)
         new.
Proof.
  unfold scanSymbol. fold (held positions symbol).
  destruct (held positions symbol) eqn:Hheld.
  - exists [], []. cbn. rewrite !app_nil_r.
    repeat split; auto; try lia; destruct dryRun; reflexivity.
  - unfold bind, request. cbn [fst snd trace].
    set (fetched := minuteBars ext (trace w) symbol 60).
    destruct (evaluate ind riskPct account symbol fetched) as [| | | | | |a] eqn:Hout;
      try (exists [BarsFetch symbol 60], []; cbn; rewrite ?app_nil_r;
           destruct dryRun; repeat split; auto; lia).
    assert (Action.symbol a = symbol) as Hsym.
    { destruct (action_symbol_of_entry ind riskPct account symbol fetched a Hout).
      reflexivity. }
    unfold submitOrder. destruct dryRun; cbn.
    + exists [BarsFetch symbol 60], [a]. cbn.
      repeat split; auto; try lia. constructor; [|constructor]. eauto.
    + exists [BarsFetch symbol 60; OrderPlaced symbol (Action.shares a)], [a]. cbn.
      rewrite <- app_assoc. unfold orderOf. rewrite Hsym.
      repeat split; auto; try lia. constructor; [|constructor]. eauto.
Qed.

(** What the whole loop adds, from any accumulators. *)
Lemma forEach_log ind ext dryRun riskPct positions account symbols :
  forall acc w,
  exists evs new,
    trace (snd (forEach (scanSymbol ind ext dryRun riskPct positions account)
                  symbols acc w))
    = trace w ++ evs
    /\ actions (fst (forEach (scanSymbol ind ext dryRun riskPct positions account)
                       symbols acc w))
       = actions acc ++ new
    /\ scanned (fst (forEach (scanSymbol ind ext dryRun riskPct positions account)
                       symbols acc w))
       = (scanned acc + length symbols)%nat
    /\ (signals acc + length new
        <= signals (fst (forEach (scanSymbol ind ext dryRun riskPct positions account)
                           symbols acc w))
        <= signals acc + length symbols)%nat
    /\ List.filter isBarsFetch evs
       = map (fun s => BarsFetch s 60)
           (List.filter (fun s => negb (held positions s)) symbols)
    /\ List.filter isOrder evs = (if dryRun then [] else map orderOf new)
    /\ Forall (fun a => In (Action.symbol a) symbols
                        /\ held positions (Action.symbol a) = false
                        /\ exists fetched,
                             evaluate ind riskPct account (Action.symbol a) fetched
                             = Entry a)
         new.
Proof.
  induction symbols as [|symbol rest IH]; intros acc w.
  - exists [], []. cbn. rewrite !app_nil_r.
    repeat split; auto; try lia; destruct dryRun; reflexivity.
  - assert (forEach (scanSymbol ind ext dryRun riskPct positions account)
              (symbol :: rest) acc w
            = forEach (scanSymbol ind ext dryRun riskPct positions account) rest
                (fst (scanSymbol ind ext dryRun riskPct positions account acc symbol w))
                (snd (scanSymbol ind ext dryRun riskPct positions account acc symbol w)))
      as ->.
    { cbn [forEach]. unfold bind.
      destruct (scanSymbol ind ext dryRun riskPct positions account acc symbol w);
        reflexivity. }
    destruct (scanSymbol_log ind ext dryRun riskPct positions account acc symbol w)
      as (evs1 & new1 & Ht1 & Ha1 & Hs1 & Hg1 & Hb1 & Ho1 & Hf1).
    destruct (scanSymbol ind ext dryRun riskPct positions account acc symbol w)
      as [acc1 w1].
    cbn [fst snd] in *.
    destruct (IH acc1 w1) as (evs2 & new2 & Ht2 & Ha2 & Hs2 & Hg2 & Hb2 & Ho2 & Hf2).
    exists (evs1 ++ evs2), (new1 ++ new2).
    rewrite Ht2, Ht1, Ha2, Ha1, Hs2, Hs1, !List.filter_app, Hb1, Hb2, Ho1, Ho2.
    rewrite !length_app, <- !app_assoc.
    split; [reflexivity|]. split; [reflexivity|].
    split; [cbn; lia|]. split; [cbn; lia|].
    split.
    { cbn [List.filter]. destruct (held positions symbol); reflexivity. }
    split.
    { destruct dryRun; [reflexivity|]. rewrite map_app. reflexivity. }
    apply Forall_app. split.
    + eapply Forall_impl; [exact Hf1|]. cbn.
      intros a (Hsym & Hheld & fetched & Hentry). rewrite Hsym.
      split; [left; reflexivity|]. split; [exact Hheld|].
      exists fetched. exact Hentry.
    + eapply Forall_impl; [exact Hf2|]. cbn.
      intros a (Hin & Hheld & Hentry). split; [right; exact Hin|]. auto.
Qed.

(** X17: the one-bullet rule, over the whole scan. Bars are requested
    once, with limit 60 and in watchlist order, for exactly the symbols of
    the watchlist at which [positionsBySymbol[symbol]] is falsy; every
    action of the result is for such a symbol. A name that a plain object
    inherits reads as truthy with no position open: on the watchlist
    ["constructor"; "ABC"] and the empty object, bars are requested for
    ["ABC"] alone. *)
Theorem held_symbols_are_skipped :
  (forall ind ext env (watchlist : list string)
          (positionsBySymbol : PositionsBySymbol) (account : Account) (w : World),
     exists evs,
       trace (snd (scanAndTrade_H3 ind ext env watchlist positionsBySymbol account w))
       = trace w ++ evs
       /\ List.filter isBarsFetch evs
          = map (fun s => BarsFetch s 60)
              (List.filter (fun s => negb (held positionsBySymbol s)) watchlist)
       /\ Forall (fun a => In (Action.symbol a) watchlist
                           /\ held positionsBySymbol (Action.symbol a) = false)
            (actions (fst (scanAndTrade_H3 ind ext env watchlist
                             positionsBySymbol account w))))
  /\ List.filter isBarsFetch
       (trace (snd (scanAndTrade_H3 SpecModel.indicators
                      (WorkerExamples.world1 600 "10000" false) WorkerExamples.env1
                      ["constructor"; "ABC"]%string (bySymbol [])
                      (WorkerExamples.account "10000") initialWorld)))
     = [BarsFetch "ABC" 60].
Proof.
  split; [|vm_compute; reflexivity].
  intros ind ext env watchlist positions account w. unfold scanAndTrade_H3.
  destruct (forEach_log ind ext (dryRunOf env)
              (JS.parseFloat (JS.nullish (RISK_PCT_PER_TRADE env) "0.01"))
              positions account watchlist
              {| scanned := 0; signals := 0; actions := [] |} w)
    as (evs & new & Ht & Ha & _ & _ & Hb & _ & Hf).
  exists evs. split; [exact Ht|]. split; [exact Hb|].
  unfold dryRunOf in Ha. rewrite Ha. cbn [actions app].
  eapply Forall_impl; [exact Hf|]. cbn.
  intros a (Hin & Hheld & _). split; [exact Hin|exact Hheld].
Qed.

(** X18: a dry run places no order. With [DRY_RUN] unset, or set to
    ["true"] in any letter case, the scan's requests are bar requests
    only. *)
Theorem dry_run_places_no_order :
  forall ind ext env (watchlist : list string)
         (positionsBySymbol : PositionsBySymbol) (account : Account) (w : World),
    dryRunOf env = true ->
    exists evs,
      trace (snd (scanAndTrade_H3 ind ext env watchlist positionsBySymbol account w))
      = trace w ++ evs
      /\ Forall (fun e => isBarsFetch e = true) evs.
Proof.
  intros ind ext env watchlist positions account w Hdry.
  pose proof (scanAndTrade_H3_scanOnly ind ext env watchlist positions account w)
    as (_ & _ & evs & Ht & Hscan).
  unfold scanAndTrade_H3 in *.
  destruct (forEach_log ind ext (dryRunOf env)
              (JS.parseFloat (JS.nullish (RISK_PCT_PER_TRADE env) "0.01"))
              positions account watchlist
              {| scanned := 0; signals := 0; actions := [] |} w)
    as (evs' & new & Ht' & _ & _ & _ & _ & Ho & _).
  unfold dryRunOf in Ht', Ho, Hdry. rewrite Ht in Ht'.
  apply app_inv_head in Ht'. subst evs'. rewrite Hdry in Ho.
  exists evs. split; [exact Ht|].
  clear Ht. induction evs as [|e evs IH]; [constructor|].
  inversion Hscan as [|? ? He Hrest]; subst.
  cbn in Ho. destruct e; cbn in *; try discriminate.
  constructor; [reflexivity|]. apply IH; assumption.
Qed.

Lemma dry_run_places_no_order_witness :
  exists evs,
    trace (snd (scanAndTrade_H3 SpecModel.indicators
                  (WorkerExamples.world1 600 "10000" false)
                  (mkEnv (Some "key") None None None None None None (Some "TRUE") None)
                  ["ABC"%string] emptyObject (WorkerExamples.account "10000")
                  initialWorld))
    = trace initialWorld ++ evs
    /\ Forall (fun e => isBarsFetch e = true) evs.
Proof.
  apply (dry_run_places_no_order SpecModel.indicators
           (WorkerExamples.world1 600 "10000" false)
           (mkEnv (Some "key") None None None None None None (Some "TRUE") None)
           ["ABC"%string] emptyObject (WorkerExamples.account "10000") initialWorld).
  vm_compute. reflexivity.
Defined.

(** X19: a live run places one order per action. With [DRY_RUN] set to
    anything but ["true"], the orders the scan places are, in order, one
    buy per action of the result, for the action's symbol and share
    count, and no others. *)
Theorem live_orders_match_actions :
  forall ind ext env (watchlist : list string)
         (positionsBySymbol : PositionsBySymbol) (account : Account) (w : World),
    dryRunOf env = false ->
    exists evs,
      trace (snd (scanAndTrade_H3 ind ext env watchlist positionsBySymbol account w))
      = trace w ++ evs
      /\ List.filter isOrder evs
         = map orderOf
             (actions (fst (scanAndTrade_H3 ind ext env watchlist
                              positionsBySymbol account w))).
Proof.
  intros ind ext env watchlist positions account w Hlive. unfold scanAndTrade_H3.
  destruct (forEach_log ind ext (dryRunOf env)
              (JS.parseFloat (JS.nullish (RISK_PCT_PER_TRADE env) "0.01"))
              positions account watchlist
              {| scanned := 0; signals := 0; actions := [] |} w)
    as (evs & new & Ht & Ha & _ & _ & _ & Ho & _).
  unfold dryRunOf in Ht, Ha, Ho, Hlive. rewrite Hlive in Ho.
  exists evs. split; [exact Ht|]. rewrite Ha. exact Ho.
Qed.

Lemma live_orders_match_actions_witness :
  exists evs,
    trace (snd (scanAndTrade_H3 SpecModel.indicators
                  (WorkerExamples.world1 600 "10000" false)
                  (mkEnv (Some "key") None None None None None None (Some "false") None)
                  ["ABC"%string] emptyObject (WorkerExamples.account "10000")
                  initialWorld))
    = trace initialWorld ++ evs
    /\ List.filter isOrder evs
       = map orderOf
           (actions (fst (scanAndTrade_H3 SpecModel.indicators
                            (WorkerExamples.world1 600 "10000" false)
                            (mkEnv (Some "key") None None None None None None
                               (Some "false") None)
                            ["ABC"%string] emptyObject (WorkerExamples.account "10000")
                            initialWorld))).
Proof.
  apply (live_orders_match_actions SpecModel.indicators
           (WorkerExamples.world1 600 "10000" false)
           (mkEnv (Some "key") None None None None None None (Some "false") None)
           ["ABC"%string] emptyObject (WorkerExamples.account "10000") initialWorld).
  vm_compute. reflexivity.
Defined.

(** X20: the counters of a scan. [scanned] is the length of the
    watchlist, whatever happens to each symbol; there are never more
    actions than signals, nor more signals than symbols scanned. *)
Theorem scan_counters :
  forall ind ext env (watchlist : list string)
         (positionsBySymbol : PositionsBySymbol) (account : Account) (w : World),
    let result :=
      fst (scanAndTrade_H3 ind ext env watchlist positionsBySymbol account w) in
    scanned result = length watchlist
    /\ (length (actions result) <= signals result <= scanned result)%nat.
Proof.
  intros ind ext env watchlist positions account w result. subst result.
  unfold scanAndTrade_H3.
  destruct (forEach_log ind ext (dryRunOf env)
              (JS.parseFloat (JS.nullish (RISK_PCT_PER_TRADE env) "0.01"))
              positions account watchlist
              {| scanned := 0; signals := 0; actions := [] |} w)
    as (evs & new & _ & Ha & Hs & Hg & _).
  unfold dryRunOf in Ha, Hs, Hg. rewrite Ha, Hs. cbn in *. lia.
Qed.

(** ** More on the run *)

(** A forced run is the run past the time gate. *)
Lemma forced_run ind ext env w :
  runBotOnce ind ext env true w
  = runInsideWindow ind ext env true (snd (getNewYorkTimeInfo ext (trace w))) w.
Proof.
  unfold runBotOnce. destruct (getNewYorkTimeInfo ext (trace w)). reflexivity.
Qed.

(** X21: the debug endpoint bypasses both gates. A request to
    [/debug/run-once] answers with the result of a forced run, which is
    the run from the watchlist on whatever the time of day, and which never
    ends with ["too-early"], ["too-late"] or ["daily-max-loss-hit"]. *)
Theorem debug_run_bypasses_gates :
  forall ind ext env (w : World),
    exists result,
      Routes.fetch ind ext env "/debug/run-once" w
      = (Routes.RunJson result, snd (runBotOnce ind ext env true w))
      /\ runBotOnce ind ext env true w
         = runInsideWindow ind ext env true
             (snd (getNewYorkTimeInfo ext (trace w))) w
      /\ result = fst (runBotOnce ind ext env true w)
      /\ reason result <> Some "too-early"%string
      /\ reason result <> Some "too-late"%string
      /\ reason result <> Some "daily-max-loss-hit"%string.
Proof.
  intros ind ext env w.
  exists (fst (runBotOnce ind ext env true w)).
  split.
  { unfold Routes.fetch. cbn [String.eqb Ascii.eqb Bool.eqb]. unfold bind.
    destruct (runBotOnce ind ext env true w); reflexivity. }
  split; [apply forced_run|]. split; [reflexivity|].
  rewrite forced_run.
  set (day := snd (getNewYorkTimeInfo ext (trace w))).
  destruct (runInsideWindow_reason ind ext env true day w) as [He Hl].
  split; [exact He|]. split; [exact Hl|].
  destruct (runInsideWindow_shape ind ext env true day w)
    as (snap & _ & [[H _]|[[H _]|[(eq & Hgate & _)|(eq & scan & evs & _ & H & _)]]]);
    cbv zeta in *; try (rewrite H; discriminate).
  rewrite andb_false_r in Hgate. discriminate.
Qed.

(** X22: outside the entry window the scheduled run does nothing. Before
    09:24 or after 11:00 the run of [scheduled] sends no request and leaves
    the watchlist cache as it is; it reports [ok: true] and no risk
    state. *)
Theorem scheduled_run_outside_window_is_inert :
  forall ind ext env (w : World) (minutes : Z) (day : string),
    getNewYorkTimeInfo ext (trace w) = (minutes, day) ->
    minutes < 564 \/ 660 < minutes ->
    snd (Routes.scheduled ind ext env w) = w
    /\ ok (fst (Routes.scheduled ind ext env w)) = true
    /\ riskStateOf (fst (Routes.scheduled ind ext env w)) = None.
Proof.
  intros ind ext env w minutes day Hnow Hout.
  unfold Routes.scheduled.
  assert (runBotOnce ind ext env false w
          = if minutes <? 564 then (TooEarly, w)
            else if 660 <? minutes then (TooLate, w)
            else runInsideWindow ind ext env false day w) as ->.
  { unfold runBotOnce. rewrite Hnow. reflexivity. }
  destruct (minutes <? 564) eqn:E1; [cbn; auto|].
  destruct (660 <? minutes) eqn:E2; [cbn; auto|].
  apply Z.ltb_ge in E1, E2. lia.
Qed.

Lemma scheduled_run_outside_window_is_inert_witness :
  snd (Routes.scheduled SpecModel.indicators
         (WorkerExamples.world1 661 "10000" false) WorkerExamples.env1
         WorkerExamples.cached1)
  = WorkerExamples.cached1.
Proof.
  refine (proj1 (scheduled_run_outside_window_is_inert SpecModel.indicators
    (WorkerExamples.world1 661 "10000" false) WorkerExamples.env1
    WorkerExamples.cached1 661 WorkerExamples.day1 eq_refl _)).
  right. lia.
Defined.

(** X23: the requests of a run follow from how it ends. A run gated by
    the time sends nothing; one that finds no watchlist has at most asked
    for the snapshot; one that fails on the account has asked for nothing
    after it; one stopped by the loss gate was not forced, got a tripped
    risk state, and stopped at the risk state request; and only a
    completed run asks for positions, bars and orders, after which, unless
    forced, its risk state is not tripped. *)
Theorem run_requests_follow_its_result :
  forall ind ext env (force : bool) (w : World),
    exists snap evs,
      (snap = [] \/ snap = [SnapshotFetch])
      /\ trace (snd (runBotOnce ind ext env force w)) = trace w ++ evs
      /\ match fst (runBotOnce ind ext env force w) with
         | TooEarly | TooLate => force = false /\ evs = []
         | EmptyWatchlist => evs = snap
         | AccountFetchFailed => evs = snap ++ [AccountFetch]
         | DailyMaxLossHit rs =>
             force = false
             /\ TradingBotState.hitDailyMaxLoss (TradingBotState.state rs) = true
             /\ exists day equity,
                  evs = snap ++ [AccountFetch; RiskStateFetch day equity]
         | Completed rs scan =>
             (force = true
              \/ TradingBotState.hitDailyMaxLoss (TradingBotState.state rs) = false)
             /\ exists day equity scanEvents,
                  evs = snap
                        ++ [AccountFetch; RiskStateFetch day equity; PositionsFetch]
                        ++ scanEvents
                  /\ Forall (fun e => isScanEvent e = true) scanEvents
         end.
Proof.
  intros ind ext env force w.
  assert (forall day,
            exists snap evs,
              (snap = [] \/ snap = [SnapshotFetch])
              /\ trace (snd (runInsideWindow ind ext env force day w)) = trace w ++ evs
              /\ match fst (runInsideWindow ind ext env force day w) with
                 | TooEarly | TooLate => force = false /\ evs = []
                 | EmptyWatchlist => evs = snap
                 | AccountFetchFailed => evs = snap ++ [AccountFetch]
                 | DailyMaxLossHit rs =>
                     force = false
                     /\ TradingBotState.hitDailyMaxLoss (TradingBotState.state rs) = true
                     /\ exists day equity,
                          evs = snap ++ [AccountFetch; RiskStateFetch day equity]
                 | Completed rs scan =>
                     (force = true
                      \/ TradingBotState.hitDailyMaxLoss (TradingBotState.state rs) = false)
                     /\ exists day equity scanEvents,
                          evs = snap
                                ++ [AccountFetch; RiskStateFetch day equity; PositionsFetch]
                                ++ scanEvents
                          /\ Forall (fun e => isScanEvent e = true) scanEvents
                 end) as Hinside.
  { intros day.
    destruct (runInsideWindow_shape ind ext env force day w)
      as (snap & Hsnap & [[H Ht]|[[H Ht]|[(eq & Hgate & H & Ht)|(eq & scan & evs & Hgate & H & Ht & Hevs)]]]);
      cbv zeta in *; exists snap; eexists; (split; [exact Hsnap|]);
      (split; [exact Ht|]); rewrite H.
    - reflexivity.
    - reflexivity.
    - apply andb_prop in Hgate as [Hhit Hforce].
      apply negb_true_iff in Hforce. eauto 6.
    - split; [|eauto 6].
      apply andb_false_iff in Hgate as [Hhit|Hforce]; [right; exact Hhit|].
      left. apply negb_false_iff in Hforce. exact Hforce. }
  unfold runBotOnce.
  destruct (getNewYorkTimeInfo ext (trace w)) as [minutes day].
  destruct force; cbn [negb]; [apply Hinside|].
  destruct (minutes <? ENTRY_WINDOW_START).
  { exists [], []. cbn. rewrite app_nil_r. auto. }
  destruct (ENTRY_WINDOW_END <? minutes).
  { exists [], []. cbn. rewrite app_nil_r. auto. }
  apply Hinside.
Qed.

(** What a completed run leaves in the cache and in its counters. *)
Lemma runInsideWindow_completed ind ext env force day w rs scan w' :
  runInsideWindow ind ext env force day w = (Completed rs scan, w') ->
  MASTER_WATCHLIST w' = fst (getOrBuildMasterWatchlist ext env day w)
  /\ MASTER_WATCHLIST_DAY w' = Some day
  /\ MASTER_WATCHLIST w' <> []
  /\ scanned scan = length (MASTER_WATCHLIST w').
Proof.
  intros E. unfold runInsideWindow, bind in E.
  destruct (watchlist_stored ext env day w) as (Hl & Hd & _).
  destruct (getOrBuildMasterWatchlist ext env day w) as [watchlist w1].
  cbn [fst snd] in *.
  destruct (length watchlist =? 0)%nat eqn:Hlen; [discriminate|].
  unfold request at 1 in E.
  destruct (alpacaAccount ext (trace w1)) as [account|]; [|discriminate].
  unfold request at 1 in E. cbn [trace] in E.
  match type of E with
  | (if ?gate then _ else _) _ = _ => destruct gate; [discriminate|]
  end.
  unfold request in E. cbn [trace fst snd MASTER_WATCHLIST MASTER_WATCHLIST_DAY] in E.
  match type of E with
  | context [scanAndTrade_H3 ind ext env watchlist ?ps account ?w2] =>
      pose proof (scanAndTrade_H3_scanOnly ind ext env watchlist ps account w2)
        as (Hl3 & Hd3 & _);
      destruct (forEach_log ind ext (dryRunOf env)
                  (JS.parseFloat (JS.nullish (RISK_PCT_PER_TRADE env) "0.01"))
                  ps account watchlist
                  {| scanned := 0; signals := 0; actions := [] |} w2)
        as (_ & _ & _ & _ & Hs & _);
      change (forEach (scanSymbol ind ext (dryRunOf env)
                         (JS.parseFloat (JS.nullish (RISK_PCT_PER_TRADE env) "0.01"))
                         ps account) watchlist
                {| scanned := 0; signals := 0; actions := [] |} w2)
        with (scanAndTrade_H3 ind ext env watchlist ps account w2) in Hs;
      destruct (scanAndTrade_H3 ind ext env watchlist ps account w2) as [scan3 w3]
  end.
  injection E as <- <- <-. cbn in *.
  rewrite Hl3, Hd3, Hl, Hs.
  repeat split; auto.
  intros ->. discriminate.
Qed.

(** X24: a completed run has scanned the day's whole watchlist. When a
    run ends with a scan result, the cache holds a non-empty watchlist
    stamped with the run's day, and [scanned] is its length. *)
Theorem completed_run_scanned_the_watchlist :
  forall ind ext env (force : bool) (w : World) rs scan,
    fst (runBotOnce ind ext env force w) = Completed rs scan ->
    let w' := snd (runBotOnce ind ext env force w) in
    MASTER_WATCHLIST w' <> []
    /\ MASTER_WATCHLIST_DAY w' = Some (snd (getNewYorkTimeInfo ext (trace w)))
    /\ scanned scan = length (MASTER_WATCHLIST w').
Proof.
  intros ind ext env force w rs scan H w'. subst w'.
  unfold runBotOnce in *.
  destruct (getNewYorkTimeInfo ext (trace w)) as [minutes day]. cbn [snd].
  assert (forall res,
            res = runInsideWindow ind ext env force day w ->
            fst res = Completed rs scan ->
            MASTER_WATCHLIST (snd res) <> []
            /\ MASTER_WATCHLIST_DAY (snd res) = Some day
            /\ scanned scan = length (MASTER_WATCHLIST (snd res))) as Hinside.
  { intros [r w'] Hres Hr. cbn in Hr. subst r. symmetry in Hres.
    destruct (runInsideWindow_completed ind ext env force day w rs scan w' Hres)
      as (_ & Hd & Hne & Hs).
    cbn. auto. }
  destruct (negb force).
  - destruct (minutes <? ENTRY_WINDOW_START); [discriminate|].
    destruct (ENTRY_WINDOW_END <? minutes); [discriminate|].
    apply Hinside; [reflexivity|exact H].
  - apply Hinside; [reflexivity|exact H].
Qed.

Lemma completed_run_scanned_the_watchlist_witness :
  scanned {| scanned := 1; signals := 1; actions := [] |}
  = length (MASTER_WATCHLIST
              (snd (runBotOnce SpecModel.indicators
                      (WorkerExamples.world1 600 "10" false) WorkerExamples.env1
                      false WorkerExamples.cached1))).
Proof.
  refine (proj2 (proj2 (completed_run_scanned_the_watchlist SpecModel.indicators
    (WorkerExamples.world1 600 "10" false) WorkerExamples.env1 false
    WorkerExamples.cached1 (WorkerExamples.riskState1 false)
    {| scanned := 1; signals := 1; actions := [] |} _))).
  vm_compute. reflexivity.
Defined.

(** An own property of the object stays one under further assignments. *)
Lemma assign_own_kept (o : PositionsBySymbol) (p : Position) (key : string) :
  is_Some (own o !! key) -> is_Some (own (assign o p) !! key).
Proof.
  intros H. unfold assign.
  match goal with |- context [if ?b then _ else _] => destruct b end;
    cbn [own]; [exact H|].
  destruct (decide (symbol p = key)) as [->|Hne].
  - rewrite lookup_insert_eq. eauto.
  - rewrite lookup_insert_ne by exact Hne. exact H.
Qed.

Lemma fold_assign_own_kept (positions : list Position) (key : string) :
  forall o : PositionsBySymbol,
    is_Some (own o !! key) ->
    is_Some (own (fold_left assign positions o) !! key).
Proof.
  induction positions as [|p positions IH]; intros o H; cbn; [exact H|].
  apply IH, assign_own_kept, H.
Qed.

(** A position under any other name than ["__proto__"] becomes an own
    property of the object. *)
Lemma assign_own_new (o : PositionsBySymbol) (p : Position) :
  symbol p <> "__proto__"%string -> is_Some (own (assign o p) !! symbol p).
Proof.
  intros Hne. unfold assign.
  destruct (String.eqb_spec (symbol p) "__proto__") as [Heq|_]; [contradiction|].
  cbn [andb own]. rewrite lookup_insert_eq. eauto.
Qed.

(** The object built from the positions reads as truthy at the symbol of
    each of them, ["__proto__"] apart. *)
Lemma bySymbol_held (positions : list Position) (p : Position) :
  In p positions -> symbol p <> "__proto__"%string ->
  forall o : PositionsBySymbol,
    truthyAt (fold_left assign positions o) (symbol p) = true.
Proof.
  intros Hin Hne.
  assert (forall o : PositionsBySymbol,
            is_Some (own (fold_left assign positions o) !! symbol p)) as Hown.
  { induction positions as [|q positions IH]; intros o; [destruct Hin|].
    cbn. destruct Hin as [->|Hin].
    - apply fold_assign_own_kept, assign_own_new, Hne.
    - apply IH, Hin. }
  intros o. unfold truthyAt. destruct (Hown o) as [q ->]. reflexivity.
Qed.

(** X25: no action for a symbol with an open position. With the
    positions object built as [runBotOnce] builds it from the list of
    open positions, no action of the scan has the symbol of a position of
    that list, the name ["__proto__"] apart. Under that name the assignment
    makes the position the prototype of the object, and the read then finds
    the position's own ["__proto__"] property: when it holds a falsy value
    ([null], say), the symbol is scanned and can get an action while the
    position is open. *)
Theorem no_action_for_open_position :
  (forall ind ext env (watchlist : list string) (positions : list Position)
          (account : Account) (w : World) (a : Action.t) (p : Position),
     In a (actions (fst (scanAndTrade_H3 ind ext env watchlist
                           (bySymbol positions) account w))) ->
     In p positions ->
     symbol p <> "__proto__"%string ->
     symbol p <> Action.symbol a)
  /\ (let p := {| symbol := "__proto__"; others := {["__proto__"%string := false]} |} in
      held (bySymbol [p]) (symbol p) = false
      /\ map Action.symbol
           (actions (fst (scanAndTrade_H3 SpecModel.indicators
                            (WorkerExamples.world1 600 "10000" false)
                            WorkerExamples.env1 ["__proto__"%string] (bySymbol [p])
                            (WorkerExamples.account "10000") initialWorld)))
         = [symbol p]).
Proof.
  split; [|split; vm_compute; reflexivity].
  intros ind ext env watchlist positions account w a p Ha Hp Hne Heq.
  unfold scanAndTrade_H3 in Ha.
  destruct (forEach_log ind ext (dryRunOf env)
              (JS.parseFloat (JS.nullish (RISK_PCT_PER_TRADE env) "0.01"))
              (bySymbol positions) account watchlist
              {| scanned := 0; signals := 0; actions := [] |} w)
    as (_ & new & _ & Hact & _ & _ & _ & _ & Hf).
  unfold dryRunOf in Hact. rewrite Hact in Ha. cbn [actions app] in Ha.
  rewrite Forall_forall in Hf.
  destruct (Hf a) as (_ & Hheld & _).
  { apply list_elem_of_In. exact Ha. }
  unfold held, bySymbol in Hheld. rewrite <- Heq in Hheld.
  rewrite (bySymbol_held positions p Hp Hne emptyObject) in Hheld.
  discriminate.
Qed.

Lemma no_action_for_open_position_witness :
  symbol {| symbol := "XYZ"; others := ∅ |}
  <> Action.symbol
       {| Action.symbol := "ABC"; Action.pattern := PULLBACK;
          Action.priceNow := 20.1%float; Action.triggerPrice := 20%float;
          Action.shares := 200%float; Action.riskDollars := 100%float;
          Action.riskPerShare := 0.5%float |}.
Proof.
  apply (proj1 no_action_for_open_position SpecModel.indicators
           (WorkerExamples.world1 600 "10000" false) WorkerExamples.env1
           ["XYZ"; "ABC"]%string [{| symbol := "XYZ"; others := ∅ |}]
           (WorkerExamples.account "10000") initialWorld).
  - vm_compute. left. reflexivity.
  - left. reflexivity.
  - discriminate.
Defined.
